(** * SAMscope: the telemetry collection-and-parsing engine

    A shallow embedding of [diagnose.py], [dashboard.py] and
    [clear_cache_android.py]: the command helpers, device detection, the
    collectors and the five source parsers, the system-process heuristic,
    the detection of heavy usage, the memory-health verdict of
    [collect_stats], the session endpoints and the actions on the device,
    followed by the properties established about them.

    Modelling conventions.
    - A Python [str] is a [string]; a character is a code point below 256
      (the Latin-1 range), classified as CPython classifies it.
    - A Python [float] is an IEEE 754 binary64 value, a [spec_float] operated
      on with precision 53 and maximal exponent 1024, rounding to nearest
      even.  A Python [int] is a [Z].
    - [sum] adds from left to right, starting from the integer 0 (CPython
      from 3.12 on compensates the rounding error of a sum of floats; the
      two agree wherever the partial sums are exact).
    - [int] has no limit on the number of digits it converts (CPython from
      3.11 on refuses more than 4300 by default).
    - A function that may raise returns a [result].
    - The monitoring session of the dashboard is concurrent: its state
      changes by the statements of the monitor threads and of the request
      handlers, one statement a step, interleaved in any order. *)

From Stdlib Require Import ZArith List Bool Ascii String Lia QArith.
From Stdlib Require Import Sorted Permutation.
From Stdlib Require Import Floats.SpecFloat.
From Stdlib Require Import DecimalString.
Import ListNotations.

Close Scope Q_scope.
Local Open Scope string_scope.
Local Open Scope list_scope.

(** ** Exceptions and results *)

Inductive exn : Type :=
| ValueError
| OverflowError
| ZeroDivisionError
| RuntimeError (msg : string)
| OtherException.

Inductive result (A : Type) : Type :=
| Ok (a : A)
| Raise (e : exn)
| SysExit (code : Z).

Arguments Ok {A} a.
Arguments Raise {A} e.
Arguments SysExit {A} code.

Definition bind {A B : Type} (x : result A) (f : A -> result B) : result B :=
  match x with
  | Ok a => f a
  | Raise e => Raise e
  | SysExit c => SysExit c
  end.

Notation "'do' x <- e1 ; e2" := (bind e1 (fun x => e2))
  (at level 10, x name, e1 at level 100, e2 at level 200).

(** ** Characters and strings as CPython treats them *)

Module PyStr.

Definition code (c : ascii) : N := N_of_ascii c.

Definition in_range (lo hi : N) (c : ascii) : bool :=
  (lo <=? code c)%N && (code c <=? hi)%N.

(** [str.isspace] and the regex class [\s]. *)
Definition isspace (c : ascii) : bool :=
  in_range 9 13 c || in_range 28 32 c || (code c =? 133)%N || (code c =? 160)%N.

(** The regex class [\d] and the decimal digits [int] and [float] accept. *)
Definition isdigit (c : ascii) : bool := in_range 48 57 c.

Definition isupper_ascii (c : ascii) : bool := in_range 65 90 c.
Definition islower_ascii (c : ascii) : bool := in_range 97 122 c.

(** The regex class [\w]: alphanumeric characters and the underscore. *)
Definition isword (c : ascii) : bool :=
  isdigit c || isupper_ascii c || islower_ascii c || (code c =? 95)%N
  || (code c =? 170)%N || (code c =? 178)%N || (code c =? 179)%N
  || (code c =? 181)%N || (code c =? 185)%N || (code c =? 186)%N
  || in_range 188 190 c || in_range 192 214 c || in_range 216 246 c
  || in_range 248 255 c.

(** The line boundaries of [str.splitlines]. *)
Definition islinebreak (c : ascii) : bool :=
  in_range 10 13 c || in_range 28 30 c || (code c =? 133)%N.

Definition is_cr (c : ascii) : bool := (code c =? 13)%N.
Definition is_lf (c : ascii) : bool := (code c =? 10)%N.

Definition is_empty (s : string) : bool :=
  match s with EmptyString => true | String _ _ => false end.

Fixpoint drop (n : nat) (s : string) : string :=
  match n, s with
  | O, _ => s
  | S k, String _ s' => drop k s'
  | S _, EmptyString => EmptyString
  end.

Fixpoint forallb (p : ascii -> bool) (s : string) : bool :=
  match s with
  | EmptyString => true
  | String c s' => p c && forallb p s'
  end.

Fixpoint existsb (p : ascii -> bool) (s : string) : bool :=
  match s with
  | EmptyString => false
  | String c s' => p c || existsb p s'
  end.

Fixpoint filter (p : ascii -> bool) (s : string) : string :=
  match s with
  | EmptyString => EmptyString
  | String c s' => if p c then String c (filter p s') else filter p s'
  end.

(** [str.startswith]. *)
Definition startswith (s pre : string) : bool := String.prefix pre s.

(** [sub in s]. *)
Fixpoint contains (sub s : string) : bool :=
  String.prefix sub s ||
  match s with
  | EmptyString => false
  | String _ s' => contains sub s'
  end.

(** [s.replace(c, '')] for a one-character [c]. *)
Definition remove_char (c : ascii) (s : string) : string :=
  filter (fun a => negb (Ascii.eqb a c)) s.

(** [str.splitlines]: a carriage return directly followed by a line feed
    is one boundary, and no empty line follows a final boundary. *)
Fixpoint splitlines (s : string) : list string :=
  match s with
  | EmptyString => []
  | String c s' =>
      if islinebreak c then
        EmptyString ::
        match s' with
        | String c2 s'' => if is_cr c && is_lf c2 then splitlines s'' else splitlines s'
        | EmptyString => []
        end
      else
        match splitlines s' with
        | [] => [String c EmptyString]
        | l :: ls => String c l :: ls
        end
  end.

Fixpoint lstrip (s : string) : string :=
  match s with
  | EmptyString => EmptyString
  | String c s' => if isspace c then lstrip s' else s
  end.

Fixpoint rstrip (s : string) : string :=
  match s with
  | EmptyString => EmptyString
  | String c s' =>
      let r := rstrip s' in
      if is_empty r && isspace c then EmptyString else String c r
  end.

(** [str.strip]. *)
Definition strip (s : string) : string := rstrip (lstrip s).

(** The token being read and the tokens after it. *)
Fixpoint split_go (s : string) : string * list string :=
  match s with
  | EmptyString => (EmptyString, [])
  | String c s' =>
      let '(cur, toks) := split_go s' in
      if isspace c
      then (EmptyString, if is_empty cur then toks else cur :: toks)
      else (String c cur, toks)
  end.

(** [str.split()] with no separator: the maximal runs of non-space. *)
Definition split (s : string) : list string :=
  let '(cur, toks) := split_go s in
  if is_empty cur then toks else cur :: toks.

(** [s.split(sep)] for a one-character [sep]: the fields between the
    separators, empty ones kept; never an empty list. *)
Fixpoint split_on (sep : ascii) (s : string) : list string :=
  match s with
  | EmptyString => [EmptyString]
  | String c s' =>
      if Ascii.eqb c sep then EmptyString :: split_on sep s'
      else
        match split_on sep s' with
        | l :: ls => String c l :: ls
        | [] => [String c EmptyString]
        end
  end.

End PyStr.

(** ** The fragment of [re] the parsers use

    Matching is by backtracking.  [run r s c] lists, in the order in which
    the backtracking matcher tries them, the ways [r] can match a prefix
    of [s]: the text matched, the text left and the groups captured.
    [re.match] takes the first way. *)

Module Re.

Inductive regex : Type :=
| Lit (l : string)                  (* literal text *)
| Set_ (p : ascii -> bool)          (* one character of a class *)
| Star (p : ascii -> bool)          (* [c*], greedy *)
| Plus (p : ascii -> bool)          (* [c+], greedy *)
| PlusLazy (p : ascii -> bool)      (* [c+?] *)
| Group (n : nat) (r : regex)       (* capturing group number [n] *)
| Opt (r : regex)                   (* [(?:r)?], greedy *)
| Cat (r1 r2 : regex).

Definition caps : Type := list (nat * string).

Fixpoint group (c : caps) (n : nat) : option string :=
  match c with
  | [] => None
  | (k, w) :: c' => if Nat.eqb k n then Some w else group c' n
  end.

Definition cons_fst (a : ascii) (x : string * string) : string * string :=
  (String a (fst x), snd x).

Fixpoint star_greedy (p : ascii -> bool) (s : string) : list (string * string) :=
  match s with
  | String a s' =>
      if p a then map (cons_fst a) (star_greedy p s') ++ [(EmptyString, s)]
      else [(EmptyString, s)]
  | EmptyString => [(EmptyString, s)]
  end.

Fixpoint star_lazy (p : ascii -> bool) (s : string) : list (string * string) :=
  (EmptyString, s) ::
  match s with
  | String a s' => if p a then map (cons_fst a) (star_lazy p s') else []
  | EmptyString => []
  end.

Definition with_caps (c : caps) (x : string * string) : string * string * caps :=
  (fst x, snd x, c).

Fixpoint run (r : regex) (s : string) (c : caps) : list (string * string * caps) :=
  match r with
  | Lit l =>
      if String.prefix l s then [(l, PyStr.drop (String.length l) s, c)] else []
  | Set_ p =>
      match s with
      | String a s' => if p a then [(String a EmptyString, s', c)] else []
      | EmptyString => []
      end
  | Star p => map (with_caps c) (star_greedy p s)
  | Plus p =>
      match s with
      | String a s' =>
          if p a then map (with_caps c) (map (cons_fst a) (star_greedy p s')) else []
      | EmptyString => []
      end
  | PlusLazy p =>
      match s with
      | String a s' =>
          if p a then map (with_caps c) (map (cons_fst a) (star_lazy p s')) else []
      | EmptyString => []
      end
  | Group n r1 =>
      map (fun x => match x with (w, s', c') => (w, s', (n, w) :: c') end) (run r1 s c)
  | Opt r1 => run r1 s c ++ [(EmptyString, s, c)]
  | Cat r1 r2 =>
      flat_map
        (fun x => match x with (w1, s1, c1) =>
           map (fun y => match y with (w2, s2, c2) => (String.append w1 w2, s2, c2) end)
               (run r2 s1 c1) end)
        (run r1 s c)
  end.

(** [re.match]: the groups of the first match at the start of [s]. *)
Definition re_match (r : regex) (s : string) : option caps :=
  match run r s [] with
  | (_, _, c) :: _ => Some c
  | [] => None
  end.

(** [re.search]: the first match at the leftmost position that has one. *)
Fixpoint re_search (r : regex) (s : string) : option caps :=
  match re_match r s with
  | Some c => Some c
  | None =>
      match s with
      | String _ s' => re_search r s'
      | EmptyString => None
      end
  end.

(** The length of the first match at the start of [s]. *)
Definition match_length (r : regex) (s : string) : option nat :=
  match run r s [] with
  | (w, _, _) :: _ => Some (String.length w)
  | [] => None
  end.

(** [pattern.sub('', s)]: [skip] characters of the match being deleted
    are still to be passed over. *)
Fixpoint sub_empty (r : regex) (skip : nat) (s : string) : string :=
  match s with
  | EmptyString => EmptyString
  | String a s' =>
      match skip with
      | S k => sub_empty r k s'
      | O =>
          match match_length r s with
          | Some (S k) => sub_empty r k s'
          | _ => String a (sub_empty r O s')
          end
      end
  end.

Fixpoint seq (rs : list regex) : regex :=
  match rs with
  | [] => Lit EmptyString
  | [r] => r
  | r :: rs' => Cat r (seq rs')
  end.

(** Character classes. *)
Definition d : ascii -> bool := PyStr.isdigit.
Definition s : ascii -> bool := PyStr.isspace.
Definition S_ : ascii -> bool := fun c => negb (PyStr.isspace c).
Definition w : ascii -> bool := PyStr.isword.
Definition dot : ascii -> bool := fun c => negb (PyStr.is_lf c).
Definition chr (a : ascii) : ascii -> bool := Ascii.eqb a.
Definition either (p q : ascii -> bool) : ascii -> bool := fun c => p c || q c.

End Re.

(** ** Numbers: [int] as [Z], [float] as binary64 *)

Module PyNum.

Local Open Scope Z_scope.

Definition prec : Z := 53.
Definition emax : Z := 1024.

Definition float : Type := spec_float.

Definition fadd : float -> float -> float := SFadd prec emax.
Definition fsub : float -> float -> float := SFsub prec emax.
Definition fdiv : float -> float -> float := SFdiv prec emax.
Definition flt : float -> float -> bool := SFltb.
Definition fle : float -> float -> bool := SFleb.

Definition is_nan (f : float) : bool :=
  match f with S754_nan => true | _ => false end.

(** The float nearest to an integer.  CPython raises [OverflowError]
    where this gives an infinity, from 2^1024 on; the integers converted
    here are the constants 0 and 4096 and the length of a list. *)
Definition float_of_Z (z : Z) : float := binary_normalize prec emax z 0 false.

(** The float nearest to [m * 10^e10], for [m >= 0]. *)
Definition float_of_decimal (m : Z) (e10 : Z) : float :=
  match m with
  | Zpos pm =>
      match e10 with
      | Zneg pe => fdiv (S754_finite false pm 0) (S754_finite false (10 ^ pe)%positive 0)
      | _ => float_of_Z (m * 10 ^ e10)
      end
  | _ => S754_zero false
  end.

Definition is_negative (z : Z) : bool :=
  match z with Zneg _ => true | _ => false end.

(** [a / b] on integers: the float nearest to the quotient,
    [OverflowError] when it is out of range. *)
Definition int_truediv (a b : Z) : result float :=
  match b, a with
  | Z0, _ => Raise ZeroDivisionError
  | _, Z0 => Ok (S754_zero (is_negative b))
  | _, _ =>
      match fdiv (S754_finite (is_negative a) (Z.to_pos (Z.abs a)) 0)
                 (S754_finite (is_negative b) (Z.to_pos (Z.abs b)) 0) with
      | S754_infinity _ | S754_nan => Raise OverflowError
      | f => Ok f
      end
  end.

(** *** Decimal literals *)

Definition digit_value (c : ascii) : Z := Z.of_N (PyStr.code c) - 48.

Fixpoint digits_value (acc : Z) (s : string) : Z :=
  match s with
  | EmptyString => acc
  | String c s' => digits_value (10 * acc + digit_value c) s'
  end.

Definition is_underscore (c : ascii) : bool := (PyStr.code c =? 95)%N.
Definition is_plus (c : ascii) : bool := (PyStr.code c =? 43)%N.
Definition is_minus (c : ascii) : bool := (PyStr.code c =? 45)%N.
Definition is_point (c : ascii) : bool := (PyStr.code c =? 46)%N.
Definition is_e (c : ascii) : bool := (PyStr.code c =? 101)%N || (PyStr.code c =? 69)%N.

(** A leading sign and what follows it. *)
Definition take_sign (s : string) : bool * string :=
  match s with
  | String c s' =>
      if is_minus c then (true, s')
      else if is_plus c then (false, s')
      else (false, s)
  | EmptyString => (false, s)
  end.

(** The longest prefix of digits and what follows it. *)
Fixpoint span_digits (s : string) : string * string :=
  match s with
  | String c s' =>
      if PyStr.isdigit c
      then let '(ds, r) := span_digits s' in (String c ds, r)
      else (EmptyString, s)
  | EmptyString => (EmptyString, s)
  end.

(** *** [int(s)] *)

(** Digits with single underscores between them; [prev] tells whether
    the character before is a digit. *)
Fixpoint int_digits_ok (prev : bool) (s : string) : bool :=
  match s with
  | EmptyString => prev
  | String c s' =>
      if PyStr.isdigit c then int_digits_ok true s'
      else if is_underscore c then prev && int_digits_ok false s'
      else false
  end.

Definition py_int (s : string) : result Z :=
  let '(neg, body) := take_sign (PyStr.strip s) in
  if int_digits_ok false body
  then let v := digits_value 0 (PyStr.filter PyStr.isdigit body) in
       Ok (if neg then - v else v)
  else Raise ValueError.

(** *** [float(s)] *)

(** The grouping underscores of a numeric literal: each has a digit
    before it and a digit after it.  [prev] is the character before. *)
Fixpoint underscores_ok (prev : option ascii) (s : string) : bool :=
  match s with
  | EmptyString =>
      match prev with
      | Some p => negb (is_underscore p)
      | None => true
      end
  | String c s' =>
      (if is_underscore c
       then match prev with Some p => PyStr.isdigit p | None => false end
       else match prev with
            | Some p => negb (is_underscore p) || PyStr.isdigit c
            | None => true
            end)
      && underscores_ok (Some c) s'
  end.

Definition lower (c : ascii) : ascii :=
  if PyStr.isupper_ascii c then ascii_of_N (PyStr.code c + 32) else c.

Fixpoint lower_string (s : string) : string :=
  match s with
  | EmptyString => EmptyString
  | String c s' => String (lower c) (lower_string s')
  end.

(** [inf], [infinity] and [nan], in any case. *)
Definition parse_inf_nan (body : string) : option float :=
  let l := lower_string body in
  if String.eqb l "inf" || String.eqb l "infinity" then Some (S754_infinity false)
  else if String.eqb l "nan" then Some S754_nan
  else None.

(** The exponent part: empty, or [e], an optional sign and digits. *)
Definition parse_exponent (s : string) : option Z :=
  match s with
  | EmptyString => Some 0
  | String c s' =>
      if is_e c then
        let '(neg, ds) := take_sign s' in
        if negb (PyStr.is_empty ds) && PyStr.forallb PyStr.isdigit ds
        then Some (if neg then - digits_value 0 ds else digits_value 0 ds)
        else None
      else None
  end.

(** A decimal literal as a mantissa and a power of ten:
    digits, an optional point and digits, an optional exponent, with
    at least one digit before the exponent. *)
Definition parse_decimal (body : string) : option (Z * Z) :=
  let '(ip, r1) := span_digits body in
  let '(fp, r2) :=
    match r1 with
    | String c r => if is_point c then span_digits r else (EmptyString, r1)
    | EmptyString => (EmptyString, r1)
    end in
  if PyStr.is_empty ip && PyStr.is_empty fp then None
  else
    match parse_exponent r2 with
    | Some e => Some (digits_value 0 (String.append ip fp), e - Z.of_nat (String.length fp))
    | None => None
    end.

Definition signed (neg : bool) (f : float) : float :=
  if neg then SFopp f else f.

Definition py_float (s : string) : result float :=
  if underscores_ok None s then
    let '(neg, body) := take_sign (PyStr.strip (PyStr.remove_char "_" s)) in
    match parse_decimal body with
    | Some (m, e10) => Ok (signed neg (float_of_decimal m e10))
    | None =>
        match parse_inf_nan body with
        | Some f => Ok (signed neg f)
        | None => Raise ValueError
        end
    end
  else Raise ValueError.

(** A float literal of the source text. *)
Definition literal (s : string) : float :=
  match py_float s with
  | Ok f => f
  | _ => S754_nan
  end.

(** *** Arithmetic on mixed numbers *)

Inductive num : Type :=
| Int (z : Z)
| Float (f : float).

Definition to_float (x : num) : float :=
  match x with
  | Int z => float_of_Z z
  | Float f => f
  end.

Definition add (x y : num) : num :=
  match x, y with
  | Int a, Int b => Int (a + b)
  | _, _ => Float (fadd (to_float x) (to_float y))
  end.

Definition sub (x y : num) : num :=
  match x, y with
  | Int a, Int b => Int (a - b)
  | _, _ => Float (fsub (to_float x) (to_float y))
  end.

(** [x < y] and [x <= y]; an integer compared with a float is converted
    first, which is exact for the integers compared here. *)
Definition lt (x y : num) : bool :=
  match x, y with
  | Int a, Int b => (a <? b)%Z
  | _, _ => flt (to_float x) (to_float y)
  end.

Definition le (x y : num) : bool :=
  match x, y with
  | Int a, Int b => (a <=? b)%Z
  | _, _ => fle (to_float x) (to_float y)
  end.

(** [sum(xs)]. *)
Definition sum (xs : list num) : num := fold_left add xs (Int 0).

(** The exact value of a finite float. *)
Definition to_Q (f : float) : option Q :=
  match f with
  | S754_zero _ => Some (inject_Z 0)
  | S754_finite s m e =>
      let v := match e with
               | Zneg pe => Qmake (Zpos m) (2 ^ pe)%positive
               | _ => inject_Z (Zpos m * 2 ^ e)
               end in
      Some (Qred (if s then Qopp v else v))
  | _ => None
  end.

End PyNum.

(** ** The source parsers ([diagnose.py]; [dashboard.py] repeats the
    process-table, memory and thermal parsers word for word) *)

Module Parsers.

Import Re.

Definition float : Type := PyNum.float.

Definition range (lo hi : N) : ascii -> bool := PyStr.in_range lo hi.

Definition truthy (s : string) : bool := negb (PyStr.is_empty s).

(** *** [strip_ansi] *)

Definition esc : ascii := ascii_of_N 27.

(** [\x1B\[[0-?]*[ -/]*[@-~]] *)
Definition ansi_escape : regex :=
  seq [Lit (String esc "["); Star (range 48 63); Star (range 32 47); Set_ (range 64 126)].

Definition strip_ansi (text : string) : string := sub_empty ansi_escape 0 text.

(** *** [collect_cpu_stats_from_raw] *)

Record process : Type := {
  p_pid : Z;
  p_user : string;
  p_cpu : float;
  p_mem : float;
  p_time : string;
  p_name : string
}.

(** [PID\s+USER] *)
Definition header_re : regex := seq [Lit "PID"; Plus s; Lit "USER"].

Definition is_header (line : string) : bool :=
  match re_search header_re line with
  | Some _ => PyStr.contains "[%CPU]" line
  | None => false
  end.

(** The part of the row pattern the strict and the loose pattern share:
    [\s*(\d+)\s+(\S+)\s+\S+\s+\S+\s+\S+\s+\S+\s+\S+\s+\S+\s+([\d.]+)\s+([\d.]+)\s+([\d:]+)\s+] *)
Definition row_prefix : list regex :=
  [Star s; Group 1 (Plus d); Plus s; Group 2 (Plus S_); Plus s;
   Plus S_; Plus s; Plus S_; Plus s; Plus S_; Plus s;
   Plus S_; Plus s; Plus S_; Plus s; Plus S_; Plus s;
   Group 3 (Plus (either d (chr "."))); Plus s;
   Group 4 (Plus (either d (chr "."))); Plus s;
   Group 5 (Plus (either d (chr ":"))); Plus s].

(** The strict pattern ends in [(\S+)], the loose one in [(.+)]. *)
Definition row_strict : regex := seq (row_prefix ++ [Group 6 (Plus S_)]).
Definition row_loose : regex := seq (row_prefix ++ [Group 6 (Plus dot)]).

Definition get (c : caps) (n : nat) : string :=
  match group c n with
  | Some w => w
  | None => EmptyString
  end.

Definition process_of_groups (c : caps) : result process :=
  do pid <- PyNum.py_int (get c 1);
  do cpu <- PyNum.py_float (get c 3);
  do mem <- PyNum.py_float (get c 4);
  Ok {| p_pid := pid; p_user := get c 2; p_cpu := cpu; p_mem := mem;
        p_time := get c 5; p_name := get c 6 |}.

(** The lines after the first header line. *)
Fixpoint after_header (lines : list string) : option (list string) :=
  match lines with
  | [] => None
  | line :: rest => if is_header line then Some rest else after_header rest
  end.

Fixpoint cpu_rows (lines : list string) (processes : list process)
  : result (list process) :=
  match lines with
  | [] => Ok processes
  | line :: rest =>
      match re_match row_strict line with
      | Some m =>
          do p <- process_of_groups m;
          cpu_rows rest (processes ++ [p])
      | None =>
          match re_match row_loose line with
          | Some m2 =>
              do p <- process_of_groups m2;
              cpu_rows rest (processes ++ [p])
          | None => cpu_rows rest processes
          end
      end
  end.

Definition collect_cpu_stats_from_raw (raw : string) : result (list process) :=
  let lines :=
    map strip_ansi
        (List.filter (fun line => truthy (PyStr.strip line)) (PyStr.splitlines raw)) in
  match after_header lines with
  | None => Ok []
  | Some rows => cpu_rows rows []
  end.

(** *** [collect_ram_stats_from_raw] *)

Record app : Type := {
  a_name : string;
  a_pid : Z;
  a_ram_mb : float
}.

(** [\s*([\d,]+)K: (.+?) \(pid (\d+)(?: /.+)?\)] *)
Definition ram_re : regex :=
  seq [Star s; Group 1 (Plus (either d (chr ","))); Lit "K: ";
       Group 2 (PlusLazy dot); Lit " (pid "; Group 3 (Plus d);
       Opt (Cat (Lit " /") (Plus dot)); Lit ")"].

(** The lines after the first one that holds the section marker. *)
Fixpoint after_marker (marker : string) (lines : list string) : option (list string) :=
  match lines with
  | [] => None
  | line :: rest =>
      if PyStr.contains marker line then Some rest else after_marker marker rest
  end.

Fixpoint ram_rows (lines : list string) (apps : list app) : result (list app) :=
  match lines with
  | [] => Ok apps
  | line :: rest =>
      match re_match ram_re line with
      | Some m =>
          do kb <- PyNum.py_int (PyStr.remove_char "," (get m 1));
          do mb <- PyNum.int_truediv kb 1024;
          do pid <- PyNum.py_int (get m 3);
          ram_rows rest (apps ++ [{| a_name := get m 2; a_pid := pid; a_ram_mb := mb |}])
      | None =>
          if PyStr.is_empty (PyStr.strip line) then Ok apps
          else ram_rows rest apps
      end
  end.

(** [apps.sort(key=lambda x: x["ram_mb"], reverse=True)]: the stable
    sort by descending key; the keys are compared with [<] only.  An
    element passes the elements that are greater and stops before the
    first that is not, so the elements of equal key keep their order. *)
Fixpoint insert_desc (x : app) (l : list app) : list app :=
  match l with
  | [] => [x]
  | y :: l' =>
      if PyNum.flt (a_ram_mb x) (a_ram_mb y) then y :: insert_desc x l'
      else x :: l
  end.

Fixpoint sort_desc (l : list app) : list app :=
  match l with
  | [] => []
  | x :: l' => insert_desc x (sort_desc l')
  end.

Definition collect_ram_stats_from_raw (raw : string) : result (list app) :=
  match after_marker "Total RSS by process:" (PyStr.splitlines raw) with
  | None => Ok []
  | Some rows =>
      do apps <- ram_rows rows [];
      Ok (sort_desc apps)
  end.

(** *** [collect_thermal_info_from_raw] *)

(** A [dict] with string keys: the keys in insertion order; assigning
    to a key that is present replaces its value in place. *)
Definition dict (V : Type) : Type := list (string * V).

Fixpoint dict_set {V : Type} (k : string) (v : V) (dct : dict V) : dict V :=
  match dct with
  | [] => [(k, v)]
  | (k', v') :: dct' =>
      if String.eqb k' k then (k, v) :: dct' else (k', v') :: dict_set k v dct'
  end.

Fixpoint dict_get {V : Type} (k : string) (dct : dict V) : option V :=
  match dct with
  | [] => None
  | (k', v') :: dct' => if String.eqb k' k then Some v' else dict_get k dct'
  end.

(** [Temperature\{mValue=([\d.]+), mType=\d+, mName=([A-Z0-9_]+), mStatus=\d+\}] *)
Definition thermal_re : regex :=
  seq [Lit "Temperature{mValue="; Group 1 (Plus (either d (chr ".")));
       Lit ", mType="; Plus d; Lit ", mName=";
       Group 2 (Plus (either (range 65 90) (either (range 48 57) (chr "_"))));
       Lit ", mStatus="; Plus d; Lit "}"].

Fixpoint thermal_rows (lines : list string) (sensors : dict float) : result (dict float) :=
  match lines with
  | [] => Ok sensors
  | line :: rest =>
      match re_search thermal_re line with
      | Some m =>
          do v <- PyNum.py_float (get m 1);
          thermal_rows rest (dict_set (get m 2) v sensors)
      | None => thermal_rows rest sensors
      end
  end.

Definition collect_thermal_info_from_raw (raw : string) : result (dict float) :=
  thermal_rows (PyStr.splitlines raw) [].

(** *** [collect_gfx_stats_from_raw] *)

Record gfx : Type := {
  avg_frame_time_ms : option float;
  jank_frames : option Z;
  total_frames : Z
}.

(** [draw, process, execute = map(float, parts)] followed by
    [draw + process + execute], for three parts. *)
Definition frame_time (a b c : string) : result float :=
  do draw <- PyNum.py_float a;
  do process <- PyNum.py_float b;
  do execute <- PyNum.py_float c;
  Ok (PyNum.fadd (PyNum.fadd draw process) execute).

(** The loop over the lines; [except ValueError: continue] lets any
    other exception through. *)
Fixpoint gfx_rows (lines : list string) (in_section : bool) (frame_times : list float)
  : result (list float) :=
  match lines with
  | [] => Ok frame_times
  | line :: rest =>
      if PyStr.contains "Profile data in ms:" line then gfx_rows rest true frame_times
      else if in_section then
        if negb (truthy (PyStr.strip line)) then Ok frame_times
        else
          match PyStr.split (PyStr.strip line) with
          | [a; b; c] =>
              match frame_time a b c with
              | Ok t => gfx_rows rest in_section (frame_times ++ [t])
              | Raise ValueError => gfx_rows rest in_section frame_times
              | Raise e => Raise e
              | SysExit n => SysExit n
              end
          | _ => gfx_rows rest in_section frame_times
          end
      else gfx_rows rest in_section frame_times
  end.

Definition jank_threshold : float := PyNum.literal "16.67".

Definition len {A : Type} (l : list A) : Z := Z.of_nat (List.length l).

Definition gfx_of_frames (frame_times : list float) : gfx :=
  match frame_times with
  | [] => {| avg_frame_time_ms := None; jank_frames := None; total_frames := 0 |}
  | _ =>
      let avg :=
        PyNum.fdiv (PyNum.to_float (PyNum.sum (map PyNum.Float frame_times)))
                   (PyNum.float_of_Z (len frame_times)) in
      let jank := len (List.filter (fun t => PyNum.flt jank_threshold t) frame_times) in
      {| avg_frame_time_ms := Some avg; jank_frames := Some jank;
         total_frames := len frame_times |}
  end.

Definition collect_gfx_stats_from_raw (raw : string) : result gfx :=
  do frame_times <- gfx_rows (PyStr.splitlines raw) false [];
  Ok (gfx_of_frames frame_times).

(** *** [collect_services_from_raw] *)

(** [\s*\* ServiceRecord\{[a-f0-9]+ u\d+ ([\w\.]+)/(\S+)\}] *)
Definition service_re : regex :=
  seq [Star s; Lit "* ServiceRecord{"; Plus (either (range 97 102) (range 48 57));
       Lit " u"; Plus d; Lit " "; Group 1 (Plus (either w (chr "."))); Lit "/";
       Group 2 (Plus S_); Lit "}"].

Fixpoint service_rows (lines : list string) (services : list string) : list string :=
  match lines with
  | [] => services
  | line :: rest =>
      match re_match service_re line with
      | Some m => service_rows rest (services ++ [String.append (get m 1) (String.append "/" (get m 2))])
      | None => service_rows rest services
      end
  end.

Definition collect_services_from_raw (raw : string) : result (list string) :=
  Ok (service_rows (PyStr.splitlines raw) []).

End Parsers.

(** ** The command helpers *)

(** What [subprocess.run(cmd, ..., timeout=timeout, text=True)] does:
    the process ends with a return code and its two output streams, or
    the timeout expires, or the executable is not found, or the call
    fails with another exception. *)
Inductive outcome : Type :=
| Completed (returncode : Z) (stdout stderr : string)
| TimeoutExpired
| FileNotFoundError
| Failed (e : exn).

Module Diagnose.

Definition join_spaces (cmd : list string) : string := String.concat " " cmd.

Definition newline : string := String (ascii_of_N 10) EmptyString.

(** [run_adb_command]; the messages printed on the console are left out. *)
Definition run_adb_command (cmd : list string) (run : outcome) : result string :=
  match run with
  | Completed returncode stdout stderr =>
      if negb (returncode =? 0)%Z
      then Raise (RuntimeError
                    (String.append "ADB error: "
                       (String.append (join_spaces cmd)
                          (String.append newline (PyStr.strip stderr)))))
      else Ok stdout
  | FileNotFoundError => SysExit 1
  | TimeoutExpired => Ok EmptyString
  | Failed e => Raise e
  end.

Definition system_names : list string :=
  ["system_server"; "surfaceflinger"; "audioserver"; "mediaserver"; "zygote"; "init";
   "logd"; "statsd"; "adbd"; "android.hardware"; "vendor."; "servicemanager";
   "hwservicemanager"; "gatekeeperd"; "keystore2"; "rild"; "netd"; "lmkd";
   "cameraserver"; "drmserver"; "gpsd"; "vaultkeeperd"; "watchdogd"; "traced";
   "traced_probes"; "tombstoned"; "ueventd"; "vold"; "auditd"; "credstore";
   "perfsdkserver"; "main_abox"; "abox_log"; "fabric_crypto"; "incidentd"; "iod";
   "cass"; "smdexe"; "speg_helper"; "spqr_service"; "emservice"; "tzdaemon";
   "prng_seeder"; "smc_server"; "wlbtd"; "connfwexe"; "ddexe"; "diagexe"; "cbd";
   "media.swcodec"; "media.extractor"; "media.metrics";
   "android.system.suspend-service"; "android.hardware.memtrack-service.exynos";
   "android.hardware.bluetooth@1.0-service"; "android.hardware.drm-service.widevine";
   "android.hardware.drm-service.clearkey"; "android.hardware.gatekeeper@1.0-service";
   "android.hardware.graphics.allocator@4.0-service";
   "android.hardware.graphics.composer@2.2-service";
   "android.hardware.power.samsung-service";
   "android.hardware.sensors-service.multihal";
   "android.hardware.usb@1.3-service.coral"; "android.hardware.vibrator-service";
   "android.hardware.wifi-service"; "android.hardware.audio.service";
   "android.hardware.security.keymint-service";
   "android.hardware.security.fkeymaster-service";
   "android.hardware.security.drk@2.0-service";
   "android.hardware.security.engmode@1.0-service";
   "android.hardware.security.proca@2.0-service"; "vendor.samsung.hardware.";
   "samsung.hardware.media.c2@1.2-service"; "samsung.software.media.c2@1.0-service";
   "vaultkeeperd"; "perfmond"; "pageboostd"; "multiclientd"; "wlbtd";
   "kumiho.decoder"; "gpuservice"; "vndservicemanager"; "prey"; "preyproject";
   "android.process.media"; "android.process.acore"; "android.process"; "zygote64";
   "zygote"].

Definition is_system_process (name : string) : bool :=
  if List.existsb (fun n => PyStr.startswith name n) system_names then true
  else if negb (PyStr.contains "." name) then true
  else false.

Definition collect_cpu_stats_from_raw := Parsers.collect_cpu_stats_from_raw.
Definition collect_ram_stats_from_raw := Parsers.collect_ram_stats_from_raw.
Definition collect_thermal_info_from_raw := Parsers.collect_thermal_info_from_raw.
Definition collect_gfx_stats_from_raw := Parsers.collect_gfx_stats_from_raw.
Definition collect_services_from_raw := Parsers.collect_services_from_raw.

(** *** Device detection *)

Definition tab : ascii := ascii_of_N 9.

(** [line.split('\t')[0]] *)
Definition first_field (line : string) : string :=
  match PyStr.split_on tab line with
  | f :: _ => f
  | [] => EmptyString
  end.

(** [[line.split('\t')[0] for line in lines[1:] if '\tdevice' in line]] *)
Definition device_ids (lines : list string) : list string :=
  map first_field
      (List.filter (fun line => PyStr.contains (String tab "device") line) (tl lines)).

(** [detect_device]: the identifier of the first device listed, or
    [None]; the messages printed are left out. *)
Definition detect_device (run : outcome) : result (option string) :=
  do output <- run_adb_command ["adb"; "devices"] run;
  let lines := PyStr.splitlines (PyStr.strip output) in
  match device_ids lines with
  | [] => Ok None
  | first :: _ => Ok (Some first)
  end.

(** *** The collectors that run their own command *)

Import Re.

Record top_process : Type := {
  t_pid : Z;
  t_cpu : Parsers.float;
  t_mem : Parsers.float;
  t_name : string
}.

(** [\s*(\d+)\s+\S+\s+\d+\s+\d+\s+\S+\s+\S+\s+\S+\s+\S+\s+([\d.]+)\s+([\d.]+)\s+(\S+)] *)
Definition top_re : regex :=
  seq [Star s; Group 1 (Plus d); Plus s; Plus S_; Plus s; Plus d; Plus s; Plus d; Plus s;
       Plus S_; Plus s; Plus S_; Plus s; Plus S_; Plus s; Plus S_; Plus s;
       Group 2 (Plus (either d (chr "."))); Plus s;
       Group 3 (Plus (either d (chr "."))); Plus s;
       Group 4 (Plus S_)].

Fixpoint top_rows (lines : list string) (processes : list top_process)
  : result (list top_process) :=
  match lines with
  | [] => Ok processes
  | line :: rest =>
      match re_match top_re line with
      | Some m =>
          do pid <- PyNum.py_int (Parsers.get m 1);
          do cpu <- PyNum.py_float (Parsers.get m 2);
          do mem <- PyNum.py_float (Parsers.get m 3);
          top_rows rest (processes ++ [{| t_pid := pid; t_cpu := cpu; t_mem := mem;
                                          t_name := Parsers.get m 4 |}])
      | None => top_rows rest processes
      end
  end.

Definition collect_cpu_stats (device_id : string) (run : outcome)
  : result (list top_process) :=
  do output <- run_adb_command
                 ["adb"; "-s"; device_id; "shell"; "top"; "-m"; "10"; "-n"; "1"] run;
  top_rows (PyStr.splitlines output) [].

Record ram_app : Type := {
  r_name : string;
  r_ram_mb : Parsers.float
}.

(** [\s*(\S+):\s+([\d,]+) kB] *)
Definition meminfo_re : regex :=
  seq [Star s; Group 1 (Plus S_); Lit ":"; Plus s;
       Group 2 (Plus (either d (chr ","))); Lit " kB"].

Fixpoint meminfo_rows (lines : list string) (apps : list ram_app) : result (list ram_app) :=
  match lines with
  | [] => Ok apps
  | line :: rest =>
      match re_match meminfo_re line with
      | Some m =>
          do kb <- PyNum.py_int (PyStr.remove_char "," (Parsers.get m 2));
          do mb <- PyNum.int_truediv kb 1024;
          meminfo_rows rest (apps ++ [{| r_name := Parsers.get m 1; r_ram_mb := mb |}])
      | None => meminfo_rows rest apps
      end
  end.

(** The stable sort by descending [ram_mb], as in the parser of the dump. *)
Fixpoint insert_ram_app (x : ram_app) (l : list ram_app) : list ram_app :=
  match l with
  | [] => [x]
  | y :: l' =>
      if PyNum.flt (r_ram_mb x) (r_ram_mb y) then y :: insert_ram_app x l'
      else x :: l
  end.

Fixpoint sort_ram_apps (l : list ram_app) : list ram_app :=
  match l with
  | [] => []
  | x :: l' => insert_ram_app x (sort_ram_apps l')
  end.

Definition collect_ram_stats (device_id : string) (run : outcome)
  : result (list ram_app) :=
  do output <- run_adb_command ["adb"; "-s"; device_id; "shell"; "dumpsys"; "meminfo"] run;
  do apps <- meminfo_rows (PyStr.splitlines output) [];
  Ok (sort_ram_apps apps).

Record sensor : Type := {
  s_type : string;
  s_temp : Parsers.float
}.

(** [\s*Sensor: (.+?)\s+Type: (.+?)\s+Temp: ([\d.]+)] *)
Definition sensor_re : regex :=
  seq [Star s; Lit "Sensor: "; Group 1 (PlusLazy dot); Plus s; Lit "Type: ";
       Group 2 (PlusLazy dot); Plus s; Lit "Temp: ";
       Group 3 (Plus (either d (chr ".")))].

Fixpoint sensor_rows (lines : list string) (sensors : Parsers.dict sensor)
  : result (Parsers.dict sensor) :=
  match lines with
  | [] => Ok sensors
  | line :: rest =>
      match re_match sensor_re line with
      | Some m =>
          do temp <- PyNum.py_float (Parsers.get m 3);
          sensor_rows rest
            (Parsers.dict_set (Parsers.get m 1)
               {| s_type := Parsers.get m 2; s_temp := temp |} sensors)
      | None => sensor_rows rest sensors
      end
  end.

Definition collect_thermal_info (device_id : string) (run : outcome)
  : result (Parsers.dict sensor) :=
  do output <- run_adb_command
                 ["adb"; "-s"; device_id; "shell"; "dumpsys"; "thermalservice"] run;
  sensor_rows (PyStr.splitlines output) [].

(** [collect_gfx_stats]: the loop and the summary are those of
    [collect_gfx_stats_from_raw]. *)
Definition collect_gfx_stats (device_id package : string) (run : outcome)
  : result Parsers.gfx :=
  do output <- run_adb_command
                 ["adb"; "-s"; device_id; "shell"; "dumpsys"; "gfxinfo"; package] run;
  do frame_times <- Parsers.gfx_rows (PyStr.splitlines output) false [];
  Ok (Parsers.gfx_of_frames frame_times).

(** [\s*ServiceRecord\{.*\s(\S+)/(\S+)\}] *)
Definition record_re : regex :=
  seq [Star s; Lit "ServiceRecord{"; Star dot; Set_ s; Group 1 (Plus S_); Lit "/";
       Group 2 (Plus S_); Lit "}"].

Fixpoint record_rows (lines : list string) (services : list string) : list string :=
  match lines with
  | [] => services
  | line :: rest =>
      match re_match record_re line with
      | Some m =>
          record_rows rest
            (services ++ [String.append (Parsers.get m 1)
                            (String.append "/" (Parsers.get m 2))])
      | None => record_rows rest services
      end
  end.

Definition collect_services (device_id : string) (run : outcome) : result (list string) :=
  do output <- run_adb_command
                 ["adb"; "-s"; device_id; "shell"; "dumpsys"; "activity"; "services"] run;
  Ok (record_rows (PyStr.splitlines output) []).

(** *** Heavy usage *)

Definition HEAVY_CPU : PyNum.num := PyNum.Float (PyNum.literal "50.0").
Definition HEAVY_RAM : PyNum.num := PyNum.Int 300.

Definition highlight_heavy_cpu (processes : list Parsers.process) : list Parsers.process :=
  List.filter (fun p => PyNum.le HEAVY_CPU (PyNum.Float (Parsers.p_cpu p))) processes.

Definition highlight_heavy_ram (apps : list Parsers.app) : list Parsers.app :=
  List.filter (fun a => PyNum.le HEAVY_RAM (PyNum.Float (Parsers.a_ram_mb a))) apps.

(** The thermal warning of the summary and of the text report. *)
Definition thermal_high (name : string) (value : Parsers.float) : bool :=
  (String.eqb name "AP" && PyNum.lt (PyNum.Int 50) (PyNum.Float value))
  || (String.eqb name "BAT" && PyNum.lt (PyNum.Int 45) (PyNum.Float value))
  || (String.eqb name "SKIN" && PyNum.lt (PyNum.Int 40) (PyNum.Float value)).

(** *** The parsing step of [run_diagnostics] *)

Record diagnosis : Type := {
  d_cpu : list Parsers.process;
  d_ram : list Parsers.app;
  d_thermal : Parsers.dict Parsers.float;
  d_gfx : Parsers.gfx;
  d_services : list string;
  d_heavy_cpu : list Parsers.process;
  d_heavy_ram : list Parsers.app
}.

Definition no_gfx : Parsers.gfx :=
  {| Parsers.avg_frame_time_ms := None; Parsers.jank_frames := None;
     Parsers.total_frames := 0 |}.

(** From the raw outputs to what is printed and saved; [target] is
    [args.target], empty when the option is not given. *)
Definition parse_outputs (target cpu_raw ram_raw thermal_raw gfx_raw services_raw : string)
  : result diagnosis :=
  do cpu <- (if Parsers.truthy cpu_raw then collect_cpu_stats_from_raw cpu_raw else Ok []);
  do ram <- (if Parsers.truthy ram_raw then collect_ram_stats_from_raw ram_raw else Ok []);
  do thermal <- (if Parsers.truthy thermal_raw
                 then collect_thermal_info_from_raw thermal_raw else Ok []);
  do gfx <- (if Parsers.truthy target && Parsers.truthy gfx_raw
             then collect_gfx_stats_from_raw gfx_raw else Ok no_gfx);
  do services <- (if Parsers.truthy services_raw
                  then collect_services_from_raw services_raw else Ok []);
  Ok {| d_cpu := cpu; d_ram := ram; d_thermal := thermal; d_gfx := gfx;
        d_services := services;
        d_heavy_cpu := highlight_heavy_cpu cpu;
        d_heavy_ram := highlight_heavy_ram ram |}.

End Diagnose.

Module Dashboard.

Import Parsers.

(** [run_adb]: every exception of the call is an [Exception] and is
    caught. *)
Definition run_adb (cmd : list string) (run : outcome) : result string :=
  match run with
  | Completed returncode stdout stderr =>
      if negb (returncode =? 0)%Z then Ok EmptyString else Ok stdout
  | TimeoutExpired => Ok EmptyString
  | FileNotFoundError => Ok EmptyString
  | Failed _ => Ok EmptyString
  end.

Definition collect_cpu_stats_from_raw := Parsers.collect_cpu_stats_from_raw.
Definition collect_ram_stats_from_raw := Parsers.collect_ram_stats_from_raw.
Definition collect_thermal_info_from_raw := Parsers.collect_thermal_info_from_raw.

Record stats : Type := {
  cpu : list process;
  ram : list app;
  thermal : dict float;
  timestamp : float;
  last_updated : string;
  mem_health : string;
  free_ram : PyNum.num;
  total_ram : PyNum.num
}.

(** What the three commands of one collection do, and the clock. *)
Record world : Type := {
  top_run : outcome;
  meminfo_run : outcome;
  thermal_run : outcome;
  time_time : float;
  time_strftime : string
}.

Definition total_ram_default : PyNum.num := PyNum.Int 4096.

(** [used_ram = sum(a['ram_mb'] for a in ram)] *)
Definition used_ram_of (ram : list app) : PyNum.num :=
  PyNum.sum (map (fun a => PyNum.Float (a_ram_mb a)) ram).

(** The memory health indicator of a free amount. *)
Definition mem_health_of (free_ram : PyNum.num) : string :=
  if PyNum.lt free_ram (PyNum.Int 500) then "low"
  else if PyNum.lt free_ram (PyNum.Int 1000) then "medium"
  else "good".

(** [collect_stats]; the fields [jank] and [storage], always empty, are
    left out. *)
Definition collect_stats (w : world) : result stats :=
  do cpu_raw <- run_adb ["adb"; "shell"; "top"; "-m"; "10"; "-n"; "1"] (top_run w);
  do ram_raw <- run_adb ["adb"; "shell"; "dumpsys"; "meminfo"] (meminfo_run w);
  do thermal_raw <- run_adb ["adb"; "shell"; "dumpsys"; "thermalservice"] (thermal_run w);
  do cpu <- (if truthy cpu_raw then collect_cpu_stats_from_raw cpu_raw else Ok []);
  do ram <- (if truthy ram_raw then collect_ram_stats_from_raw ram_raw else Ok []);
  do thermal <- (if truthy thermal_raw then collect_thermal_info_from_raw thermal_raw
                 else Ok []);
  let total_ram := total_ram_default in
  let used_ram := used_ram_of ram in
  let free_ram := PyNum.sub total_ram used_ram in
  Ok {| cpu := firstn 5 cpu;
        ram := firstn 5 ram;
        thermal := thermal;
        timestamp := time_time w;
        last_updated := time_strftime w;
        mem_health := mem_health_of free_ram;
        free_ram := free_ram;
        total_ram := total_ram |}.

(** *** The monitoring session

    The dashboard serves its requests in threads of their own while the
    monitor threads run, so the session is a transition system: the
    globals and the threads make the state, each simple statement of
    [session_monitor], [api_session_start] and [api_session_stop] is one
    step of the thread that executes it, and the steps of the threads
    interleave in any order.  Time is left out: a collection may take
    any number of steps of the other threads, and so may the two seconds
    of the join. *)

(** Where a monitor thread is in [session_monitor]. *)
Inductive monitor : Type :=
| Created               (* built by [threading.Thread(...)], not started *)
| AtTest                (* at [while session_active] *)
| AtCollect             (* at [stats = collect_stats()] *)
| AtAppend (s : stats)  (* at [session_data.append(stats)], under the lock *)
| AtSleep               (* at [time.sleep(session_interval)] *)
| Ended.                (* the loop was left, or [collect_stats()] raised *)

(** Where the handler of a request is in [api_session_start] or in
    [api_session_stop]. *)
Inductive handler : Type :=
| Start_test     (* at [if not session_active] *)
| Start_active   (* at [session_active = True] *)
| Start_data     (* at [session_data = []] *)
| Start_create   (* at [session_thread = threading.Thread(...)] *)
| Start_run      (* at [session_thread.start()] *)
| Stop_active    (* at [session_active = False] *)
| Stop_join      (* at [if session_thread: session_thread.join(timeout=2)] *)
| Stop_dump      (* at [json.dump(session_data, f, indent=2)] *)
| Served         (* the response was returned *)
| Crashed.       (* the handler raised *)

(** The globals [session_active], [session_data] and [session_thread]
    (the number of the monitor thread it holds), the monitor threads
    built so far, the requests received so far, and what was written to
    the [session.json] files, the first written first. *)
Record session : Type := {
  session_active : bool;
  session_data : list stats;
  session_thread : option nat;
  monitors : list monitor;
  requests : list handler;
  written : list (list stats)
}.

Definition initial : session :=
  {| session_active := false; session_data := []; session_thread := None;
     monitors := []; requests := []; written := [] |}.

(** [l] with [x] at the index [i]. *)
Fixpoint set_nth {A : Type} (i : nat) (x : A) (l : list A) {struct l} : list A :=
  match l, i with
  | [], _ => []
  | _ :: l', O => x :: l'
  | y :: l', S k => y :: set_nth k x l'
  end.

(** [session_monitor]: the statement a thread at [m] executes; where
    the thread is afterwards and the snapshot it appended, if the
    statement is the append.  [collected] is what [collect_stats()] does
    if the statement is the collection. *)
Definition session_monitor (active : bool) (m : monitor) (collected : result stats)
  : monitor * option stats :=
  match m with
  | Created => (Created, None)
  | AtTest => (if active then AtCollect else Ended, None)
  | AtCollect =>
      match collected with
      | Ok s => (AtAppend s, None)
      | _ => (Ended, None)
      end
  | AtAppend s => (AtSleep, Some s)
  | AtSleep => (AtTest, None)
  | Ended => (Ended, None)
  end.

(** [api_session_start]: the statement a handler at [h] executes.
    [start()] of a thread that was started already raises
    [RuntimeError]. *)
Definition api_session_start (h : handler) (st : session) : handler * session :=
  match h with
  | Start_test => (if negb (session_active st) then Start_active else Served, st)
  | Start_active =>
      (Start_data,
       {| session_active := true; session_data := session_data st;
          session_thread := session_thread st; monitors := monitors st;
          requests := requests st; written := written st |})
  | Start_data =>
      (Start_create,
       {| session_active := session_active st; session_data := [];
          session_thread := session_thread st; monitors := monitors st;
          requests := requests st; written := written st |})
  | Start_create =>
      (Start_run,
       {| session_active := session_active st; session_data := session_data st;
          session_thread := Some (List.length (monitors st));
          monitors := monitors st ++ [Created];
          requests := requests st; written := written st |})
  | Start_run =>
      match session_thread st with
      | Some i =>
          match nth_error (monitors st) i with
          | Some Created =>
              (Served,
               {| session_active := session_active st; session_data := session_data st;
                  session_thread := session_thread st;
                  monitors := set_nth i AtTest (monitors st);
                  requests := requests st; written := written st |})
          | _ => (Crashed, st)
          end
      | None => (Crashed, st)
      end
  | _ => (h, st)
  end.

(** [api_session_stop]: the statement a handler at [h] executes.  The
    join returns when the thread has ended or two seconds have passed,
    here at any moment; [join()] of a thread that was not started raises
    [RuntimeError].  The dump writes [session_data] as it is then. *)
Definition api_session_stop (h : handler) (st : session) : handler * session :=
  match h with
  | Stop_active =>
      (Stop_join,
       {| session_active := false; session_data := session_data st;
          session_thread := session_thread st; monitors := monitors st;
          requests := requests st; written := written st |})
  | Stop_join =>
      match session_thread st with
      | Some i =>
          match nth_error (monitors st) i with
          | Some Created => (Crashed, st)
          | _ => (Stop_dump, st)
          end
      | None => (Stop_dump, st)
      end
  | Stop_dump =>
      (Served,
       {| session_active := session_active st; session_data := session_data st;
          session_thread := session_thread st; monitors := monitors st;
          requests := requests st; written := written st ++ [session_data st] |})
  | _ => (h, st)
  end.

(** What happens next: a request arrives, the handler of request [j]
    executes its next statement, or the monitor thread [i] does. *)
Inductive event : Type :=
| Request_start
| Request_stop
| Handler (j : nat)
| Monitor (i : nat) (collected : result stats).

Definition serve (h : handler) (st : session) : handler * session :=
  match h with
  | Stop_active | Stop_join | Stop_dump => api_session_stop h st
  | _ => api_session_start h st
  end.

Definition step (st : session) (e : event) : session :=
  match e with
  | Request_start =>
      {| session_active := session_active st; session_data := session_data st;
         session_thread := session_thread st; monitors := monitors st;
         requests := requests st ++ [Start_test]; written := written st |}
  | Request_stop =>
      {| session_active := session_active st; session_data := session_data st;
         session_thread := session_thread st; monitors := monitors st;
         requests := requests st ++ [Stop_active]; written := written st |}
  | Handler j =>
      match nth_error (requests st) j with
      | Some h =>
          let (h', st') := serve h st in
          {| session_active := session_active st'; session_data := session_data st';
             session_thread := session_thread st'; monitors := monitors st';
             requests := set_nth j h' (requests st'); written := written st' |}
      | None => st
      end
  | Monitor i collected =>
      match nth_error (monitors st) i with
      | Some m =>
          let (m', appended) := session_monitor (session_active st) m collected in
          {| session_active := session_active st;
             session_data :=
               match appended with
               | Some s => session_data st ++ [s]
               | None => session_data st
               end;
             session_thread := session_thread st;
             monitors := set_nth i m' (monitors st);
             requests := requests st; written := written st |}
      | None => st
      end
  end.

(** The state after a sequence of events. *)
Definition run (st : session) (events : list event) : session := fold_left step events st.

(** *** Actions on the device *)

Record response : Type := {
  status : string;
  message : string
}.

(** [clear_cache_all] *)
Definition clear_cache_all (run : outcome) : result response :=
  do output <- run_adb ["adb"; "shell"; "pm"; "trim-caches"; "1K"] run;
  if String.eqb (PyStr.strip output) ""
  then Ok {| status := "ok"; message := "Cache cleared for all apps." |}
  else Ok {| status := "ok";
             message := String.append "Cache clear output: " (PyStr.strip output) |}.

(** [str(pid)] for an integer. *)
Definition str_of_int (z : Z) : string := NilZero.string_of_int (Z.to_int z).

(** [api_kill_app] for a request whose [pid] is an integer or missing:
    the body of the answer and its HTTP status.  [run] is what the kill
    command does if it is run. *)
Definition api_kill_app (pid : option Z) (run : outcome) : result (response * Z) :=
  match pid with
  | None | Some Z0 => Ok ({| status := "error"; message := "No PID provided" |}, 400%Z)
  | Some n =>
      do output <- run_adb ["adb"; "shell"; "kill"; str_of_int n] run;
      if String.eqb (PyStr.strip output) ""
      then Ok ({| status := "ok";
                  message := String.append "App with PID "
                               (String.append (str_of_int n) " killed.") |}, 200%Z)
      else Ok ({| status := "ok";
                  message := String.append "Kill output: " (PyStr.strip output) |}, 200%Z)
  end.

End Dashboard.

(** ** [clear_cache_android.py] *)

Module ClearCache.

(** [clear_cache]: the lines printed and how the call ends: it returns,
    exits with a status or lets an exception through. *)
Definition clear_cache (run : outcome) : list string * result unit :=
  let start := "Clearing cache for all apps on connected Android device..." in
  match run with
  | Completed returncode stdout stderr =>
      if (returncode =? 0)%Z then
        (start :: "[SUCCESS] Cache cleared for all apps." ::
           (if Parsers.truthy (PyStr.strip stdout) then [PyStr.strip stdout] else []),
         Ok tt)
      else ([start; "[ERROR] Failed to clear cache."; PyStr.strip stderr], Ok tt)
  | FileNotFoundError =>
      ([start;
        "[ERROR] adb not found. Please install Android Platform Tools and add adb to your PATH."],
       SysExit 1)
  | TimeoutExpired => ([start; "[ERROR] adb command timed out."], SysExit 1)
  | Failed e => ([start], Raise e)
  end.

End ClearCache.


(** * Notions used in the statements *)

(** A text given by its lines, each ended by a line feed. *)
Fixpoint text (lines : list string) : string :=
  match lines with
  | [] => EmptyString
  | l :: ls => String.append l (String.append Diagnose.newline (text ls))
  end.

(** ** Outcomes of a command *)

Definition exits_nonzero (run : outcome) : bool :=
  match run with
  | Completed returncode _ _ => negb (returncode =? 0)%Z
  | _ => false
  end.

Definition times_out (run : outcome) : bool :=
  match run with
  | TimeoutExpired => true
  | _ => false
  end.

(** What the command printed on its error stream, if it ran to its end. *)
Definition stderr_of (run : outcome) : string :=
  match run with
  | Completed _ _ stderr => stderr
  | _ => EmptyString
  end.

(** ** Sample data *)

Definition sample_stats (stamp : string) : Dashboard.stats :=
  {| Dashboard.cpu := []; Dashboard.ram := []; Dashboard.thermal := [];
     Dashboard.timestamp := S754_zero false; Dashboard.last_updated := stamp;
     Dashboard.mem_health := "good"; Dashboard.free_ram := PyNum.Int 4096;
     Dashboard.total_ram := PyNum.Int 4096 |}.

Definition meminfo_bad_size : string :=
  text ["Total RSS by process:"; ",K: system (pid 1203)"].

Definition thermal_bad_value : string :=
  text ["Temperature{mValue=1.2.3, mType=0, mName=AP, mStatus=0}"].

Definition top_bad_cpu : string :=
  text ["PID USER [%CPU]"; "1 u 2 3 4 5 6 S 1.2.3 1.0 0:01 name"].

Definition frame_profile : string :=
  text ["Profile data in ms:"; "4.0 2.0 1.0"; "20.0 1.0 1.0"; ""].

Definition meminfo_sample : string :=
  text ["Applications Memory Usage (in Kilobytes):"; "";
        "Total RSS by process:";
        "     90,000K: com.android.systemui (pid 2100)";
        "    350,000K: system (pid 1203)";
        "    120,500K: com.example.app (pid 4321 / activities)";
        "";
        "Total RSS by OOM adjustment:"].

Definition thermal_negative : string :=
  text ["Temperature{mValue=38.1, mType=0, mName=AP, mStatus=0}";
        "Temperature{mValue=-3.5, mType=3, mName=SKIN, mStatus=0}"].

(** A collection whose memory dump lists more than 4096 MB. *)
Definition overcommitted : Dashboard.world :=
  {| Dashboard.top_run := TimeoutExpired;
     Dashboard.meminfo_run :=
       Completed 0
         (text ["Total RSS by process:";
                "  3,000,000K: system (pid 1203)";
                "  2,000,000K: com.example.app (pid 4321)"])
         "";
     Dashboard.thermal_run := Completed 1 "" "";
     Dashboard.time_time := S754_zero false;
     Dashboard.time_strftime := "2024-01-01 00:00:00" |}.

Definition overcommitted_apps : list Parsers.app :=
  [ {| Parsers.a_name := "system"; Parsers.a_pid := 1203;
       Parsers.a_ram_mb := PyNum.literal "2929.6875" |};
    {| Parsers.a_name := "com.example.app"; Parsers.a_pid := 4321;
       Parsers.a_ram_mb := PyNum.literal "1953.125" |} ].

Definition overcommitted_stats : Dashboard.stats :=
  {| Dashboard.cpu := []; Dashboard.ram := overcommitted_apps; Dashboard.thermal := [];
     Dashboard.timestamp := S754_zero false;
     Dashboard.last_updated := "2024-01-01 00:00:00";
     Dashboard.mem_health := "low";
     Dashboard.free_ram := PyNum.Float (PyNum.literal "-786.8125");
     Dashboard.total_ram := PyNum.Int 4096 |}.

(** ** Sessions *)

(** A handler that is in [api_session_start]. *)
Definition is_start (h : Dashboard.handler) : bool :=
  match h with
  | Dashboard.Start_test | Dashboard.Start_active | Dashboard.Start_data
  | Dashboard.Start_create | Dashboard.Start_run => true
  | _ => false
  end.

Definition is_start_request (e : Dashboard.event) : bool :=
  match e with
  | Dashboard.Request_start => true
  | _ => false
  end.

(** No start is being served in [st] and none arrives in [events]. *)
Definition no_start (st : Dashboard.session) (events : list Dashboard.event) : bool :=
  forallb (fun h => negb (is_start h)) (Dashboard.requests st)
  && forallb (fun e => negb (is_start_request e)) events.

(** A monitor thread with a collection in flight: the test of the flag
    passed and the snapshot is not appended yet. *)
Definition flying (m : Dashboard.monitor) : bool :=
  match m with
  | Dashboard.AtCollect | Dashboard.AtAppend _ => true
  | _ => false
  end.

Definition in_flight (st : Dashboard.session) : nat :=
  List.length (List.filter flying (Dashboard.monitors st)).

(** The thread [session_thread] holds can be joined: it was started. *)
Definition joinable (st : Dashboard.session) : bool :=
  match Dashboard.session_thread st with
  | Some i =>
      match nth_error (Dashboard.monitors st) i with
      | Some Dashboard.Created => false
      | _ => true
      end
  | None => true
  end.

(** The request number [j] arrives and is served with nothing in
    between. *)
Definition serve_start (j : nat) : list Dashboard.event :=
  [Dashboard.Request_start; Dashboard.Handler j; Dashboard.Handler j; Dashboard.Handler j;
   Dashboard.Handler j; Dashboard.Handler j].

Definition serve_stop (j : nat) : list Dashboard.event :=
  [Dashboard.Request_stop; Dashboard.Handler j; Dashboard.Handler j; Dashboard.Handler j].

(** One step of the monitor thread [i]; [s] is what the collection
    returns if the step is the collection. *)
Definition monitor_step (i : nat) (s : Dashboard.stats) : Dashboard.event :=
  Dashboard.Monitor i (Ok s).

(** The monitor thread [i] tests the flag, collects [s] and appends it,
    with nothing in between; it is asleep afterwards. *)
Definition collection (i : nat) (s : Dashboard.stats) : list Dashboard.event :=
  [monitor_step i s; monitor_step i s; monitor_step i s].

(** One turn of the loop of the monitor thread [i]: a collection and
    the end of the sleep. *)
Definition turn (i : nat) (s : Dashboard.stats) : list Dashboard.event :=
  collection i s ++ [monitor_step i s].

(** A session started from idle and stopped while the first collection
    of its monitor was in flight. *)
Definition stopped_during_collection : Dashboard.session :=
  Dashboard.run Dashboard.initial
    (serve_start 0 ++ [monitor_step 0 (sample_stats "2024-01-01 00:00:00")] ++ serve_stop 1).

(** ** Floats *)

Module Binary64.

Local Open Scope Z_scope.

Definition emin : Z := -1074.

Definition fexp (x : Z) : Z := SpecFloat.fexp PyNum.prec PyNum.emax x.

(** A well-formed binary64 value. *)
Definition valid (f : spec_float) : Prop := valid_binary PyNum.prec PyNum.emax f = true.

(** The float a rounded mantissa [m2] at exponent [e1] stands for: the
    mantissa 2^53 is renormalised, an exponent above 971 overflows. *)
Definition finish (sx : bool) (m2 e1 : Z) : spec_float :=
  if m2 =? 0 then S754_zero sx
  else if m2 =? 9007199254740992 then
    if e1 + 1 <=? 971 then S754_finite sx 4503599627370496 (e1 + 1) else S754_infinity sx
  else if e1 <=? 971 then S754_finite sx (Z.to_pos m2) e1 else S754_infinity sx.

(** A mantissa of at most 53 bits, of exactly 53 above the least exponent. *)
Definition rounded (m2 e1 : Z) : Prop :=
  emin <= e1 /\ 0 <= m2 <= 9007199254740992 /\ (emin < e1 -> 4503599627370496 <= m2).

(** The sign of a float, or none for a NaN. *)
Definition sign_of (f : spec_float) : option bool :=
  match f with
  | S754_zero s | S754_infinity s | S754_finite s _ _ => Some s
  | S754_nan => None
  end.

Definition is_zero (f : spec_float) : bool :=
  match f with S754_zero _ => true | _ => false end.

Definition is_finite (f : spec_float) : bool :=
  match f with
  | S754_zero _ | S754_finite _ _ _ => true
  | _ => false
  end.

End Binary64.

Definition num_is_nan (x : PyNum.num) : bool :=
  match x with
  | PyNum.Float f => PyNum.is_nan f
  | PyNum.Int _ => false
  end.

(** ** Groups of a match *)

(** What the groups of a match hold: [P n w] for the text [w] of group [n]. *)
Definition caps_ok (P : nat -> string -> Prop) (c : Re.caps) : Prop :=
  forall n w, In (n, w) c -> P n w.

(** Every group of [r] can only capture a text that [P] accepts. *)
Fixpoint groups_ok (P : nat -> string -> Prop) (r : Re.regex) : Prop :=
  match r with
  | Re.Group n r1 =>
      (forall s c w s' c', In (w, s', c') (Re.run r1 s c) -> P n w) /\ groups_ok P r1
  | Re.Opt r1 => groups_ok P r1
  | Re.Cat r1 r2 => groups_ok P r1 /\ groups_ok P r2
  | _ => True
  end.

(** The class [[\d.]]. *)
Definition digit_or_point : ascii -> bool := Re.either Re.d (Re.chr ".").

(** Group 1 of the thermal pattern is made of digits and points. *)
Definition thermal_groups (n : nat) (w : string) : Prop :=
  n = 1%nat -> PyStr.forallb digit_or_point w = true.

(** ** Memory entries *)

(** [a] comes before [b] in descending order of [ram_mb]. *)
Definition ram_ge (a b : Parsers.app) : Prop :=
  PyNum.fle (Parsers.a_ram_mb b) (Parsers.a_ram_mb a) = true.

(** A float a memory entry can hold: a binary64 value, zero or finite. *)
Definition entry_value (f : spec_float) : Prop :=
  Binary64.valid f /\ Binary64.is_finite f = true.

Definition entries_ok (apps : list Parsers.app) : Prop :=
  Forall (fun a => entry_value (Parsers.a_ram_mb a)) apps.

(** The running total of [sum]: the integer 0 before the first entry,
    a binary64 value that is a number afterwards. *)
Definition total_ok (x : PyNum.num) : Prop :=
  match x with
  | PyNum.Int z => z = 0%Z
  | PyNum.Float f => Binary64.valid f /\ PyNum.is_nan f = false
  end.

(** The memory entries one collection parses. *)
Definition parsed_ram (w : Dashboard.world) : result (list Parsers.app) :=
  do ram_raw <- Dashboard.run_adb ["adb"; "shell"; "dumpsys"; "meminfo"]
                  (Dashboard.meminfo_run w);
  if Parsers.truthy ram_raw then Dashboard.collect_ram_stats_from_raw ram_raw else Ok [].

(** ** Thermal readings *)

Definition values_nonnegative (sensors : Parsers.dict Parsers.float) : Prop :=
  forall name v, In (name, v) sensors -> PyNum.fle (S754_zero false) v = true.

(** ** Frames *)

(** The frame a line of the profile section stands for, if any: the sum
    of its three values when it has exactly three tokens and each
    converts to a float. *)
Definition frame_of_line (line : string) : option Parsers.float :=
  match PyStr.split (PyStr.strip line) with
  | [a; b; c] =>
      match PyNum.py_float a, PyNum.py_float b, PyNum.py_float c with
      | Ok x, Ok y, Ok z => Some (PyNum.fadd (PyNum.fadd x y) z)
      | _, _, _ => None
      end
  | _ => None
  end.

Definition frames_of (o : option Parsers.float) : list Parsers.float :=
  match o with
  | Some t => [t]
  | None => []
  end.

(** ** Pieces of a text *)

(** [sub] occurs in [s] at some place. *)
Definition occurs (sub s : string) : Prop :=
  exists p q, s = String.append p (String.append sub q).

(** A line [str.strip] empties. *)
Definition blank (line : string) : Prop := PyStr.strip line = EmptyString.

(** Some line of [lines] holds [marker]. *)
Definition has_marker (marker : string) (lines : list string) : Prop :=
  exists line, In line lines /\ PyStr.contains marker line = true.

(** A text without the escape character. *)
Definition esc_free (s : string) : bool :=
  PyStr.forallb (fun a => negb (Ascii.eqb a Parsers.esc)) s.

(** The escape sequence [ESC [ params inter final]. *)
Definition escape_sequence (params inter : string) (final : ascii) : string :=
  String Parsers.esc
    (String "[" (String.append params (String.append inter (String final EmptyString)))).

Definition tab_free (s : string) : bool :=
  PyStr.forallb (fun a => negb (Ascii.eqb a Diagnose.tab)) s.

(** A line of [adb devices] that lists a device ready for use. *)
Definition lists_device (line : string) : bool :=
  PyStr.contains (String Diagnose.tab "device") line.

(** ** The way a pattern matches first *)

(** [x] is the head of [l]: the way the backtracking matcher tries first. *)
Definition first_way {A : Type} (x : A) (l : list A) : Prop := exists tl, l = x :: tl.

(** The text a greedy repetition of the class [p] stops before: the
    end, or a character out of the class. *)
Definition stops (p : ascii -> bool) (rest : string) : Prop :=
  match rest with
  | EmptyString => True
  | String a _ => p a = false
  end.

(** ** What the groups of the patterns hold *)

(** The class [[\d,]]. *)
Definition digit_or_comma : ascii -> bool := Re.either Re.d (Re.chr ",").

(** The class [[\w\.]]. *)
Definition word_or_point : ascii -> bool := Re.either Re.w (Re.chr ".").

(** The groups of a row of the process table. *)
Definition row_groups (n : nat) (w : string) : Prop :=
  (n = 1%nat -> PyStr.forallb PyStr.isdigit w = true) /\
  (n = 3%nat \/ n = 4%nat -> PyStr.forallb digit_or_point w = true).

(** The groups of an entry of the memory dump. *)
Definition ram_groups (n : nat) (w : string) : Prop :=
  (n = 1%nat -> PyStr.forallb digit_or_comma w = true) /\
  (n = 3%nat -> PyStr.forallb PyStr.isdigit w = true).

(** The groups of a service record. *)
Definition service_groups (n : nat) (w : string) : Prop :=
  (n = 1%nat -> PyStr.forallb word_or_point w = true) /\
  (n = 2%nat -> PyStr.forallb Re.S_ w = true).

(** The groups of the patterns of the collectors that run their own
    command. *)
Definition top_groups (n : nat) (w : string) : Prop :=
  (n = 1%nat -> PyStr.forallb PyStr.isdigit w = true) /\
  (n = 2%nat \/ n = 3%nat -> PyStr.forallb digit_or_point w = true).

Definition meminfo_groups (n : nat) (w : string) : Prop :=
  n = 2%nat -> PyStr.forallb digit_or_comma w = true.

Definition sensor_groups (n : nat) (w : string) : Prop :=
  n = 3%nat -> PyStr.forallb digit_or_point w = true.

Definition record_groups (n : nat) (w : string) : Prop :=
  n = 1%nat \/ n = 2%nat -> PyStr.forallb Re.S_ w = true.

(** ** Values that are not negative *)

Definition nonnegative (f : Parsers.float) : Prop := PyNum.fle (S754_zero false) f = true.

Definition process_ok (p : Parsers.process) : Prop :=
  (0 <= Parsers.p_pid p)%Z /\
  PyNum.fle (S754_zero false) (Parsers.p_cpu p) = true /\
  PyNum.fle (S754_zero false) (Parsers.p_mem p) = true.

Definition app_ok (a : Parsers.app) : Prop :=
  (0 <= Parsers.a_pid a)%Z /\
  PyNum.fle (S754_zero false) (Parsers.a_ram_mb a) = true /\
  Binary64.is_finite (Parsers.a_ram_mb a) = true.

Definition top_process_ok (p : Diagnose.top_process) : Prop :=
  (0 <= Diagnose.t_pid p)%Z /\ nonnegative (Diagnose.t_cpu p) /\ nonnegative (Diagnose.t_mem p).

(** [a] comes before [b] in descending order of [ram_mb]. *)
Definition ram_app_ge (a b : Diagnose.ram_app) : Prop :=
  PyNum.fle (Diagnose.r_ram_mb b) (Diagnose.r_ram_mb a) = true.

Definition ram_app_ok (a : Diagnose.ram_app) : Prop :=
  entry_value (Diagnose.r_ram_mb a) /\ nonnegative (Diagnose.r_ram_mb a).

Definition sensors_ok (sensors : Parsers.dict Diagnose.sensor) : Prop :=
  forall name s, In (name, s) sensors -> nonnegative (Diagnose.s_temp s).

(** ** Services *)

(** A service reference: a package of word characters and points, a
    slash, a service name without white space. *)
Definition service_ref (r : string) : Prop :=
  exists pkg svc,
    r = String.append pkg (String.append "/" svc) /\
    PyStr.forallb word_or_point pkg = true /\ PyStr.forallb Re.S_ svc = true.

(** A service as [collect_services] names it: two texts without white
    space joined by a slash. *)
Definition service_name (r : string) : Prop :=
  exists pkg svc,
    r = String.append pkg (String.append "/" svc) /\
    PyStr.forallb Re.S_ pkg = true /\ PyStr.forallb Re.S_ svc = true.

(** ** Thermal lines *)

(** The sensor name and the text of the value a line of the thermal
    dump holds, if it holds a reading. *)
Definition reading (line : string) : option (string * string) :=
  match Re.re_search Parsers.thermal_re line with
  | Some m => Some (Parsers.get m 2, Parsers.get m 1)
  | None => None
  end.

(** ** Heavy usage *)

Definition heavy_cpu (p : Parsers.process) : bool :=
  PyNum.le Diagnose.HEAVY_CPU (PyNum.Float (Parsers.p_cpu p)).

Definition heavy_ram (a : Parsers.app) : bool :=
  PyNum.le Diagnose.HEAVY_RAM (PyNum.Float (Parsers.a_ram_mb a)).

(** ** Commands that give nothing *)

(** A command the dashboard gets no output from: it fails in any way,
    or it prints nothing. *)
Definition gives_nothing (run : outcome) : bool :=
  match run with
  | Completed returncode stdout _ => negb (returncode =? 0)%Z || PyStr.is_empty stdout
  | _ => true
  end.

(** A collection none of whose three commands gives anything. *)
Definition no_data (w : Dashboard.world) : bool :=
  gives_nothing (Dashboard.top_run w) && gives_nothing (Dashboard.meminfo_run w)
  && gives_nothing (Dashboard.thermal_run w).

(** A request to kill that names no process: [pid] missing, or zero. *)
Definition no_pid (pid : option Z) : Prop := pid = None \/ pid = Some 0%Z.

(** ** More sample data *)

Definition top_sample : string :=
  text ["Tasks: 2 total"; "  PID USER PR NI VIRT RES SHR S[%CPU] %MEM TIME+ ARGS";
        " 1203 system 18 -2 17G 252M 80M S 109 6.8 615:01 system_server";
        " 4321 u0_a99 20 0 12G 100M 50M S 3.5 1.2 0:07 com.example.app"].

Definition services_sample : string :=
  text ["  * ServiceRecord{1a2b3c u0 com.example.app/.SyncService}"; "  no record here"].

Definition thermal_repeated : string :=
  text ["Temperature{mValue=38.1, mType=0, mName=AP, mStatus=0}";
        "Temperature{mValue=40.5, mType=0, mName=AP, mStatus=0}";
        "Temperature{mValue=29.0, mType=2, mName=BAT, mStatus=0}"].

(** Two memory dumps that differ only after the blank line that ends
    the section. *)
Definition meminfo_tail_a : string :=
  text ["Total RSS by process:"; "    350,000K: system (pid 1203)"; "   ";
        "     90,000K: com.android.systemui (pid 2100)"].

Definition meminfo_tail_b : string :=
  text ["Total RSS by process:"; "    350,000K: system (pid 1203)"; "   ";
        "Total PSS by process:"; "    999,000K: other (pid 7)"].

(** The output of [dumpsys meminfo] in the format [collect_ram_stats]
    reads. *)
Definition meminfo_output : string :=
  text ["  com.example.app:  350,000 kB"; "  system:  90000 kB";
        "  com.big.game:  1,200,000 kB"].

(** A collection whose memory dump lists six processes. *)
Definition six_processes : Dashboard.world :=
  {| Dashboard.top_run := TimeoutExpired;
     Dashboard.meminfo_run :=
       Completed 0
         (text ["Total RSS by process:";
                "    100,000K: a.one (pid 1)";
                "    600,000K: a.two (pid 2)";
                "    300,000K: a.three (pid 3)";
                "    500,000K: a.four (pid 4)";
                "    200,000K: a.five (pid 5)";
                "    400,000K: a.six (pid 6)"])
         "";
     Dashboard.thermal_run := TimeoutExpired;
     Dashboard.time_time := S754_zero false;
     Dashboard.time_strftime := "2024-01-01 00:00:00" |}.

(** The output of [adb devices] with one device that is not authorized
    and one that is ready. *)
Definition devices_output : string :=
  text ["List of devices attached";
        String.append "R58M123ABC" (String Diagnose.tab "unauthorized");
        String.append "emulator-5554" (String Diagnose.tab "device")].

(** * Properties *)

(** ** The order of floats *)

Ltac cmp_cases :=
  repeat match goal with
  | |- context [Z.compare ?a ?b] => destruct (Z.compare_spec a b)
  | H : context [Z.compare ?a ?b] |- _ => destruct (Z.compare_spec a b)
  | |- context [Pos.compare ?a ?b] => destruct (Pos.compare_spec a b)
  | H : context [Pos.compare ?a ?b] |- _ => destruct (Pos.compare_spec a b)
  end.

Ltac float_cases :=
  unfold PyNum.fle, PyNum.flt, SFleb, SFltb, SFcompare in *;
  repeat match goal with
  | x : spec_float |- _ => destruct x
  | x : PyNum.float |- _ => destruct x
  | s : bool |- _ => destruct s
  end;
  change (Pos.compare_cont Eq) with Pos.compare in *;
  simpl in *; try discriminate; try reflexivity;
  cmp_cases; simpl in *; subst; try discriminate; try reflexivity; try lia.

Lemma fle_trans (x y z : PyNum.float) :
  PyNum.fle x y = true -> PyNum.fle y z = true -> PyNum.fle x z = true.
Proof. intros; float_cases. Qed.

Lemma flt_fle_trans (x y z : PyNum.float) :
  PyNum.flt x y = true -> PyNum.fle y z = true -> PyNum.flt x z = true.
Proof. intros; float_cases. Qed.

Lemma flt_false_fle (x y : PyNum.float) :
  PyNum.is_nan x = false -> PyNum.is_nan y = false ->
  PyNum.flt x y = false -> PyNum.fle y x = true.
Proof. intros; float_cases. Qed.

Lemma fle_true_flt (x y : PyNum.float) :
  PyNum.fle y x = true -> PyNum.flt x y = false.
Proof. intros; float_cases. Qed.

Lemma flt_fle (x y : PyNum.float) :
  PyNum.flt x y = true -> PyNum.fle x y = true.
Proof. intros; float_cases. Qed.

Lemma flt_as_fle (x c : PyNum.float) :
  PyNum.is_nan x = false -> PyNum.is_nan c = false ->
  PyNum.fle c x = negb (PyNum.flt x c).
Proof.
  intros Hx Hc. destruct (PyNum.flt x c) eqn:Hlt; simpl.
  - destruct (PyNum.fle c x) eqn:Hle; [| reflexivity].
    apply fle_true_flt in Hle. congruence.
  - now apply flt_false_fle.
Qed.

(** ** Rounding to binary64

    [binary_round_aux] shifts the mantissa to the exponent the format
    asks for, rounds it to nearest even and shifts once more if the
    rounding carried.  The lemmas below follow it step by step and
    conclude that sums, differences and quotients are well-formed
    binary64 values with the sign one expects. *)

Module Binary64Facts.

Import Binary64.

Local Open Scope Z_scope.

Lemma fexp_eq (x : Z) : fexp x = Z.max (x - 53) (-1074).
Proof. reflexivity. Qed.

Lemma digits2_pos_bounds (p : positive) :
  2 ^ (Zpos (digits2_pos p) - 1) <= Zpos p < 2 ^ Zpos (digits2_pos p).
Proof.
  induction p as [p IH | p IH |]; simpl digits2_pos.
  - rewrite Pos2Z.inj_succ.
    replace (Z.succ (Zpos (digits2_pos p)) - 1) with (Z.succ (Zpos (digits2_pos p) - 1)) by lia.
    rewrite !Z.pow_succ_r by lia. lia.
  - rewrite Pos2Z.inj_succ.
    replace (Z.succ (Zpos (digits2_pos p)) - 1) with (Z.succ (Zpos (digits2_pos p) - 1)) by lia.
    rewrite !Z.pow_succ_r by lia. lia.
  - simpl. lia.
Qed.

Lemma Zdigits2_bounds (m : Z) :
  0 < m -> 0 < Zdigits2 m /\ 2 ^ (Zdigits2 m - 1) <= m < 2 ^ Zdigits2 m.
Proof.
  destruct m as [| p | p]; try lia. intros _. simpl Zdigits2.
  split; [lia | apply digits2_pos_bounds].
Qed.

Lemma Zdigits2_unique (m k : Z) :
  0 < m -> 2 ^ (k - 1) <= m < 2 ^ k -> Zdigits2 m = k.
Proof.
  intros Hm [Hlo Hhi]. destruct (Zdigits2_bounds m Hm) as (Hd & Hdlo & Hdhi).
  assert (Hk : 0 < k).
  { destruct (Z.ltb_spec 0 k) as [| Hk]; [assumption |].
    destruct (Z.eq_dec k 0) as [-> | Hk0]; [simpl in Hhi; lia |].
    rewrite Z.pow_neg_r in Hhi by lia. lia. }
  assert (Zdigits2 m - 1 < k).
  { apply (Z.pow_lt_mono_r_iff 2); lia. }
  assert (k - 1 < Zdigits2 m).
  { apply (Z.pow_lt_mono_r_iff 2); lia. }
  lia.
Qed.

Lemma shr_1_m (mrs : shr_record) :
  0 <= shr_m mrs -> shr_m (shr_1 mrs) = shr_m mrs / 2.
Proof.
  destruct mrs as [m r s]. simpl shr_m. intros Hm.
  destruct m as [| [p | p |] | p]; try lia; unfold shr_1; simpl shr_m;
    try reflexivity;
    (apply (Z.div_unique _ 2 _ 1); lia) || (apply (Z.div_unique _ 2 _ 0); lia).
Qed.

Lemma pow2_xO (p : positive) : 2 ^ Zpos p~0 = 2 ^ Zpos p * 2 ^ Zpos p.
Proof.
  replace (Zpos p~0) with (Zpos p + Zpos p) by lia.
  apply Z.pow_add_r; lia.
Qed.

Lemma pow2_xI (p : positive) : 2 ^ Zpos p~1 = 2 * (2 ^ Zpos p * 2 ^ Zpos p).
Proof.
  replace (Zpos p~1) with (Z.succ (Zpos p + Zpos p)) by lia.
  rewrite Z.pow_succ_r, Z.pow_add_r by lia. reflexivity.
Qed.

Lemma shr_iter_m (p : positive) :
  forall mrs, 0 <= shr_m mrs ->
    shr_m (iter_pos shr_1 p mrs) = shr_m mrs / 2 ^ Zpos p.
Proof.
  induction p as [p IH | p IH |]; intros mrs Hm; simpl iter_pos.
  - assert (H1 : 0 <= shr_m (shr_1 mrs)).
    { rewrite shr_1_m by assumption. apply Z.div_pos; lia. }
    assert (H2 : 0 <= shr_m (iter_pos shr_1 p (shr_1 mrs))).
    { rewrite IH by assumption. apply Z.div_pos; [assumption | apply Z.pow_pos_nonneg; lia]. }
    rewrite IH, IH, shr_1_m by assumption.
    rewrite !Z.div_div by (try apply Z.pow_pos_nonneg; lia).
    rewrite pow2_xI. f_equal; lia.
  - assert (H2 : 0 <= shr_m (iter_pos shr_1 p mrs)).
    { rewrite IH by assumption. apply Z.div_pos; [assumption | apply Z.pow_pos_nonneg; lia]. }
    rewrite IH, IH by assumption.
    rewrite !Z.div_div by (try apply Z.pow_pos_nonneg; lia).
    rewrite pow2_xO. f_equal; lia.
  - rewrite shr_1_m by assumption. reflexivity.
Qed.

Lemma shr_record_of_loc_m (m : Z) (l : location) : shr_m (shr_record_of_loc m l) = m.
Proof. destruct l as [| []]; reflexivity. Qed.

(** Shifting to the exponent [fexp] asks for divides the mantissa. *)
Lemma shr_fexp_spec (m e : Z) (l : location) :
  0 <= m -> e <= fexp (Zdigits2 m + e) ->
  exists mrs,
    shr_fexp PyNum.prec PyNum.emax m e l = (mrs, fexp (Zdigits2 m + e)) /\
    shr_m mrs = m / 2 ^ (fexp (Zdigits2 m + e) - e).
Proof.
  intros Hm He. unfold shr_fexp. fold (fexp (Zdigits2 m + e)).
  remember (fexp (Zdigits2 m + e) - e) as n eqn:Hn.
  destruct n as [| p | p]; try lia; unfold shr.
  - exists (shr_record_of_loc m l). split.
    + f_equal. lia.
    + rewrite shr_record_of_loc_m. simpl. now rewrite Z.div_1_r.
  - exists (iter_pos shr_1 p (shr_record_of_loc m l)). split.
    + f_equal. lia.
    + rewrite shr_iter_m; rewrite shr_record_of_loc_m; [reflexivity | assumption].
Qed.

Lemma round_nearest_even_bounds (m : Z) (l : location) :
  m <= round_nearest_even m l <= m + 1.
Proof.
  destruct l as [| []]; simpl; try lia. destruct (Z.even m); lia.
Qed.

Lemma pow2_52 : 2 ^ 52 = 4503599627370496. Proof. reflexivity. Qed.
Lemma pow2_53 : 2 ^ 53 = 9007199254740992. Proof. reflexivity. Qed.

Lemma Zdigits2_small (m : Z) : 0 < m < 2 ^ 53 -> Zdigits2 m <= 53.
Proof.
  intros [Hm Hlt]. destruct (Zdigits2_bounds m Hm) as (Hd & Hlo & _).
  assert (Zdigits2 m - 1 < 53) by (apply (Z.pow_lt_mono_r_iff 2); lia). lia.
Qed.

Lemma Zdigits2_large (m : Z) : 2 ^ 52 <= m -> 53 <= Zdigits2 m.
Proof.
  intros Hge. assert (Hm : 0 < m) by (rewrite pow2_52 in Hge; lia).
  destruct (Zdigits2_bounds m Hm) as (Hd & _ & Hhi).
  assert (52 < Zdigits2 m) by (apply (Z.pow_lt_mono_r_iff 2); lia). lia.
Qed.

(** The second shift of [binary_round_aux] and its final case analysis. *)
Lemma second_shift (sx : bool) (m2 e1 : Z) :
  rounded m2 e1 ->
  (let '(mrs, e2) := shr_fexp PyNum.prec PyNum.emax m2 e1 loc_Exact in
   match shr_m mrs with
   | Z0 => S754_zero sx
   | Zpos m => if e2 <=? PyNum.emax - PyNum.prec then S754_finite sx m e2
               else S754_infinity sx
   | Zneg _ => S754_nan
   end) = finish sx m2 e1.
Proof.
  intros (He & [Hlo Hhi] & Hnorm). unfold emin in *. unfold finish.
  destruct (Z.eqb_spec m2 0) as [-> | Hnz].
  - unfold shr_fexp. simpl Zdigits2. fold (fexp (0 + e1)). rewrite fexp_eq.
    destruct (Z.max (0 + e1 - 53) (-1074) - e1) as [| p | p] eqn:Hn; try lia; reflexivity.
  - destruct (Z.eqb_spec m2 9007199254740992) as [-> | Hne].
    + unfold shr_fexp. simpl Zdigits2. fold (fexp (54 + e1)). rewrite fexp_eq.
      replace (Z.max (54 + e1 - 53) (-1074) - e1) with 1 by lia.
      simpl. replace (e1 + 1 <=? 971) with (e1 + 1 <=? PyNum.emax - PyNum.prec) by reflexivity.
      reflexivity.
    + assert (Hm : 0 < m2 < 2 ^ 53) by (rewrite pow2_53; lia).
      pose proof (Zdigits2_small m2 Hm) as Hs.
      assert (Hd : 0 < Zdigits2 m2) by (apply Zdigits2_bounds; lia).
      assert (Hl : emin < e1 -> 53 <= Zdigits2 m2).
      { intros H. apply Zdigits2_large. rewrite pow2_52. unfold emin in H. auto. }
      unfold emin in Hl.
      unfold shr_fexp. fold (fexp (Zdigits2 m2 + e1)). rewrite fexp_eq.
      replace (Z.max (Zdigits2 m2 + e1 - 53) (-1074) - e1) with 0 by lia.
      simpl shr. simpl shr_m.
      destruct m2 as [| p | p]; try lia. reflexivity.
Qed.

(** [binary_round_aux] on a mantissa that has enough digits for its
    exponent: the mantissa is divided down to the exponent [fexp] asks
    for, then rounded to itself or to its successor. *)
Lemma binary_round_aux_spec (sx : bool) (m e : Z) (l : location) :
  0 <= m -> e <= fexp (Zdigits2 m + e) ->
  exists m2,
    let e1 := fexp (Zdigits2 m + e) in
    let m1 := m / 2 ^ (e1 - e) in
    m1 <= m2 <= m1 + 1 /\ rounded m2 e1 /\
    binary_round_aux PyNum.prec PyNum.emax sx m e l = finish sx m2 e1.
Proof.
  intros Hm He.
  destruct (shr_fexp_spec m e l Hm He) as (mrs & Hshr & Hmrs).
  set (e1 := fexp (Zdigits2 m + e)) in *.
  set (m1 := m / 2 ^ (e1 - e)) in *.
  exists (round_nearest_even (shr_m mrs) (loc_of_shr_record mrs)).
  pose proof (round_nearest_even_bounds (shr_m mrs) (loc_of_shr_record mrs)) as Hr.
  rewrite Hmrs in Hr. cbv zeta.
  assert (Hpow : 0 < 2 ^ (e1 - e)) by (apply Z.pow_pos_nonneg; lia).
  assert (Hm1 : 0 <= m1) by (apply Z.div_pos; lia).
  assert (He1 : emin <= e1) by (unfold e1, emin; rewrite fexp_eq; lia).
  assert (Hup : m1 < 2 ^ 53).
  { destruct (Z.eq_dec m 0) as [-> | Hnz].
    - unfold m1. rewrite Z.div_0_l by lia. reflexivity.
    - destruct (Zdigits2_bounds m ltac:(lia)) as (Hd & _ & Hhi).
      apply Z.div_lt_upper_bound; [assumption |].
      rewrite <- Z.pow_add_r by lia.
      eapply Z.lt_le_trans; [exact Hhi |].
      apply Z.pow_le_mono_r; [lia |]. unfold e1. rewrite fexp_eq. lia. }
  assert (Hlow : emin < e1 -> 2 ^ 52 <= m1).
  { intros Hgt. unfold e1, emin in Hgt. rewrite fexp_eq in Hgt.
    destruct (Z.eq_dec m 0) as [-> | Hnz].
    - exfalso. unfold e1 in He. rewrite fexp_eq in He. simpl Zdigits2 in *. lia.
    - destruct (Zdigits2_bounds m ltac:(lia)) as (Hd & Hlo & _).
      assert (Hn : e1 - e = Zdigits2 m - 53) by (unfold e1; rewrite fexp_eq; lia).
      assert (0 <= e1 - e) by lia.
      apply Z.div_le_lower_bound; [assumption |].
      rewrite <- Z.pow_add_r by lia.
      replace (e1 - e + 52) with (Zdigits2 m - 1) by lia. exact Hlo. }
  rewrite pow2_53 in Hup. rewrite pow2_52 in Hlow.
  split; [rewrite Hmrs; fold m1; exact Hr |].
  assert (Hrd : rounded (round_nearest_even (shr_m mrs) (loc_of_shr_record mrs)) e1).
  { rewrite Hmrs. fold m1. repeat split; lia. }
  split; [exact Hrd |].
  unfold binary_round_aux. rewrite Hshr.
  apply second_shift. exact Hrd.
Qed.

Lemma canonical_exponent (m e : Z) :
  emin <= e -> 0 < m < 2 ^ 53 -> (emin < e -> 2 ^ 52 <= m) ->
  fexp (Zdigits2 m + e) = e.
Proof.
  intros He Hm Hn. unfold emin in *. rewrite fexp_eq.
  pose proof (Zdigits2_small m Hm).
  assert (-1074 < e -> 53 <= Zdigits2 m) by (intros; apply Zdigits2_large; auto).
  assert (0 < Zdigits2 m) by (apply Zdigits2_bounds; lia).
  lia.
Qed.

Lemma finish_valid (sx : bool) (m2 e1 : Z) :
  rounded m2 e1 -> valid_binary PyNum.prec PyNum.emax (finish sx m2 e1) = true.
Proof.
  intros (He & [Hlo Hhi] & Hnorm). unfold finish.
  destruct (Z.eqb_spec m2 0); [reflexivity |].
  destruct (Z.eqb_spec m2 9007199254740992).
  - destruct (Z.leb_spec (e1 + 1) 971); [| reflexivity].
    unfold valid_binary, bounded, canonical_mantissa.
    change (Zpos (digits2_pos 4503599627370496)) with 53.
    fold (fexp (53 + (e1 + 1))). rewrite fexp_eq. unfold emin in He.
    apply andb_true_intro. split; [apply Z.eqb_eq | apply Z.leb_le; unfold PyNum.emax, PyNum.prec]; lia.
  - destruct (Z.leb_spec e1 971); [| reflexivity].
    destruct m2 as [| p | p]; try lia.
    unfold valid_binary, bounded, canonical_mantissa. simpl Z.to_pos.
    change (Zpos (digits2_pos p)) with (Zdigits2 (Zpos p)).
    fold (fexp (Zdigits2 (Zpos p) + e1)).
    rewrite canonical_exponent; [| assumption | rewrite pow2_53; lia | rewrite pow2_52; assumption].
    apply andb_true_intro. split; [apply Z.eqb_refl | apply Z.leb_le; unfold PyNum.emax, PyNum.prec; lia].
Qed.

Lemma finish_sign (sx : bool) (m2 e1 : Z) : sign_of (finish sx m2 e1) = Some sx.
Proof.
  unfold finish.
  repeat match goal with |- context [if ?c then _ else _] => destruct c end; reflexivity.
Qed.

Lemma finish_nonzero (sx : bool) (m2 e1 : Z) :
  0 < m2 -> is_zero (finish sx m2 e1) = false.
Proof.
  intros H. unfold finish. destruct (Z.eqb_spec m2 0); [lia |].
  repeat match goal with |- context [if ?c then _ else _] => destruct c end; reflexivity.
Qed.

Lemma iter_xO (d m : positive) : Zpos (Pos.iter xO m d) = Zpos m * 2 ^ Zpos d.
Proof.
  induction d as [| d IH] using Pos.peano_ind.
  - simpl. lia.
  - rewrite Pos.iter_succ, Pos2Z.inj_succ, Z.pow_succ_r by lia.
    change (Zpos (Pos.iter xO m d)~0) with (2 * Zpos (Pos.iter xO m d)). rewrite IH. lia.
Qed.

Lemma Zdigits2_shift (m k : Z) :
  0 < m -> 0 <= k -> Zdigits2 (m * 2 ^ k) = Zdigits2 m + k.
Proof.
  intros Hm Hk. destruct (Zdigits2_bounds m Hm) as (Hd & Hlo & Hhi).
  assert (Hp : 0 < 2 ^ k) by (apply Z.pow_pos_nonneg; lia).
  apply Zdigits2_unique; [nia |].
  replace (Zdigits2 m + k - 1) with (Zdigits2 m - 1 + k) by lia.
  rewrite !Z.pow_add_r by lia. nia.
Qed.

Lemma shl_align_spec (mx : positive) (ex ex' : Z) :
  exists mz,
    shl_align mx ex ex' = (mz, Z.min ex ex') /\
    Zpos mz = Zpos mx * 2 ^ (ex - Z.min ex ex').
Proof.
  unfold shl_align. destruct (ex' - ex) as [| d | d] eqn:Hd.
  - exists mx. replace (Z.min ex ex') with ex by lia. rewrite Z.sub_diag. simpl. split; [reflexivity | lia].
  - exists mx. replace (Z.min ex ex') with ex by lia. rewrite Z.sub_diag. simpl. split; [reflexivity | lia].
  - exists (Pos.iter xO mx d). replace (Z.min ex ex') with ex' by lia.
    split; [reflexivity |]. rewrite iter_xO. f_equal. f_equal. lia.
Qed.

(** [binary_round]: rounding an integer mantissa at any exponent. *)
Lemma binary_round_spec (sx : bool) (mx : positive) (ex : Z) :
  exists m2,
    rounded m2 (fexp (Zdigits2 (Zpos mx) + ex)) /\
    (emin < Zdigits2 (Zpos mx) + ex -> 0 < m2) /\
    binary_round PyNum.prec PyNum.emax sx mx ex
    = finish sx m2 (fexp (Zdigits2 (Zpos mx) + ex)).
Proof.
  unfold binary_round.
  change (Zpos (digits2_pos mx)) with (Zdigits2 (Zpos mx)).
  fold (fexp (Zdigits2 (Zpos mx) + ex)).
  set (X := Zdigits2 (Zpos mx) + ex).
  destruct (shl_align_spec mx ex (fexp X)) as (mz & -> & Hmz).
  set (ez := Z.min ex (fexp X)) in *.
  assert (Hdz : Zdigits2 (Zpos mz) + ez = X).
  { rewrite Hmz, Zdigits2_shift by lia. unfold X. lia. }
  destruct (binary_round_aux_spec sx (Zpos mz) ez loc_Exact) as (m2 & Hb & Hr & Heq).
  - lia.
  - rewrite Hdz. lia.
  - rewrite Hdz in *. exists m2. split; [exact Hr |]. split; [| exact Heq].
    intros Hx. cbv zeta in Hb.
    assert (Hq : 0 < Zpos mz / 2 ^ (fexp X - ez)); [| lia].
    assert (Hle : 0 <= fexp X - ez) by lia.
    apply Z.div_str_pos. split; [apply Z.pow_pos_nonneg; lia |].
    destruct (Zdigits2_bounds (Zpos mz) ltac:(lia)) as (Hd & Hlo & _).
    eapply Z.le_trans; [| exact Hlo].
    apply Z.pow_le_mono_r; [lia |]. rewrite fexp_eq in *. unfold emin in Hx. lia.
Qed.

Lemma binary_round_valid (sx : bool) (mx : positive) (ex : Z) :
  valid (binary_round PyNum.prec PyNum.emax sx mx ex).
Proof.
  destruct (binary_round_spec sx mx ex) as (m2 & Hr & _ & ->). now apply finish_valid.
Qed.

Lemma binary_normalize_valid (m e : Z) (sz : bool) :
  valid (binary_normalize PyNum.prec PyNum.emax m e sz).
Proof.
  destruct m; simpl; [reflexivity | apply binary_round_valid ..].
Qed.

Lemma fadd_valid (x y : spec_float) : valid x -> valid y -> valid (PyNum.fadd x y).
Proof.
  intros Hx Hy. unfold PyNum.fadd, SFadd.
  destruct x as [sx | sx | | sx mx ex]; destruct y as [sy | sy | | sy my ey];
    try destruct sx; try destruct sy; try assumption; try reflexivity;
    apply binary_normalize_valid.
Qed.

Lemma fsub_valid (x y : spec_float) : valid x -> valid y -> valid (PyNum.fsub x y).
Proof.
  intros Hx Hy. unfold PyNum.fsub, SFsub.
  destruct x as [sx | sx | | sx mx ex]; destruct y as [sy | sy | | sy my ey];
    try destruct sx; try destruct sy; try assumption; try reflexivity;
    apply binary_normalize_valid.
Qed.

Lemma float_of_Z_valid (z : Z) : valid (PyNum.float_of_Z z).
Proof. apply binary_normalize_valid. Qed.

Lemma fexp_mono (x y : Z) : x <= y -> fexp x <= fexp y.
Proof. rewrite !fexp_eq. lia. Qed.

Lemma shift_mantissa (m s : Z) :
  0 <= s ->
  match s with Zpos _ => Z.shiftl m s | Z0 => m | Zneg _ => 0 end = m * 2 ^ s.
Proof.
  intros Hs. destruct s as [| p | p]; try lia.
  apply Z.shiftl_mul_pow2. lia.
Qed.

(** The quotient [SFdiv_core_binary] computes has enough digits for
    its exponent. *)
Lemma div_core_spec (mx my : positive) (ex ey : Z) :
  exists q e l,
    SFdiv_core_binary PyNum.prec PyNum.emax (Zpos mx) ex (Zpos my) ey = (q, e, l) /\
    0 <= q /\ e <= fexp (Zdigits2 q + e).
Proof.
  unfold SFdiv_core_binary.
  set (d1 := Zdigits2 (Zpos mx)). set (d2 := Zdigits2 (Zpos my)).
  fold (fexp (d1 + ex - (d2 + ey))).
  set (X := d1 + ex - (d2 + ey)).
  set (e := Z.min (fexp X) (ex - ey)).
  set (s := ex - ey - e).
  assert (Hs : 0 <= s) by (unfold s, e; lia).
  set (m' := match s with Zpos _ => Z.shiftl (Zpos mx) s | Z0 => Zpos mx | Zneg _ => 0 end).
  assert (Hm' : m' = Zpos mx * 2 ^ s).
  { unfold m'. apply shift_mantissa. exact Hs. }
  assert (Hps : 0 < 2 ^ s) by (apply Z.pow_pos_nonneg; lia).
  pose proof (Z_div_mod m' (Zpos my) ltac:(lia)) as Hdm.
  destruct (Z.div_eucl m' (Zpos my)) as [q r]. destruct Hdm as [Hqr Hr].
  exists q, e, (new_location (Zpos my) r).
  split; [reflexivity |].
  destruct (Zdigits2_bounds (Zpos mx) ltac:(lia)) as (Hd1 & Hlo1 & Hhi1).
  destruct (Zdigits2_bounds (Zpos my) ltac:(lia)) as (Hd2 & Hlo2 & Hhi2).
  fold d1 in Hd1, Hlo1, Hhi1. fold d2 in Hd2, Hlo2, Hhi2.
  assert (Hq : 0 <= q) by nia.
  split; [exact Hq |].
  assert (Hm'lo : 2 ^ (d1 - 1 + s) <= m').
  { rewrite Hm', Z.pow_add_r by lia. nia. }
  destruct (Z.eq_dec q 0) as [-> | Hqnz].
  - simpl Zdigits2. rewrite fexp_eq.
    destruct (Z.le_gt_cases e (-1074)) as [Hle | Hgt]; [lia |].
    exfalso.
    assert (He : e <= X - 53) by (unfold e in *; rewrite fexp_eq in *; lia).
    assert (Hs' : d2 + 52 <= d1 - 1 + s) by (unfold s, X in *; lia).
    assert (2 ^ d2 <= 2 ^ (d1 - 1 + s)) by (apply Z.pow_le_mono_r; lia).
    lia.
  - assert (Hqpos : 0 < q) by lia.
    destruct (Zdigits2_bounds q Hqpos) as (Hdq & Hloq & Hhiq).
    assert (Hdig : d1 + s - d2 <= Zdigits2 q).
    { destruct (Z.le_gt_cases (d1 + s - d2) (Zdigits2 q)) as [| Hlt]; [assumption |].
      exfalso.
      assert (Hle : 2 ^ Zdigits2 q <= 2 ^ (d1 + s - d2 - 1)) by (apply Z.pow_le_mono_r; lia).
      assert (Hq1 : q + 1 <= 2 ^ (d1 + s - d2 - 1)) by lia.
      assert (Hmul : (q + 1) * Zpos my <= 2 ^ (d1 + s - d2 - 1) * Zpos my)
        by (apply Z.mul_le_mono_nonneg_r; lia).
      assert (Hpp : 0 < 2 ^ (d1 + s - d2 - 1)) by lia.
      assert (Hmul2 : 2 ^ (d1 + s - d2 - 1) * Zpos my < 2 ^ (d1 + s - d2 - 1) * 2 ^ d2)
        by (apply Z.mul_lt_mono_pos_l; lia).
      assert (Hexp : 0 <= d1 + s - d2 - 1).
      { destruct (Z.le_gt_cases 0 (d1 + s - d2 - 1)); [assumption |].
        rewrite Z.pow_neg_r in Hpp by lia. lia. }
      rewrite <- Z.pow_add_r in Hmul2 by lia.
      replace (d1 + s - d2 - 1 + d2) with (d1 - 1 + s) in Hmul2 by lia.
      nia. }
    eapply Z.le_trans; [| apply fexp_mono with (x := X)].
    + unfold e. lia.
    + unfold X, s in *. lia.
Qed.

Lemma fdiv_finite_spec (sx sy : bool) (mx my : positive) (ex ey : Z) :
  exists m2 e1,
    rounded m2 e1 /\
    PyNum.fdiv (S754_finite sx mx ex) (S754_finite sy my ey) = finish (xorb sx sy) m2 e1.
Proof.
  unfold PyNum.fdiv, SFdiv.
  destruct (div_core_spec mx my ex ey) as (q & e & l & -> & Hq & He).
  destruct (binary_round_aux_spec (xorb sx sy) q e l Hq He) as (m2 & _ & Hr & ->).
  eauto.
Qed.

Lemma finite_number (f : spec_float) : is_finite f = true -> PyNum.is_nan f = false.
Proof. destruct f; try discriminate; reflexivity. Qed.

(** What [int_truediv] returns is a binary64 value, zero or finite. *)
Lemma int_truediv_entry (a b : Z) (f : spec_float) :
  PyNum.int_truediv a b = Ok f -> entry_value f.
Proof.
  unfold PyNum.int_truediv, entry_value.
  destruct b as [| pb | pb]; [discriminate | |];
    (destruct a as [| pa | pa];
     [intros H; injection H as <-; split; reflexivity | |]);
    match goal with
    | |- match PyNum.fdiv (S754_finite ?sa ?ma _) (S754_finite ?sb ?mb _) with _ => _ end = _
         -> _ =>
        destruct (fdiv_finite_spec sa sb ma mb 0 0) as (m2 & e1 & Hr & Heq);
        pose proof (finish_valid (xorb sa sb) m2 e1 Hr) as Hv; rewrite <- Heq in Hv;
        destruct (PyNum.fdiv (S754_finite sa ma 0) (S754_finite sb mb 0));
        try discriminate; intros H; injection H as <-; (split; [exact Hv | reflexivity])
    end.
Qed.

Lemma binary_normalize_number (m e : Z) (sz : bool) :
  PyNum.is_nan (binary_normalize PyNum.prec PyNum.emax m e sz) = false.
Proof.
  destruct m as [| p | p]; simpl; [reflexivity | |].
  - destruct (binary_round_spec false p e) as (m2 & _ & _ & ->).
    pose proof (finish_sign false m2 (fexp (Zdigits2 (Zpos p) + e))) as H.
    destruct (finish _ _ _); try reflexivity; discriminate.
  - destruct (binary_round_spec true p e) as (m2 & _ & _ & ->).
    pose proof (finish_sign true m2 (fexp (Zdigits2 (Zpos p) + e))) as H.
    destruct (finish _ _ _); try reflexivity; discriminate.
Qed.

Lemma fadd_number (x y : spec_float) :
  PyNum.is_nan x = false -> is_finite y = true -> PyNum.is_nan (PyNum.fadd x y) = false.
Proof.
  intros Hx Hy. unfold PyNum.fadd, SFadd.
  destruct x as [sx | sx | | sx mx ex]; destruct y as [sy | sy | | sy my ey];
    try discriminate; try destruct sx; try destruct sy; try reflexivity;
    apply binary_normalize_number.
Qed.

Lemma fsub_number (x y : spec_float) :
  is_finite x = true -> PyNum.is_nan y = false -> PyNum.is_nan (PyNum.fsub x y) = false.
Proof.
  intros Hx Hy. unfold PyNum.fsub, SFsub.
  destruct x as [sx | sx | | sx mx ex]; destruct y as [sy | sy | | sy my ey];
    try discriminate; try destruct sx; try destruct sy; try reflexivity;
    apply binary_normalize_number.
Qed.

(** The float of a decimal literal without sign is not negative. *)
Lemma float_of_decimal_sign (m e10 : Z) :
  sign_of (PyNum.float_of_decimal m e10) = Some false.
Proof.
  unfold PyNum.float_of_decimal. destruct m as [| pm | pm]; try reflexivity.
  assert (Hz : forall z, 0 <= z -> sign_of (PyNum.float_of_Z z) = Some false).
  { intros z Hz. unfold PyNum.float_of_Z, binary_normalize. destruct z as [| p | p]; try lia.
    - reflexivity.
    - destruct (binary_round_spec false p 0) as (m2 & _ & _ & ->). apply finish_sign. }
  destruct e10 as [| pe | pe].
  - apply Hz. lia.
  - apply Hz. apply Z.mul_nonneg_nonneg; [lia | apply Z.pow_nonneg; lia].
  - destruct (fdiv_finite_spec false false pm (10 ^ pe) 0 0) as (m2 & e1 & _ & ->).
    apply finish_sign.
Qed.

Lemma sign_false_nonneg (f : spec_float) :
  sign_of f = Some false -> PyNum.fle (S754_zero false) f = true.
Proof.
  destruct f as [s | s | | s m e]; simpl; try discriminate;
    intros H; injection H as ->; reflexivity.
Qed.

Lemma negative_below (f c : spec_float) :
  sign_of f = Some true -> is_zero f = false -> sign_of c = Some false ->
  PyNum.flt f c = true.
Proof.
  destruct f as [s | s | | s m e]; destruct c as [t | t | | t n k]; simpl; try discriminate;
    intros H1 H2 H3; injection H1 as ->; injection H3 as ->; reflexivity.
Qed.

(** A well-formed float above the least exponent has a full mantissa. *)
Lemma valid_mantissa_normal (m : positive) (e : Z) :
  valid (S754_finite false m e) -> emin < e -> 4503599627370496 <= Zpos m.
Proof.
  unfold valid, valid_binary, bounded, canonical_mantissa, emin. intros H He.
  apply andb_prop in H. destruct H as [Hc _]. apply Z.eqb_eq in Hc.
  change (Zpos (digits2_pos m)) with (Zdigits2 (Zpos m)) in Hc.
  fold (fexp (Zdigits2 (Zpos m) + e)) in Hc. rewrite fexp_eq in Hc.
  assert (Hd : 53 <= Zdigits2 (Zpos m)) by lia.
  destruct (Zdigits2_bounds (Zpos m) ltac:(lia)) as (_ & Hlo & _).
  rewrite <- pow2_52. eapply Z.le_trans; [| exact Hlo].
  apply Z.pow_le_mono_r; lia.
Qed.

(** Taking a binary64 value above 4096 from 4096 leaves a negative
    float, not a zero. *)
Lemma fsub_4096_negative (u : spec_float) :
  valid u -> PyNum.flt (PyNum.float_of_Z 4096) u = true ->
  sign_of (PyNum.fsub (PyNum.float_of_Z 4096) u) = Some true /\
  is_zero (PyNum.fsub (PyNum.float_of_Z 4096) u) = false.
Proof.
  change (PyNum.float_of_Z 4096) with (S754_finite false 4503599627370496 (-40)).
  intros Hv Hlt. destruct u as [s | s | | s m e]; try discriminate.
  - destruct s; [discriminate |]. split; reflexivity.
  - destruct s; [discriminate |].
    unfold PyNum.flt, SFltb, SFcompare in Hlt.
    change (Pos.compare_cont Eq) with Pos.compare in Hlt.
    assert (He : -40 <= e).
    { destruct (Z.compare_spec (-40) e); try lia; discriminate. }
    assert (Hm : 4503599627370496 <= Zpos m).
    { apply (valid_mantissa_normal m e Hv). unfold emin. lia. }
    unfold PyNum.fsub, SFsub.
    replace (Z.min (-40) e) with (-40) by lia.
    destruct (shl_align_spec m e (-40)) as (mz & Hal & Hmz).
    replace (Z.min e (-40)) with (-40) in * by lia.
    rewrite Hal. simpl fst. unfold cond_Zopp.
    change (shl_align 4503599627370496 (-40) (-40)) with (4503599627370496%positive, -40).
    simpl fst.
    assert (Hneg : 4503599627370496 - Zpos mz < 0).
    { rewrite Hmz. destruct (Z.compare_spec (-40) e) as [Heq | Hlt' | Hgt]; try lia.
      - subst e. change (2 ^ (-40 - -40)) with 1.
        destruct (Pos.compare_spec 4503599627370496 m); try discriminate. lia.
      - assert (2 ^ 1 <= 2 ^ (e - -40)) by (apply Z.pow_le_mono_r; lia).
        change (2 ^ 1) with 2 in *. nia. }
    destruct (4503599627370496 - Zpos mz) as [| p | p] eqn:Hz; try lia.
    unfold binary_normalize.
    destruct (binary_round_spec true p (-40)) as (m2 & _ & Hpos & ->).
    split; [apply finish_sign | apply finish_nonzero].
    apply Hpos. unfold emin. destruct (Zdigits2_bounds (Zpos p) ltac:(lia)). lia.
Qed.

End Binary64Facts.

(** ** What a match captures *)

Module ReFacts.

Import Re.

Lemma star_greedy_class (p : ascii -> bool) (s : string) :
  forall w s', In (w, s') (star_greedy p s) -> PyStr.forallb p w = true.
Proof.
  induction s as [| a s IH]; intros w s' Hin; simpl in Hin.
  - destruct Hin as [H | []]. now inversion H.
  - destruct (p a) eqn:Hp.
    + apply in_app_or in Hin. destruct Hin as [Hin | [H | []]].
      * apply in_map_iff in Hin. destruct Hin as ([w0 s0] & Heq & Hin).
        inversion Heq; subst. simpl. rewrite Hp. simpl. eapply IH; eassumption.
      * now inversion H.
    + destruct Hin as [H | []]. now inversion H.
Qed.

Lemma plus_class (p : ascii -> bool) (s : string) (c : caps) :
  forall w s' c', In (w, s', c') (run (Plus p) s c) -> PyStr.forallb p w = true.
Proof.
  intros w s' c' Hin. simpl in Hin. destruct s as [| a s]; [destruct Hin |].
  destruct (p a) eqn:Hp; [| destruct Hin].
  apply in_map_iff in Hin. destruct Hin as ([w1 s1] & Heq & Hin).
  apply in_map_iff in Hin. destruct Hin as ([w0 s0] & Heq0 & Hin).
  inversion Heq; subst. inversion Heq0; subst. simpl. rewrite Hp. simpl.
  eapply star_greedy_class; eassumption.
Qed.

Lemma run_caps_ok (P : nat -> string -> Prop) (r : regex) :
  groups_ok P r ->
  forall s c w s' c', caps_ok P c -> In (w, s', c') (run r s c) -> caps_ok P c'.
Proof.
  induction r as [l | p | p | p | p | n r1 IH | r1 IH | r1 IH1 r2 IH2];
    intros Hg s c w s' c' Hc Hin; simpl in Hin.
  - destruct (String.prefix l s); [| destruct Hin].
    destruct Hin as [H | []]. now inversion H; subst.
  - destruct s as [| a s]; [destruct Hin |]. destruct (p a); [| destruct Hin].
    destruct Hin as [H | []]. now inversion H; subst.
  - apply in_map_iff in Hin. destruct Hin as ([w0 s0] & Heq & _). now inversion Heq; subst.
  - destruct s as [| a s]; [destruct Hin |]. destruct (p a); [| destruct Hin].
    apply in_map_iff in Hin. destruct Hin as ([w0 s0] & Heq & _). now inversion Heq; subst.
  - destruct s as [| a s]; [destruct Hin |]. destruct (p a); [| destruct Hin].
    apply in_map_iff in Hin. destruct Hin as ([w0 s0] & Heq & _). now inversion Heq; subst.
  - destruct Hg as [Hn Hg]. apply in_map_iff in Hin.
    destruct Hin as ([[w0 s0] c0] & Heq & Hin). inversion Heq; subst.
    intros k v [Hkv | Hkv].
    + inversion Hkv; subst. eapply Hn; eassumption.
    + eapply IH; eassumption.
  - apply in_app_or in Hin. destruct Hin as [Hin | [H | []]].
    + eapply IH; eassumption.
    + now inversion H; subst.
  - destruct Hg as [Hg1 Hg2]. apply in_flat_map in Hin.
    destruct Hin as ([[w1 s1] c1] & Hin1 & Hin2).
    apply in_map_iff in Hin2. destruct Hin2 as ([[w2 s2] c2] & Heq & Hin2).
    inversion Heq; subst.
    eapply IH2; [exact Hg2 | | exact Hin2].
    eapply IH1; [exact Hg1 | exact Hc | exact Hin1].
Qed.

Lemma re_match_caps_ok (P : nat -> string -> Prop) (r : regex) (s : string) (c : caps) :
  groups_ok P r -> re_match r s = Some c -> caps_ok P c.
Proof.
  intros Hg. unfold re_match. destruct (run r s []) as [| [[w s'] c'] rest] eqn:Hrun;
    [discriminate |].
  intros H; injection H as <-.
  eapply run_caps_ok; [exact Hg | | rewrite Hrun; left; reflexivity].
  intros n v [].
Qed.

Lemma re_search_caps_ok (P : nat -> string -> Prop) (r : regex) (s : string) (c : caps) :
  groups_ok P r -> re_search r s = Some c -> caps_ok P c.
Proof.
  intros Hg. induction s as [| a s IH]; simpl.
  - destruct (re_match r "") eqn:Hm; [| discriminate].
    intros H; injection H as <-. eapply re_match_caps_ok; eassumption.
  - destruct (re_match r (String a s)) eqn:Hm.
    + intros H; injection H as <-. eapply re_match_caps_ok; eassumption.
    + exact IH.
Qed.

Lemma group_in (c : caps) (n : nat) (w : string) : group c n = Some w -> In (n, w) c.
Proof.
  induction c as [| [k v] c IH]; simpl; [discriminate |].
  destruct (Nat.eqb_spec k n) as [-> | _].
  - intros H; injection H as <-. now left.
  - intros H. right. auto.
Qed.

End ReFacts.

(** ** C1: the command helpers *)

Lemma run_adb_total (cmd : list string) (run : outcome) :
  exists out, Dashboard.run_adb cmd run = Ok out.
Proof.
  destruct run as [rc out err | | | e]; simpl; eauto.
  destruct (negb (rc =? 0)%Z); eauto.
Qed.

(** C1, as stated, fails: when [adb devices] ends with return code 1,
    [run_adb_command] raises [RuntimeError] instead of returning the
    empty string. *)
Lemma run_adb_command_raises_on_nonzero_exit :
  exits_nonzero (Completed 1 "" "error: device offline ") = true /\
  Diagnose.run_adb_command ["adb"; "devices"] (Completed 1 "" "error: device offline ")
  = Raise (RuntimeError
             (String.append (text ["ADB error: adb devices"]) "error: device offline")) /\
  Diagnose.run_adb_command ["adb"; "devices"] (Completed 1 "" "error: device offline ")
  <> Ok "".
Proof.
  repeat split; try reflexivity. discriminate.
Qed.

(** C1, amended: for a command that exits non-zero or times out,
    [run_adb] of the dashboard returns the empty string; [run_adb_command]
    of the command-line tool returns the empty string when the command
    times out and, when it exits non-zero, raises the [RuntimeError]
    whose message is [ADB error: ], the words of the command joined by
    spaces, a line feed and the stripped error output. *)
Theorem command_helpers_on_failure (cmd : list string) (run : outcome) :
  exits_nonzero run = true \/ times_out run = true ->
  Dashboard.run_adb cmd run = Ok "" /\
  (times_out run = true -> Diagnose.run_adb_command cmd run = Ok "") /\
  (exits_nonzero run = true ->
   Diagnose.run_adb_command cmd run
   = Raise (RuntimeError
              (String.append "ADB error: "
                 (String.append (String.concat " " cmd)
                    (String.append Diagnose.newline (PyStr.strip (stderr_of run))))))).
Proof.
  intros H. destruct run as [rc out err | | | e]; simpl in *.
  - destruct H as [H | H]; [| discriminate]. rewrite H.
    split; [reflexivity |]. split; [discriminate |]. intros _. reflexivity.
  - repeat split; [discriminate].
  - destruct H; discriminate.
  - destruct H; discriminate.
Qed.

Lemma command_helpers_on_failure_witness :
  Dashboard.run_adb ["adb"; "shell"; "dumpsys"; "meminfo"] (Completed 255 "" "closed")
  = Ok "" /\
  Diagnose.run_adb_command ["adb"; "shell"; "dumpsys"; "meminfo"] TimeoutExpired = Ok "" /\
  Diagnose.run_adb_command ["adb"; "shell"; "dumpsys"; "meminfo"] (Completed 255 "" " closed ")
  = Raise (RuntimeError (String.append (text ["ADB error: adb shell dumpsys meminfo"]) "closed")).
Proof.
  split; [| split].
  - apply (command_helpers_on_failure ["adb"; "shell"; "dumpsys"; "meminfo"]
             (Completed 255 "" "closed")). left. reflexivity.
  - apply (command_helpers_on_failure ["adb"; "shell"; "dumpsys"; "meminfo"]
             TimeoutExpired); [right |]; reflexivity.
  - apply (command_helpers_on_failure ["adb"; "shell"; "dumpsys"; "meminfo"]
             (Completed 255 "" " closed ")); [left |]; reflexivity.
Defined.

(** ** C2: the monitoring session *)

Section Session.

Import Dashboard.

Lemma count_set_nth {A : Type} (f : A -> bool) (l : list A) :
  forall i m m', nth_error l i = Some m ->
    (List.length (List.filter f (set_nth i m' l)) + (if f m then 1 else 0)
     = List.length (List.filter f l) + (if f m' then 1 else 0))%nat.
Proof.
  induction l as [| y l IH]; intros i m m' Hi; [destruct i; discriminate |].
  destruct i as [| i]; cbn [set_nth nth_error List.filter] in *.
  - injection Hi as ->. destruct (f m), (f m'); cbn [List.length]; lia.
  - specialize (IH i m m' Hi). destruct (f y); cbn [List.length]; lia.
Qed.

Lemma forallb_set_nth {A : Type} (f : A -> bool) (l : list A) (i : nat) (x : A) :
  forallb f l = true -> f x = true -> forallb f (set_nth i x l) = true.
Proof.
  revert i. induction l as [| y l IH]; intros i Hl Hx; cbn [set_nth]; [reflexivity |].
  cbn [forallb] in Hl. apply andb_true_iff in Hl as [Hy Hl].
  destruct i; cbn [forallb].
  - now rewrite Hx, Hl.
  - now rewrite Hy, IH.
Qed.

Lemma nth_error_last {A : Type} (l : list A) (x : A) :
  nth_error (l ++ [x]) (List.length l) = Some x.
Proof. rewrite nth_error_app2 by lia. now rewrite Nat.sub_diag. Qed.

Lemma set_nth_last {A : Type} (l : list A) (x y : A) :
  set_nth (List.length l) y (l ++ [x]) = l ++ [y].
Proof. induction l as [| z l IH]; cbn; [reflexivity | now rewrite IH]. Qed.

(** A step that leaves the history, the files, the flag and the
    collections in flight as they are. *)
Ltac nothing_new :=
  split;
  [ exists []; split; [now rewrite app_nil_r | constructor]
  | exists []; split; [now rewrite app_nil_r |];
    let Ha := fresh "Ha" in
    intros Ha; split; [first [exact Ha | reflexivity] | unfold in_flight; cbn; lia] ].

(** One step of a session in which no start is being served: no start
    is being served afterwards, a file written holds the history, and
    the history grows at its end; if the flag is cleared it stays
    cleared, and the snapshots appended and the collections in flight
    together are not more than the collections that were in flight. *)
Lemma step_no_start (st : session) (e : event) :
  forallb (fun h => negb (is_start h)) (requests st) = true ->
  is_start_request e = false ->
  forallb (fun h => negb (is_start h)) (requests (step st e)) = true /\
  (exists w, written (step st e) = written st ++ w /\
             Forall (fun x => x = session_data st) w) /\
  (exists more,
      session_data (step st e) = session_data st ++ more /\
      (session_active st = false ->
       session_active (step st e) = false /\
       (List.length more + in_flight (step st e) <= in_flight st)%nat)).
Proof.
  intros Hreq He. destruct e as [| | j | i r]; [discriminate | | |]; cbn [step].
  - (* a stop request arrives *)
    cbn. split; [| nothing_new]. rewrite forallb_app, Hreq. reflexivity.
  - (* a handler executes a statement *)
    destruct (nth_error (requests st) j) as [h |] eqn:Hj; [| split; [exact Hreq | nothing_new]].
    assert (Hh : is_start h = false).
    { rewrite forallb_forall in Hreq. apply negb_true_iff. apply Hreq.
      eapply nth_error_In; eassumption. }
    assert (G : forall h', is_start h' = false ->
              forallb (fun h => negb (is_start h)) (set_nth j h' (requests st)) = true)
      by (intros h' Hh'; apply forallb_set_nth; [exact Hreq | now rewrite Hh']).
    destruct h; try discriminate; cbn [serve api_session_stop api_session_start].
    + cbn. split; [apply G; reflexivity | nothing_new].
    + destruct (session_thread st) as [i |]; [destruct (nth_error (monitors st) i) as [[] |] |];
        cbn; (split; [apply G; reflexivity | nothing_new]).
    + cbn. split; [apply G; reflexivity | split].
      * exists [session_data st]. split; [reflexivity | repeat constructor].
      * exists []. split; [now rewrite app_nil_r |]. intros Ha. split; [exact Ha |].
        unfold in_flight. cbn. lia.
    + cbn. split; [apply G; reflexivity | nothing_new].
    + cbn. split; [apply G; reflexivity | nothing_new].
  - (* a monitor thread executes a statement *)
    destruct (nth_error (monitors st) i) as [m |] eqn:Hi; [| split; [exact Hreq | nothing_new]].
    destruct (session_monitor (session_active st) m r) as [m' appended] eqn:Hm.
    cbn. split; [exact Hreq | split].
    + exists []. split; [now rewrite app_nil_r | constructor].
    + pose proof (count_set_nth flying (monitors st) i m m' Hi) as Hc.
      unfold in_flight. cbn [monitors].
      destruct m; cbn [session_monitor] in Hm.
      * injection Hm as <- <-. exists []. split; [now rewrite app_nil_r |].
        intros Ha. split; [exact Ha |]. cbn in *. lia.
      * destruct (session_active st) eqn:Hact; injection Hm as <- <-;
          (exists []; split; [now rewrite app_nil_r |]); intros Ha; try discriminate.
        split; [reflexivity |]. cbn in *. lia.
      * destruct r; injection Hm as <- <-; (exists []; split; [now rewrite app_nil_r |]);
          intros Ha; (split; [exact Ha |]); cbn in *; lia.
      * injection Hm as <- <-. exists [s]. split; [reflexivity |].
        intros Ha. split; [exact Ha |]. cbn in *. lia.
      * injection Hm as <- <-. exists []. split; [now rewrite app_nil_r |].
        intros Ha. split; [exact Ha |]. cbn in *. lia.
      * injection Hm as <- <-. exists []. split; [now rewrite app_nil_r |].
        intros Ha. split; [exact Ha |]. cbn in *. lia.
Qed.

Lemma run_app (st : session) (a b : list event) : run st (a ++ b) = run (run st a) b.
Proof. unfold run. apply fold_left_app. Qed.

(** The same along a sequence of events, whatever the interleaving. *)
Lemma run_no_start (events : list event) :
  forall st, no_start st events = true ->
    forallb (fun h => negb (is_start h)) (requests (run st events)) = true /\
    (exists more,
        session_data (run st events) = session_data st ++ more /\
        (session_active st = false ->
         session_active (run st events) = false /\
         (List.length more + in_flight (run st events) <= in_flight st)%nat)) /\
    (exists files,
        written (run st events) = written st ++ files /\
        Forall (fun file => exists more,
                    file = session_data st ++ more /\
                    (session_active st = false ->
                     (List.length more <= in_flight st)%nat)) files).
Proof.
  induction events as [| e events IH]; intros st H; unfold no_start in H;
    apply andb_true_iff in H as [Hreq Hev].
  - cbn [run fold_left]. split; [exact Hreq | split].
    + exists []. split; [now rewrite app_nil_r |]. intros Ha. split; [exact Ha | cbn; lia].
    + exists []. split; [now rewrite app_nil_r | constructor].
  - cbn [forallb] in Hev. apply andb_true_iff in Hev as [He Hev]. apply negb_true_iff in He.
    destruct (step_no_start st e Hreq He)
      as (Hreq1 & (w & Hw & Hwall) & (more1 & Hd1 & Hin1)).
    assert (H1 : no_start (step st e) events = true)
      by (unfold no_start; now rewrite Hreq1, Hev).
    destruct (IH (step st e) H1) as (Hreq2 & (more2 & Hd2 & Hin2) & (files & Hf & Hfall)).
    change (run st (e :: events)) with (run (step st e) events).
    split; [exact Hreq2 | split].
    + exists (more1 ++ more2). split; [now rewrite Hd2, Hd1, app_assoc |].
      intros Ha. destruct (Hin1 Ha) as [Ha1 Hb1]. destruct (Hin2 Ha1) as [Ha2 Hb2].
      split; [exact Ha2 |]. rewrite length_app. lia.
    + exists (w ++ files). split; [now rewrite Hf, Hw, app_assoc |].
      apply Forall_app. split.
      * eapply Forall_impl; [| exact Hwall]. intros x ->. exists [].
        split; [now rewrite app_nil_r |]. intros _. cbn. lia.
      * eapply Forall_impl; [| exact Hfall]. intros x (m & -> & Hm).
        exists (more1 ++ m). split; [now rewrite Hd1, app_assoc |].
        intros Ha. destruct (Hin1 Ha) as [Ha1 Hb1]. specialize (Hm Ha1).
        rewrite length_app. lia.
Qed.

(** A stop served with nothing in between. *)
Lemma stop_served_alone (st : session) :
  joinable st = true ->
  run st (serve_stop (List.length (requests st)))
  = {| session_active := false; session_data := session_data st;
       session_thread := session_thread st; monitors := monitors st;
       requests := requests st ++ [Served];
       written := written st ++ [session_data st] |}.
Proof.
  intros Hj. unfold serve_stop, run. cbn [fold_left].
  cbn [step requests]. rewrite nth_error_last. cbn [serve api_session_stop].
  cbn [session_active session_data session_thread monitors requests written].
  rewrite set_nth_last.
  cbn [step requests]. rewrite nth_error_last. cbn [serve api_session_stop].
  cbn [session_thread monitors]. unfold joinable in Hj.
  destruct (session_thread st) as [i |].
  - destruct (nth_error (monitors st) i) as [[] |]; try discriminate;
      cbn [session_active session_data session_thread monitors requests written];
      rewrite set_nth_last; cbn [step requests]; rewrite nth_error_last;
      cbn [serve api_session_stop session_active session_data session_thread monitors
           requests written]; rewrite set_nth_last; reflexivity.
  - cbn [session_active session_data session_thread monitors requests written];
      rewrite set_nth_last; cbn [step requests]; rewrite nth_error_last;
      cbn [serve api_session_stop session_active session_data session_thread monitors
           requests written]; rewrite set_nth_last; reflexivity.
Qed.

(** A start served with nothing in between. *)
Lemma start_served_alone (st : session) :
  run st (serve_start (List.length (requests st)))
  = if session_active st
    then {| session_active := session_active st; session_data := session_data st;
            session_thread := session_thread st; monitors := monitors st;
            requests := requests st ++ [Served]; written := written st |}
    else {| session_active := true; session_data := [];
            session_thread := Some (List.length (monitors st));
            monitors := monitors st ++ [AtTest];
            requests := requests st ++ [Served]; written := written st |}.
Proof.
  unfold serve_start, run. cbn [fold_left].
  cbn [step requests]. rewrite nth_error_last. cbn [serve api_session_start].
  cbn [session_active session_data session_thread monitors requests written].
  rewrite set_nth_last.
  destruct (session_active st) eqn:Ha; cbn [negb].
  - repeat (cbn [step requests]; rewrite nth_error_last;
            cbn [serve api_session_start session_active session_data session_thread monitors
                 requests written]; rewrite set_nth_last).
    reflexivity.
  - repeat (cbn [step requests]; rewrite nth_error_last;
            cbn [serve api_session_start session_active session_data session_thread monitors
                 requests written]; rewrite ?nth_error_last; rewrite !set_nth_last).
    cbn [session_active session_data session_thread monitors requests written].
    rewrite ?set_nth_last. reflexivity.
Qed.

(** The turns of the only monitor thread of a running session append
    what they collect, in order. *)
Lemma turns_append (snaps : list stats) :
  forall data thread reqs files,
    run {| session_active := true; session_data := data; session_thread := thread;
           monitors := [AtTest]; requests := reqs; written := files |}
        (flat_map (turn 0) snaps)
    = {| session_active := true; session_data := data ++ snaps; session_thread := thread;
         monitors := [AtTest]; requests := reqs; written := files |}.
Proof.
  induction snaps as [| s snaps IH]; intros data thread reqs files; cbn [flat_map].
  - cbn. now rewrite app_nil_r.
  - rewrite run_app. cbn. rewrite IH, <- app_assoc. reflexivity.
Qed.

End Session.

(** C2, as stated, fails: after a start and one collection, while the
    monitor is asleep, a stop writes the snapshot and a second stop
    served right afterwards writes the same snapshot again, not an empty
    sequence; the history is not emptied. *)
Lemma second_stop_repeats_history :
  exists s st,
    Dashboard.run Dashboard.initial
      (serve_start 0 ++ collection 0 s ++ serve_stop 1 ++ serve_stop 2)
    = st /\
    Dashboard.written st = [[s]; [s]] /\
    nth_error (Dashboard.written st) 1 <> Some [] /\
    Dashboard.session_data st <> [] /\ Dashboard.session_active st = false.
Proof.
  exists (sample_stats "2024-01-01 00:00:00"). eexists. split; [reflexivity |].
  cbn. repeat split; discriminate.
Qed.

(** C2, amended.  In every interleaving of the monitor threads and of
    stop requests in which no start is served, the history only grows at
    its end and every file written begins with the history held at the
    beginning: no stop empties the history, and a later stop writes what
    an earlier one wrote, followed by what was appended since.  If the
    flag was cleared and no collection was in flight, the history stays
    as it is and every stop writes it again.  A stop served with nothing
    in between writes the history, keeps it and clears the flag.  After
    a start from idle, the turns of the monitor that collect [snaps] and
    the collection of [s], a stop served while the monitor is asleep
    writes [snaps] followed by [s].  A start that finds the session idle
    empties the history; a start that finds it running changes nothing.
    A stop served while the first collection is in flight writes
    nothing, and the stop after the append writes the snapshot. *)
Theorem session_stop_keeps_history :
  (forall st events,
      no_start st events = true ->
      (exists more,
          Dashboard.session_data (Dashboard.run st events)
          = Dashboard.session_data st ++ more) /\
      (exists files,
          Dashboard.written (Dashboard.run st events) = Dashboard.written st ++ files /\
          Forall (fun file => exists more, file = Dashboard.session_data st ++ more) files)) /\
  (forall st events,
      no_start st events = true ->
      Dashboard.session_active st = false -> in_flight st = 0%nat ->
      Dashboard.session_data (Dashboard.run st events) = Dashboard.session_data st /\
      exists files,
        Dashboard.written (Dashboard.run st events) = Dashboard.written st ++ files /\
        Forall (fun file => file = Dashboard.session_data st) files) /\
  (forall st,
      joinable st = true ->
      let st' := Dashboard.run st (serve_stop (List.length (Dashboard.requests st))) in
      Dashboard.written st' = Dashboard.written st ++ [Dashboard.session_data st] /\
      Dashboard.session_data st' = Dashboard.session_data st /\
      Dashboard.session_active st' = false) /\
  (forall snaps s,
      Dashboard.written
        (Dashboard.run Dashboard.initial
           (serve_start 0 ++ flat_map (turn 0) snaps ++ collection 0 s ++ serve_stop 1))
      = [snaps ++ [s]]) /\
  (forall st,
      let st' := Dashboard.run st (serve_start (List.length (Dashboard.requests st))) in
      (Dashboard.session_active st = false ->
       Dashboard.session_data st' = [] /\ Dashboard.session_active st' = true /\
       Dashboard.monitors st' = Dashboard.monitors st ++ [Dashboard.AtTest]) /\
      (Dashboard.session_active st = true ->
       Dashboard.session_data st' = Dashboard.session_data st /\
       Dashboard.session_active st' = true /\
       Dashboard.monitors st' = Dashboard.monitors st /\
       Dashboard.written st' = Dashboard.written st)) /\
  (forall s,
      Dashboard.written
        (Dashboard.run Dashboard.initial
           (serve_start 0 ++ [monitor_step 0 s] ++ serve_stop 1
            ++ [monitor_step 0 s; monitor_step 0 s] ++ serve_stop 2))
      = [[]; [s]]).
Proof.
  split; [| split; [| split; [| split; [| split]]]].
  - intros st events H.
    destruct (run_no_start events st H) as (_ & (more & Hd & _) & (files & Hf & Hall)).
    split; [now exists more |]. exists files. split; [exact Hf |].
    eapply Forall_impl; [| exact Hall]. intros x (m & -> & _). now exists m.
  - intros st events H Ha Hq.
    destruct (run_no_start events st H) as (_ & (more & Hd & Hin) & (files & Hf & Hall)).
    destruct (Hin Ha) as [_ Hb]. rewrite Hq in Hb.
    destruct more; [| cbn in Hb; lia]. rewrite app_nil_r in Hd. split; [exact Hd |].
    exists files. split; [exact Hf |].
    eapply Forall_impl; [| exact Hall]. intros x (m & -> & Hm). specialize (Hm Ha).
    rewrite Hq in Hm. destruct m; [now rewrite app_nil_r | cbn in Hm; lia].
  - intros st Hj st'. subst st'. rewrite (stop_served_alone st Hj). cbn. auto.
  - intros snaps s. rewrite !run_app.
    change (Dashboard.run Dashboard.initial (serve_start 0))
      with {| Dashboard.session_active := true; Dashboard.session_data := [];
              Dashboard.session_thread := Some 0%nat;
              Dashboard.monitors := [Dashboard.AtTest];
              Dashboard.requests := [Dashboard.Served]; Dashboard.written := [] |}.
    rewrite turns_append. reflexivity.
  - intros st st'. subst st'. rewrite (start_served_alone st).
    split; intros Ha; rewrite Ha; cbn; auto.
  - intros s. reflexivity.
Qed.

(** ** C3: the parsers on malformed numbers *)

(** C3: three of the parsers do raise.  The size field [,] of a memory
    line passes the pattern and [int('')] raises [ValueError]; a value
    [1.2.3] passes the patterns of the thermal and of the process-table
    parser and [float('1.2.3')] raises [ValueError]. *)
Theorem parsers_raise_on_malformed_numbers :
  Diagnose.collect_ram_stats_from_raw meminfo_bad_size = Raise ValueError /\
  Diagnose.collect_thermal_info_from_raw thermal_bad_value = Raise ValueError /\
  Diagnose.collect_cpu_stats_from_raw top_bad_cpu = Raise ValueError /\
  Dashboard.collect_ram_stats_from_raw meminfo_bad_size = Raise ValueError /\
  Dashboard.collect_thermal_info_from_raw thermal_bad_value = Raise ValueError /\
  Dashboard.collect_cpu_stats_from_raw top_bad_cpu = Raise ValueError.
Proof.
  repeat split; vm_compute; reflexivity.
Qed.

(** A size too large for a float makes the memory parser raise
    [OverflowError]. *)
Lemma ram_parser_overflows :
  Diagnose.collect_ram_stats_from_raw
    (text ["Total RSS by process:";
           String.append "1"
             (String.append (String.concat "" (repeat "0000000000" 32))
                            "K: system (pid 1203)")])
  = Raise OverflowError.
Proof.
  vm_compute. reflexivity.
Qed.

(** ** C4: the frame profile of the specification *)

(** C4, as stated, fails: the average the parser returns for the frame
    times 7.0 and 22.0 is 14.5, not 13.5. *)
Lemma frame_average_is_not_13_5 :
  exists g,
    Diagnose.collect_gfx_stats_from_raw frame_profile = Ok g /\
    Parsers.avg_frame_time_ms g = Some (PyNum.literal "14.5") /\
    Parsers.avg_frame_time_ms g <> Some (PyNum.literal "13.5").
Proof.
  eexists. split; [vm_compute; reflexivity |]. split; [reflexivity | discriminate].
Qed.

(** C4, amended: on the marker line followed by [4.0 2.0 1.0],
    [20.0 1.0 1.0] and a blank line the frame parser returns
    [avg_frame_time_ms = 14.5], [jank_frames = 1] and [total_frames = 2]:
    the frame times are 7.0 and 22.0, their mean is 14.5 and only 22.0
    exceeds 16.67. *)
Theorem frame_profile_example :
  Diagnose.collect_gfx_stats_from_raw frame_profile
  = Ok {| Parsers.avg_frame_time_ms := Some (PyNum.literal "14.5");
          Parsers.jank_frames := Some 1%Z;
          Parsers.total_frames := 2%Z |} /\
  Parsers.gfx_rows (PyStr.splitlines frame_profile) false []
  = Ok [PyNum.literal "7.0"; PyNum.literal "22.0"] /\
  PyNum.to_Q (PyNum.literal "14.5") = Some (29 # 2)%Q /\
  PyNum.flt Parsers.jank_threshold (PyNum.literal "22.0") = true /\
  PyNum.flt Parsers.jank_threshold (PyNum.literal "7.0") = false.
Proof.
  repeat split; vm_compute; reflexivity.
Qed.

(** ** C5: the memory parser returns a sorted sequence *)

Section RamSorted.

Import Parsers Binary64 Binary64Facts.

Lemma ram_rows_entries (lines : list string) :
  forall acc apps, entries_ok acc -> ram_rows lines acc = Ok apps -> entries_ok apps.
Proof.
  induction lines as [| line rest IH]; intros acc apps Hacc; cbn [ram_rows].
  - intros H; injection H as <-; exact Hacc.
  - destruct (Re.re_match ram_re line) as [m |].
    + destruct (PyNum.py_int (PyStr.remove_char "," (get m 1))) as [kb | |];
        cbn [bind]; try discriminate.
      destruct (PyNum.int_truediv kb 1024) as [mb | |] eqn:Hmb; cbn [bind];
        try discriminate.
      destruct (PyNum.py_int (get m 3)) as [pid | |]; cbn [bind]; try discriminate.
      apply IH. apply Forall_app; split; [exact Hacc |].
      constructor; [| constructor]. exact (int_truediv_entry _ _ _ Hmb).
    + destruct (PyStr.is_empty (PyStr.strip line)).
      * intros H; injection H as <-; exact Hacc.
      * apply IH; exact Hacc.
Qed.

Lemma insert_desc_perm (x : app) (l : list app) : Permutation (x :: l) (insert_desc x l).
Proof.
  induction l as [| y l IH]; simpl; [reflexivity |].
  destruct (PyNum.flt (a_ram_mb x) (a_ram_mb y)); [| reflexivity].
  rewrite perm_swap. now constructor.
Qed.

(** Sorting loses and adds no entry. *)
Lemma sort_desc_perm (l : list app) : Permutation l (sort_desc l).
Proof.
  induction l as [| x l IH]; simpl; [constructor |].
  rewrite <- insert_desc_perm. now constructor.
Qed.

Lemma insert_desc_sorted (x : app) (l : list app) :
  entry_value (a_ram_mb x) -> entries_ok l ->
  StronglySorted ram_ge l -> StronglySorted ram_ge (insert_desc x l).
Proof.
  intros Hx Hl Hs. induction Hs as [| y l Hs IH Hy]; simpl.
  - repeat constructor.
  - inversion Hl as [| ? ? Hny Hnl]; subst.
    destruct (PyNum.flt (a_ram_mb x) (a_ram_mb y)) eqn:Hlt.
    + constructor; [now apply IH |].
      apply (Permutation_Forall (insert_desc_perm x l)).
      constructor; [| exact Hy]. now apply flt_fle.
    + assert (Hxy : ram_ge x y).
      { apply flt_false_fle; [apply finite_number, Hx | apply finite_number, Hny | exact Hlt]. }
      constructor; [now constructor |].
      constructor; [exact Hxy |].
      eapply Forall_impl; [| exact Hy]. intros z Hz. unfold ram_ge in *.
      eapply fle_trans; eassumption.
Qed.

Lemma sort_desc_sorted (l : list app) :
  entries_ok l -> StronglySorted ram_ge (sort_desc l).
Proof.
  induction l as [| x l IH]; intros Hl; simpl; [constructor |].
  inversion Hl; subst.
  apply insert_desc_sorted; auto.
  apply (Permutation_Forall (sort_desc_perm l)). assumption.
Qed.

Lemma strongly_sorted_nth {A : Type} (R : A -> A -> Prop) (l : list A) :
  StronglySorted R l ->
  forall i j a b, (i < j)%nat -> nth_error l i = Some a -> nth_error l j = Some b -> R a b.
Proof.
  induction 1 as [| x l Hs IH Hx]; intros i j a b Hij Hi Hj.
  - destruct i; discriminate.
  - destruct j as [| j]; [lia |]. simpl in Hj.
    destruct i as [| i]; simpl in Hi.
    + injection Hi as <-. rewrite Forall_forall in Hx.
      apply Hx. eapply nth_error_In; eassumption.
    + apply (IH i j); [lia | assumption | assumption].
Qed.

Lemma collect_ram_sorted (raw : string) (apps : list app) :
  collect_ram_stats_from_raw raw = Ok apps ->
  StronglySorted ram_ge apps /\ entries_ok apps.
Proof.
  unfold collect_ram_stats_from_raw.
  destruct (after_marker _ _) as [rows |].
  - destruct (ram_rows rows []) as [parsed | |] eqn:Hrows; simpl; try discriminate.
    intros H; injection H as <-.
    assert (Hp : entries_ok parsed) by (eapply ram_rows_entries; [| exact Hrows]; constructor).
    split; [now apply sort_desc_sorted |].
    apply (Permutation_Forall (sort_desc_perm parsed)). exact Hp.
  - intros H; injection H as <-. split; constructor.
Qed.

End RamSorted.

(** C5: whatever the text, the sequence the memory parser returns (the
    one of [diagnose.py] or its copy in [dashboard.py]) is in descending
    order of [ram_mb]: the entry at a smaller index has a [ram_mb] at
    least that of the entry at a greater index. *)
Theorem ram_stats_sorted_descending
  (raw : string) (apps : list Parsers.app) (i j : nat) (a b : Parsers.app) :
  Diagnose.collect_ram_stats_from_raw raw = Ok apps \/
  Dashboard.collect_ram_stats_from_raw raw = Ok apps ->
  (i < j)%nat -> nth_error apps i = Some a -> nth_error apps j = Some b ->
  PyNum.fle (Parsers.a_ram_mb b) (Parsers.a_ram_mb a) = true.
Proof.
  intros Hraw Hij Hi Hj.
  assert (H : Parsers.collect_ram_stats_from_raw raw = Ok apps) by (destruct Hraw; assumption).
  exact (strongly_sorted_nth _ _ (proj1 (collect_ram_sorted raw apps H)) i j a b Hij Hi Hj).
Qed.

Lemma ram_stats_sorted_descending_witness :
  PyNum.fle (PyNum.literal "87.890625") (PyNum.literal "341.796875") = true.
Proof.
  apply (ram_stats_sorted_descending meminfo_sample
           [ {| Parsers.a_name := "system"; Parsers.a_pid := 1203;
                Parsers.a_ram_mb := PyNum.literal "341.796875" |};
             {| Parsers.a_name := "com.example.app"; Parsers.a_pid := 4321;
                Parsers.a_ram_mb := PyNum.literal "117.67578125" |};
             {| Parsers.a_name := "com.android.systemui"; Parsers.a_pid := 2100;
                Parsers.a_ram_mb := PyNum.literal "87.890625" |} ]
           0 2
           {| Parsers.a_name := "system"; Parsers.a_pid := 1203;
              Parsers.a_ram_mb := PyNum.literal "341.796875" |}
           {| Parsers.a_name := "com.android.systemui"; Parsers.a_pid := 2100;
              Parsers.a_ram_mb := PyNum.literal "87.890625" |}).
  - left. vm_compute. reflexivity.
  - lia.
  - reflexivity.
  - reflexivity.
Defined.

(** ** What one collection returns *)

Section Collection.

Import Parsers Binary64 Binary64Facts.

Lemma parsed_ram_entries (w : Dashboard.world) (apps : list app) :
  parsed_ram w = Ok apps -> entries_ok apps.
Proof.
  unfold parsed_ram.
  destruct (run_adb_total ["adb"; "shell"; "dumpsys"; "meminfo"] (Dashboard.meminfo_run w))
    as [ram_raw ->]. simpl.
  destruct (truthy ram_raw).
  - intros H. exact (proj2 (collect_ram_sorted _ _ H)).
  - intros H; injection H as <-. constructor.
Qed.

(** What [collect_stats] returns, in terms of the entries it parsed. *)
Lemma collect_stats_inv (w : Dashboard.world) (st : Dashboard.stats) :
  Dashboard.collect_stats w = Ok st ->
  exists apps,
    parsed_ram w = Ok apps /\
    Dashboard.ram st = firstn 5 apps /\
    Dashboard.free_ram st = PyNum.sub (PyNum.Int 4096) (Dashboard.used_ram_of apps) /\
    Dashboard.mem_health st = Dashboard.mem_health_of (Dashboard.free_ram st) /\
    Dashboard.total_ram st = PyNum.Int 4096.
Proof.
  unfold Dashboard.collect_stats, parsed_ram.
  destruct (run_adb_total ["adb"; "shell"; "top"; "-m"; "10"; "-n"; "1"] (Dashboard.top_run w))
    as [cpu_raw ->].
  destruct (run_adb_total ["adb"; "shell"; "dumpsys"; "meminfo"] (Dashboard.meminfo_run w))
    as [ram_raw ->].
  destruct (run_adb_total ["adb"; "shell"; "dumpsys"; "thermalservice"]
              (Dashboard.thermal_run w)) as [thermal_raw ->].
  simpl bind.
  destruct (if truthy cpu_raw then _ else _) as [cpu | |]; simpl bind; try discriminate.
  destruct (if truthy ram_raw then _ else _) as [ram | |]; simpl bind; try discriminate.
  destruct (if truthy thermal_raw then _ else _) as [thermal | |]; simpl bind;
    try discriminate.
  intros H; injection H as <-. exists ram. simpl. repeat split.
Qed.

Lemma sum_total_ok (xs : list app) :
  forall acc, total_ok acc -> entries_ok xs ->
    total_ok (fold_left PyNum.add (map (fun a => PyNum.Float (a_ram_mb a)) xs) acc).
Proof.
  induction xs as [| x xs IH]; intros acc Hacc Hxs; simpl; [exact Hacc |].
  inversion Hxs as [| ? ? [Hv Hf] Hrest]; subst.
  apply IH; [| exact Hrest].
  destruct acc as [z | g]; simpl in *.
  - subst z. split.
    + apply fadd_valid; [apply float_of_Z_valid | exact Hv].
    + apply fadd_number; [reflexivity | exact Hf].
  - destruct Hacc as [Hg Hn]. split.
    + now apply fadd_valid.
    + now apply fadd_number.
Qed.

Lemma used_ram_ok (apps : list app) :
  entries_ok apps -> total_ok (Dashboard.used_ram_of apps).
Proof.
  intros H. unfold Dashboard.used_ram_of, PyNum.sum.
  apply sum_total_ok; [reflexivity | exact H].
Qed.

(** The free amount [collect_stats] returns is a number. *)
Lemma free_ram_number (w : Dashboard.world) (st : Dashboard.stats) :
  Dashboard.collect_stats w = Ok st -> num_is_nan (Dashboard.free_ram st) = false.
Proof.
  intros H. destruct (collect_stats_inv w st H) as (apps & Hp & _ & -> & _).
  pose proof (used_ram_ok apps (parsed_ram_entries w apps Hp)) as Hu.
  destruct (Dashboard.used_ram_of apps) as [z | u]; [reflexivity |].
  destruct Hu as [_ Hn]. cbn [PyNum.sub PyNum.to_float num_is_nan].
  apply fsub_number; [reflexivity | exact Hn].
Qed.

End Collection.

(** ** C6: the memory-health bands *)

Lemma mem_health_bands (x : PyNum.num) :
  num_is_nan x = false ->
  (Dashboard.mem_health_of x = "low" <-> PyNum.lt x (PyNum.Int 500) = true) /\
  (Dashboard.mem_health_of x = "medium" <->
     PyNum.le (PyNum.Int 500) x = true /\ PyNum.lt x (PyNum.Int 1000) = true) /\
  (Dashboard.mem_health_of x = "good" <-> PyNum.le (PyNum.Int 1000) x = true).
Proof.
  intros Hx. unfold Dashboard.mem_health_of. destruct x as [z | f].
  - simpl PyNum.lt. simpl PyNum.le.
    destruct (Z.ltb_spec z 500); destruct (Z.ltb_spec z 1000);
      destruct (Z.leb_spec 500 z); destruct (Z.leb_spec 1000 z); try lia;
      repeat split; intros; try discriminate; try reflexivity; intuition discriminate.
  - simpl in Hx. unfold PyNum.lt, PyNum.le, PyNum.to_float.
    assert (H500 : PyNum.is_nan (PyNum.float_of_Z 500) = false) by reflexivity.
    assert (H1000 : PyNum.is_nan (PyNum.float_of_Z 1000) = false) by reflexivity.
    assert (Hc : PyNum.fle (PyNum.float_of_Z 500) (PyNum.float_of_Z 1000) = true)
      by reflexivity.
    rewrite (flt_as_fle f _ Hx H500), (flt_as_fle f _ Hx H1000).
    destruct (PyNum.flt f (PyNum.float_of_Z 500)) eqn:Ha.
    + rewrite (flt_fle_trans _ _ _ Ha Hc). simpl.
      repeat split; intros; try discriminate; try reflexivity; intuition discriminate.
    + destruct (PyNum.flt f (PyNum.float_of_Z 1000)); simpl;
        repeat split; intros; try discriminate; try reflexivity; intuition discriminate.
Qed.

(** C6: the memory-health verdict is a function of the free amount
    alone, with fixed bands: [low] exactly below 500, [medium] exactly
    from 500 to below 1000, [good] exactly from 1000 on, for every free
    amount that is a number, as the one [collect_stats] computes always
    is; 499.9 gives [low], 999.99 gives [medium], 1000.0 gives [good]. *)
Theorem mem_health_is_banded :
  (forall x : PyNum.num,
      num_is_nan x = false ->
      (Dashboard.mem_health_of x = "low" <-> PyNum.lt x (PyNum.Int 500) = true) /\
      (Dashboard.mem_health_of x = "medium" <->
         PyNum.le (PyNum.Int 500) x = true /\ PyNum.lt x (PyNum.Int 1000) = true) /\
      (Dashboard.mem_health_of x = "good" <-> PyNum.le (PyNum.Int 1000) x = true)) /\
  (forall (w : Dashboard.world) (st : Dashboard.stats),
      Dashboard.collect_stats w = Ok st ->
      Dashboard.mem_health st = Dashboard.mem_health_of (Dashboard.free_ram st) /\
      num_is_nan (Dashboard.free_ram st) = false) /\
  Dashboard.mem_health_of (PyNum.Float (PyNum.literal "499.9")) = "low" /\
  Dashboard.mem_health_of (PyNum.Float (PyNum.literal "500.0")) = "medium" /\
  Dashboard.mem_health_of (PyNum.Float (PyNum.literal "999.99")) = "medium" /\
  Dashboard.mem_health_of (PyNum.Float (PyNum.literal "1000.0")) = "good".
Proof.
  split; [exact mem_health_bands |].
  split; [| repeat split; vm_compute; reflexivity].
  intros w st H. split; [| exact (free_ram_number w st H)].
  destruct (collect_stats_inv w st H) as (apps & _ & _ & _ & Hh & _). exact Hh.
Qed.

Lemma mem_health_is_banded_witness :
  Dashboard.mem_health_of (PyNum.Float (PyNum.literal "-786.8125")) = "low" /\
  Dashboard.mem_health overcommitted_stats
  = Dashboard.mem_health_of (Dashboard.free_ram overcommitted_stats).
Proof.
  split.
  - apply (proj1 (proj1 mem_health_is_banded (PyNum.Float (PyNum.literal "-786.8125"))
                    eq_refl)).
    reflexivity.
  - apply (proj1 (proj2 mem_health_is_banded) overcommitted overcommitted_stats).
    vm_compute. reflexivity.
Defined.

(** ** C7: the system-process heuristic *)

Lemma is_system_process_eq (name : string) :
  Diagnose.is_system_process name
  = negb (PyStr.contains "." name)
    || List.existsb (fun n => String.prefix n name) Diagnose.system_names.
Proof.
  unfold Diagnose.is_system_process, PyStr.startswith.
  destruct (List.existsb _ _); [now rewrite orb_true_r |].
  rewrite orb_false_r. now destruct (negb _).
Qed.

(** C7: [is_system_process name] holds exactly when [name] has no [.]
    or starts with an entry of the list of system names; it holds of
    [zygote] and of [vendor.qti.something] and not of [com.example.app]. *)
Theorem is_system_process_spec :
  (forall name : string,
      Diagnose.is_system_process name = true <->
      (PyStr.contains "." name = false \/
       exists n, In n Diagnose.system_names /\ PyStr.startswith name n = true)) /\
  Diagnose.is_system_process "zygote" = true /\
  Diagnose.is_system_process "com.example.app" = false /\
  Diagnose.is_system_process "vendor.qti.something" = true.
Proof.
  split; [| repeat split; reflexivity].
  intros name. rewrite is_system_process_eq, orb_true_iff, negb_true_iff, existsb_exists.
  reflexivity.
Qed.

(** ** C8: thermal readings are not negative *)

Section Thermal.

Import Parsers Binary64 Binary64Facts ReFacts.

Ltac each_char c :=
  destruct c as [[] [] [] [] [] [] [] []]; vm_compute; try discriminate; try reflexivity; auto.

(** A digit or a point is no space, underscore or sign, and no letter
    that [inf] or [nan] begins with. *)
Lemma digit_or_point_plain (c : ascii) :
  digit_or_point c = true ->
  PyStr.isspace c = false /\ PyNum.is_underscore c = false /\
  PyNum.is_minus c = false /\ PyNum.is_plus c = false /\
  Ascii.eqb (PyNum.lower c) "i" = false /\ Ascii.eqb (PyNum.lower c) "n" = false.
Proof.
  each_char c; intros _; repeat split.
Qed.

Lemma filter_id (p : ascii -> bool) (s : string) :
  PyStr.forallb p s = true -> PyStr.filter p s = s.
Proof.
  induction s as [| c s IH]; simpl; [reflexivity |].
  intros H. apply andb_prop in H. destruct H as [Hc Hs]. rewrite Hc. f_equal. auto.
Qed.

Lemma forallb_impl (p q : ascii -> bool) (s : string) :
  (forall c, p c = true -> q c = true) ->
  PyStr.forallb p s = true -> PyStr.forallb q s = true.
Proof.
  intros Hpq. induction s as [| c s IH]; simpl; [reflexivity |].
  intros H. apply andb_prop in H. destruct H as [Hc Hs]. rewrite (Hpq c Hc). simpl. auto.
Qed.

Lemma rstrip_id (s : string) :
  PyStr.forallb (fun c => negb (PyStr.isspace c)) s = true -> PyStr.rstrip s = s.
Proof.
  induction s as [| c s IH]; simpl; [reflexivity |].
  intros H. apply andb_prop in H. destruct H as [Hc Hs]. rewrite (IH Hs).
  apply negb_true_iff in Hc. rewrite Hc, andb_false_r. reflexivity.
Qed.

Lemma strip_id (s : string) :
  PyStr.forallb (fun c => negb (PyStr.isspace c)) s = true -> PyStr.strip s = s.
Proof.
  intros H. unfold PyStr.strip.
  assert (Hl : PyStr.lstrip s = s).
  { destruct s as [| c s]; [reflexivity |]. simpl in *.
    apply andb_prop in H. destruct H as [Hc _]. apply negb_true_iff in Hc. now rewrite Hc. }
  rewrite Hl. now apply rstrip_id.
Qed.

(** [float] of digits and points, when it returns, returns a float that
    is not negative. *)
Lemma py_float_unsigned (s : string) (f : PyNum.float) :
  PyStr.forallb digit_or_point s = true ->
  PyNum.py_float s = Ok f -> PyNum.fle (S754_zero false) f = true.
Proof.
  intros Hs. unfold PyNum.py_float.
  destruct (PyNum.underscores_ok None s); [| discriminate].
  assert (Hu : PyStr.remove_char "_" s = s).
  { apply filter_id. eapply forallb_impl; [| exact Hs].
    intros c Hc. destruct (digit_or_point_plain c Hc) as (_ & Hus & _).
    clear - Hus. destruct c as [[] [] [] [] [] [] [] []]; try reflexivity; discriminate. }
  rewrite Hu.
  assert (Hst : PyStr.strip s = s).
  { apply strip_id. eapply forallb_impl; [| exact Hs].
    intros c Hc. destruct (digit_or_point_plain c Hc) as (-> & _). reflexivity. }
  rewrite Hst.
  assert (Hsg : PyNum.take_sign s = (false, s)).
  { destruct s as [| c s']; [reflexivity |]. simpl in Hs. apply andb_prop in Hs.
    destruct Hs as [Hc _]. destruct (digit_or_point_plain c Hc) as (_ & _ & Hm & Hp & _).
    unfold PyNum.take_sign. now rewrite Hm, Hp. }
  rewrite Hsg.
  destruct (PyNum.parse_decimal s) as [[m e10] |].
  - intros H; injection H as <-. simpl. apply sign_false_nonneg, float_of_decimal_sign.
  - assert (Hn : PyNum.parse_inf_nan s = None).
    { destruct s as [| c s']; [reflexivity |]. simpl in Hs. apply andb_prop in Hs.
      destruct Hs as [Hc _].
      destruct (digit_or_point_plain c Hc) as (_ & _ & _ & _ & Hi & Hn).
      unfold PyNum.parse_inf_nan. simpl. rewrite Hi, Hn. reflexivity. }
    rewrite Hn. discriminate.
Qed.

Lemma thermal_re_groups : groups_ok thermal_groups thermal_re.
Proof.
  simpl. repeat split.
  - intros s c w s' c' Hin _. eapply plus_class. exact Hin.
  - intros s c w s' c' Hin H. discriminate.
Qed.

(** The value the thermal pattern captures holds digits and points
    only: no minus sign. *)
Lemma thermal_value_unsigned (line : string) (m : Re.caps) :
  Re.re_search thermal_re line = Some m ->
  PyStr.forallb digit_or_point (get m 1) = true.
Proof.
  intros Hm. unfold get. destruct (Re.group m 1) as [w |] eqn:Hg; [| reflexivity].
  apply (re_search_caps_ok thermal_groups _ _ _ thermal_re_groups Hm 1%nat w).
  - now apply group_in.
  - reflexivity.
Qed.

Lemma dict_set_in {V : Type} (k : string) (v : V) (dct : dict V) :
  forall k' v', In (k', v') (dict_set k v dct) -> (k', v') = (k, v) \/ In (k', v') dct.
Proof.
  induction dct as [| [k0 v0] dct IH]; intros k' v' Hin; simpl in Hin.
  - destruct Hin as [H | []]. now left.
  - destruct (String.eqb k0 k).
    + destruct Hin as [H | H]; [now left | right; now right].
    + destruct Hin as [H | H]; [right; now left |].
      destruct (IH _ _ H) as [? | ?]; [now left | right; now right].
Qed.

Lemma thermal_rows_nonnegative (lines : list string) :
  forall acc sensors,
    values_nonnegative acc -> thermal_rows lines acc = Ok sensors ->
    values_nonnegative sensors.
Proof.
  induction lines as [| line rest IH]; intros acc sensors Hacc; cbn [thermal_rows].
  - intros H; injection H as <-. exact Hacc.
  - destruct (Re.re_search thermal_re line) as [m |] eqn:Hm; [| now apply IH].
    destruct (PyNum.py_float (get m 1)) as [v | |] eqn:Hv; cbn [bind]; try discriminate.
    apply IH. intros name v' Hin.
    destruct (dict_set_in _ _ _ _ _ Hin) as [Heq | Hold].
    + inversion Heq; subst. eapply py_float_unsigned; [| exact Hv].
      eapply thermal_value_unsigned; eassumption.
    + eapply Hacc; eassumption.
Qed.

End Thermal.

(** C8: whatever the text, every value of the mapping the thermal parser
    returns is at least zero; the value the pattern captures holds digits
    and points only, so that an entry with a negative [mValue] does not
    match and is left out. *)
Theorem thermal_values_nonnegative :
  (forall (raw : string) (sensors : Parsers.dict Parsers.float) (name : string)
          (v : Parsers.float),
      Diagnose.collect_thermal_info_from_raw raw = Ok sensors ->
      In (name, v) sensors -> PyNum.fle (S754_zero false) v = true) /\
  (forall (line : string) (m : Re.caps),
      Re.re_search Parsers.thermal_re line = Some m ->
      PyStr.forallb digit_or_point (Parsers.get m 1) = true) /\
  Dashboard.collect_thermal_info_from_raw thermal_negative
  = Ok [("AP", PyNum.literal "38.1")].
Proof.
  split; [| split].
  - intros raw sensors name v Hraw Hin.
    eapply (thermal_rows_nonnegative (PyStr.splitlines raw) []);
      [| exact Hraw | exact Hin].
    intros n x [].
  - exact thermal_value_unsigned.
  - vm_compute. reflexivity.
Qed.

Lemma thermal_values_nonnegative_witness :
  PyNum.fle (S754_zero false) (PyNum.literal "38.1") = true.
Proof.
  apply (proj1 thermal_values_nonnegative thermal_negative
           [("AP", PyNum.literal "38.1")] "AP" (PyNum.literal "38.1")).
  - vm_compute. reflexivity.
  - left. reflexivity.
Defined.

(** ** C9: the frame-profile parser *)

Section FrameProfile.

Import Parsers.

(** [float] raises nothing but [ValueError]. *)
Lemma py_float_cases (s : string) :
  (exists f, PyNum.py_float s = Ok f) \/ PyNum.py_float s = Raise ValueError.
Proof.
  unfold PyNum.py_float.
  destruct (PyNum.underscores_ok None s); [| now right].
  destruct (PyNum.take_sign _) as [neg body].
  destruct (PyNum.parse_decimal body) as [[m e10] |]; [left; eauto |].
  destruct (PyNum.parse_inf_nan body); [left; eauto | now right].
Qed.

Lemma frame_time_cases (a b c : string) :
  (exists x y z,
      PyNum.py_float a = Ok x /\ PyNum.py_float b = Ok y /\ PyNum.py_float c = Ok z /\
      frame_time a b c = Ok (PyNum.fadd (PyNum.fadd x y) z)) \/
  ((PyNum.py_float a = Raise ValueError \/ PyNum.py_float b = Raise ValueError \/
    PyNum.py_float c = Raise ValueError) /\
   frame_time a b c = Raise ValueError).
Proof.
  unfold frame_time.
  destruct (py_float_cases a) as [[x ->] | ->]; cbn [bind]; [| right; auto].
  destruct (py_float_cases b) as [[y ->] | ->]; cbn [bind]; [| right; auto].
  destruct (py_float_cases c) as [[z ->] | ->]; cbn [bind]; [| right; auto].
  left. exists x, y, z. auto.
Qed.

Lemma split_tokens_truthy (s : string) (a : string) (l : list string) :
  PyStr.split s = a :: l -> truthy s = true.
Proof.
  destruct s; [discriminate | reflexivity].
Qed.

(** A line of the section, neither blank nor a marker line, adds the
    frame it stands for and nothing else. *)
Lemma gfx_rows_step (line : string) (rest : list string) (frame_times : list float) :
  PyStr.contains "Profile data in ms:" line = false ->
  truthy (PyStr.strip line) = true ->
  gfx_rows (line :: rest) true frame_times
  = gfx_rows rest true (frame_times ++ frames_of (frame_of_line line)).
Proof.
  intros Hmark Hblank. cbn [gfx_rows]. rewrite Hmark, Hblank. cbn [negb].
  unfold frame_of_line.
  destruct (PyStr.split (PyStr.strip line)) as [| a [| b [| c [| d l]]]];
    cbn [frames_of]; rewrite ?app_nil_r; try reflexivity.
  destruct (frame_time_cases a b c) as [(x & y & z & -> & -> & -> & ->) | [H ->]].
  - reflexivity.
  - destruct H as [-> | [-> | ->]];
      repeat match goal with
             | |- context [match ?r with Ok _ => _ | Raise _ => _ | SysExit _ => _ end] =>
                 destruct r
             end; cbn [frames_of]; now rewrite ?app_nil_r.
Qed.

Lemma gfx_rows_total (lines : list string) :
  forall in_section frame_times,
    exists out, gfx_rows lines in_section frame_times = Ok out.
Proof.
  induction lines as [| line rest IH]; intros in_section frame_times; cbn [gfx_rows];
    [eauto |].
  destruct (PyStr.contains _ line); [apply IH |].
  destruct in_section; [| apply IH].
  destruct (negb _); [eauto |].
  destruct (PyStr.split _) as [| a [| b [| c [| d l]]]]; try apply IH.
  destruct (frame_time_cases a b c) as [(x & y & z & _ & _ & _ & ->) | [_ ->]]; apply IH.
Qed.

(** The frame parser and the service parser never raise. *)
Lemma collect_gfx_total (raw : string) :
  exists g, collect_gfx_stats_from_raw raw = Ok g.
Proof.
  unfold collect_gfx_stats_from_raw.
  destruct (gfx_rows_total (PyStr.splitlines raw) false []) as [out ->]. cbn [bind]. eauto.
Qed.

Lemma collect_services_total (raw : string) :
  exists l, collect_services_from_raw raw = Ok l.
Proof.
  unfold collect_services_from_raw. eauto.
Qed.

End FrameProfile.

(** C9: inside the profile section, a line of exactly three tokens one
    of which does not convert to a float is passed over, the loop going
    on with the frames it had; the parser never raises; and a line that
    is neither blank nor a marker line adds a frame exactly when it has
    three tokens that all convert, the frame being their sum. *)
Theorem gfx_skips_unconvertible_lines :
  (forall (line : string) (rest : list string) (frame_times : list Parsers.float)
          (a b c : string),
      PyStr.split (PyStr.strip line) = [a; b; c] ->
      PyNum.py_float a = Raise ValueError \/ PyNum.py_float b = Raise ValueError \/
      PyNum.py_float c = Raise ValueError ->
      Parsers.gfx_rows (line :: rest) true frame_times
      = Parsers.gfx_rows rest true frame_times) /\
  (forall (line : string) (rest : list string) (frame_times : list Parsers.float),
      PyStr.contains "Profile data in ms:" line = false ->
      Parsers.truthy (PyStr.strip line) = true ->
      Parsers.gfx_rows (line :: rest) true frame_times
      = Parsers.gfx_rows rest true (frame_times ++ frames_of (frame_of_line line))) /\
  (forall raw : string, exists g, Diagnose.collect_gfx_stats_from_raw raw = Ok g).
Proof.
  split; [| split].
  - intros line rest frame_times a b c Htok Hbad.
    destruct (PyStr.contains "Profile data in ms:" line) eqn:Hmark.
    + cbn [Parsers.gfx_rows]. now rewrite Hmark.
    + rewrite gfx_rows_step;
        [| exact Hmark | exact (split_tokens_truthy _ _ _ Htok)].
      unfold frame_of_line. rewrite Htok.
      destruct Hbad as [-> | [-> | ->]];
        repeat match goal with
               | |- context [match ?r with Ok _ => _ | Raise _ => _ | SysExit _ => _ end] =>
                   destruct r
               end; cbn [frames_of]; now rewrite app_nil_r.
    - exact gfx_rows_step.
    - exact collect_gfx_total.
Qed.

Lemma gfx_skips_unconvertible_lines_witness :
  Parsers.gfx_rows ["4.0 2ms 1.0"; "20.0 1.0 1.0"] true [PyNum.literal "7.0"]
  = Parsers.gfx_rows ["20.0 1.0 1.0"] true [PyNum.literal "7.0"] /\
  Parsers.gfx_rows ["20.0 1.0 1.0"] true [PyNum.literal "7.0"]
  = Parsers.gfx_rows [] true ([PyNum.literal "7.0"] ++ [PyNum.literal "22.0"]).
Proof.
  split.
  - apply (proj1 gfx_skips_unconvertible_lines "4.0 2ms 1.0" ["20.0 1.0 1.0"]
             [PyNum.literal "7.0"] "4.0" "2ms" "1.0").
    + reflexivity.
    + right. left. reflexivity.
  - apply (proj1 (proj2 gfx_skips_unconvertible_lines) "20.0 1.0 1.0" []
             [PyNum.literal "7.0"]); reflexivity.
Defined.

(** ** C10: the free amount is not clamped at zero *)

(** C10: when the sum of the [ram_mb] of the memory entries a collection
    parses exceeds 4096, [collect_stats] returns a [free_ram] below zero
    and the verdict [low]. *)
Theorem free_ram_negative_when_overcommitted
  (w : Dashboard.world) (st : Dashboard.stats) (apps : list Parsers.app) :
  Dashboard.collect_stats w = Ok st ->
  parsed_ram w = Ok apps ->
  PyNum.lt (PyNum.Int 4096) (Dashboard.used_ram_of apps) = true ->
  PyNum.lt (Dashboard.free_ram st) (PyNum.Int 0) = true /\
  Dashboard.mem_health st = "low".
Proof.
  intros Hst Hp Hover.
  destruct (collect_stats_inv w st Hst) as (apps' & Hp' & _ & Hfree & Hhealth & _).
  rewrite Hp in Hp'. injection Hp' as <-.
  pose proof (used_ram_ok apps (parsed_ram_entries w apps Hp)) as Hu.
  rewrite Hhealth, Hfree. clear Hhealth Hfree.
  destruct (Dashboard.used_ram_of apps) as [z | u]; cbn [total_ok] in Hu.
  - subst z. discriminate.
  - destruct Hu as [Hv _].
    destruct (Binary64Facts.fsub_4096_negative u Hv Hover) as [Hs Hz].
    assert (H0 : PyNum.lt (PyNum.sub (PyNum.Int 4096) (PyNum.Float u)) (PyNum.Int 0) = true).
    { apply Binary64Facts.negative_below; [exact Hs | exact Hz | reflexivity]. }
    split; [exact H0 |].
    unfold Dashboard.mem_health_of.
    assert (H500 : PyNum.lt (PyNum.sub (PyNum.Int 4096) (PyNum.Float u)) (PyNum.Int 500)
                   = true).
    { apply Binary64Facts.negative_below; [exact Hs | exact Hz | reflexivity]. }
    now rewrite H500.
Qed.

Lemma free_ram_negative_when_overcommitted_witness :
  PyNum.lt (Dashboard.free_ram overcommitted_stats) (PyNum.Int 0) = true /\
  Dashboard.mem_health overcommitted_stats = "low".
Proof.
  apply (free_ram_negative_when_overcommitted overcommitted overcommitted_stats
           overcommitted_apps).
  - vm_compute. reflexivity.
  - vm_compute. reflexivity.
  - vm_compute. reflexivity.
Defined.

(** * Further properties of the code *)

(** ** Texts and their lines *)

Section Strings.

Lemma append_nil_r (s : string) : String.append s EmptyString = s.
Proof. induction s as [| c s IH]; simpl; [reflexivity | now rewrite IH]. Qed.

Lemma append_assoc (a b c : string) :
  String.append (String.append a b) c = String.append a (String.append b c).
Proof. induction a as [| x a IH]; simpl; [reflexivity | now rewrite IH]. Qed.

Lemma append_length (a b : string) :
  String.length (String.append a b) = (String.length a + String.length b)%nat.
Proof. induction a as [| c a IH]; simpl; [reflexivity | now rewrite IH]. Qed.

Lemma prefix_append (sub s : string) :
  String.prefix sub s = true <-> exists q, s = String.append sub q.
Proof.
  revert s. induction sub as [| c sub IH]; intros s.
  - destruct s; simpl; split; eauto.
  - destruct s as [| d s]; simpl.
    + split; [discriminate | intros [q H]; discriminate].
    + destruct (Ascii.ascii_dec c d) as [-> | Hne].
      * rewrite IH. split; intros [q H]; exists q; [now rewrite H | now injection H].
      * split; [discriminate | intros [q H]; injection H as H1 H2; congruence].
Qed.

Lemma contains_occurs (sub s : string) : PyStr.contains sub s = true <-> occurs sub s.
Proof.
  induction s as [| c s IH].
  - cbn [PyStr.contains]. rewrite orb_false_r, prefix_append. split.
    + intros [q H]. exists EmptyString, q. exact H.
    + intros (p & q & H). destruct p as [| x p]; [exists q; exact H | discriminate].
  - cbn [PyStr.contains]. rewrite orb_true_iff, prefix_append, IH. split.
    + intros [[q H] | (p & q & H)].
      * exists EmptyString, q. exact H.
      * exists (String c p), q. simpl. now rewrite H.
    + intros (p & q & H). destruct p as [| x p].
      * left. exists q. exact H.
      * right. simpl in H. injection H as _ H. exists p, q. exact H.
Qed.

Lemma occurs_cons (sub s : string) (c : ascii) : occurs sub s -> occurs sub (String c s).
Proof. intros (p & q & ->). exists (String c p), q. reflexivity. Qed.

Lemma occurs_trans (a b c : string) : occurs a b -> occurs b c -> occurs a c.
Proof.
  intros (p & q & ->) (p' & q' & ->).
  exists (String.append p' p), (String.append q q').
  now rewrite !append_assoc.
Qed.

(** A text with a line is not empty, and its first line starts it. *)
Lemma splitlines_first (s l : string) (ls : list string) :
  PyStr.splitlines s = l :: ls -> exists q, s = String.append l q.
Proof.
  revert l ls. induction s as [| d t IHt]; intros l ls Hsl; [discriminate |].
  cbn [PyStr.splitlines] in Hsl. destruct (PyStr.islinebreak d).
  - injection Hsl as <- _. exists (String d t). reflexivity.
  - destruct (PyStr.splitlines t) as [| l0 ls0] eqn:Ht.
    + injection Hsl as <- _. destruct t as [| e u]; [exists EmptyString; reflexivity |].
      exfalso. cbn [PyStr.splitlines] in Ht.
      destruct (PyStr.islinebreak e); [discriminate |].
      destruct (PyStr.splitlines u); discriminate.
    + injection Hsl as <- <-. destruct (IHt l0 ls0 eq_refl) as [q' ->].
      exists q'. reflexivity.
Qed.

(** A line of a text is a piece of the text. *)
Lemma splitlines_occurs (s : string) :
  forall line, In line (PyStr.splitlines s) -> occurs line s.
Proof.
  remember (String.length s) as n eqn:Hn. revert s Hn.
  induction n as [n IH] using lt_wf_ind. intros s Hn line Hin.
  destruct s as [| c s']; [destruct Hin |].
  cbn [PyStr.splitlines] in Hin.
  destruct (PyStr.islinebreak c).
  - destruct Hin as [<- | Hin].
    + exists EmptyString, (String c s'). reflexivity.
    + destruct s' as [| c2 s'']; [destruct Hin |].
      destruct (PyStr.is_cr c && PyStr.is_lf c2).
      * apply occurs_cons, occurs_cons.
        apply (IH (String.length s'')); [simpl in Hn; lia | reflexivity | exact Hin].
      * apply occurs_cons.
        apply (IH (String.length (String c2 s'')));
          [simpl in Hn; simpl; lia | reflexivity | exact Hin].
  - pose proof (IH (String.length s') ltac:(simpl in Hn; lia) s' eq_refl) as IHs.
    destruct (PyStr.splitlines s') as [| l ls] eqn:Hsl.
    + destruct Hin as [<- | []]. exists EmptyString, s'. simpl.
      destruct s' as [| d t]; [reflexivity |].
      exfalso. cbn [PyStr.splitlines] in Hsl.
      destruct (PyStr.islinebreak d); [discriminate |].
      destruct (PyStr.splitlines t); discriminate.
    + destruct Hin as [<- | Hin].
      * destruct (splitlines_first s' l ls Hsl) as [q' ->].
        exists EmptyString, q'. reflexivity.
      * apply occurs_cons. apply IHs. now right.
Qed.

(** What a text does not contain, none of its lines contains. *)
Lemma not_contains_lines (sub s line : string) :
  PyStr.contains sub s = false -> In line (PyStr.splitlines s) ->
  PyStr.contains sub line = false.
Proof.
  intros Hs Hin. destruct (PyStr.contains sub line) eqn:Hl; [| reflexivity].
  apply contains_occurs in Hl. pose proof (splitlines_occurs s line Hin) as Ho.
  assert (H : PyStr.contains sub s = true)
    by (apply contains_occurs; eapply occurs_trans; eassumption).
  congruence.
Qed.

Lemma forallb_append (p : ascii -> bool) (a b : string) :
  PyStr.forallb p (String.append a b) = PyStr.forallb p a && PyStr.forallb p b.
Proof.
  induction a as [| c a IH]; cbn [String.append PyStr.forallb]; [reflexivity |].
  now rewrite IH, andb_assoc.
Qed.

Lemma forallb_occurs (p : ascii -> bool) (sub s : string) :
  occurs sub s -> PyStr.forallb p s = true -> PyStr.forallb p sub = true.
Proof.
  intros (a & b & ->). rewrite !forallb_append, !andb_true_iff. tauto.
Qed.

Lemma lstrip_spaces (line : string) :
  PyStr.lstrip line = EmptyString -> PyStr.forallb PyStr.isspace line = true.
Proof.
  induction line as [| c line IH]; cbn [PyStr.lstrip PyStr.forallb]; [reflexivity |].
  destruct (PyStr.isspace c); [exact IH | discriminate].
Qed.

Lemma lstrip_head (line : string) :
  match PyStr.lstrip line with
  | EmptyString => True
  | String c _ => PyStr.isspace c = false
  end.
Proof.
  induction line as [| c line IH]; cbn [PyStr.lstrip]; [exact I |].
  destruct (PyStr.isspace c) eqn:Hc; [exact IH | exact Hc].
Qed.

(** A blank line is made of white space. *)
Lemma blank_spaces (line : string) : blank line -> PyStr.forallb PyStr.isspace line = true.
Proof.
  unfold blank, PyStr.strip. intros H. apply lstrip_spaces.
  pose proof (lstrip_head line) as Hh.
  destruct (PyStr.lstrip line) as [| c rest]; [reflexivity |].
  cbn [PyStr.rstrip] in H. rewrite Hh, andb_false_r in H. discriminate.
Qed.

(** White space holds no text that starts with another character. *)
Lemma spaces_no_marker (marker : string) (c : ascii) (line : string) :
  PyStr.isspace c = false -> PyStr.forallb PyStr.isspace line = true ->
  PyStr.contains (String c marker) line = false.
Proof.
  intros Hc. induction line as [| a line IH]; intros Hl; cbn [PyStr.contains String.prefix].
  - reflexivity.
  - cbn [PyStr.forallb] in Hl. apply andb_true_iff in Hl as [Ha Hl].
    destruct (ascii_dec c a) as [-> | _]; [congruence |]. exact (IH Hl).
Qed.

End Strings.

Section Lists.

Context {A : Type}.

Lemma filter_first (f : A -> bool) (l : list A) (x : A) (tl : list A) :
  List.filter f l = x :: tl ->
  exists l1 l2, l = l1 ++ x :: l2 /\ f x = true /\ Forall (fun y => f y = false) l1.
Proof.
  induction l as [| y l IH]; cbn [List.filter]; [discriminate |].
  destruct (f y) eqn:Hy.
  - intros H; injection H as -> _. exists [], l. repeat split; [exact Hy | constructor].
  - intros H. destruct (IH H) as (l1 & l2 & -> & Hx & Hl1).
    exists (y :: l1), l2. repeat split; [exact Hx | now constructor].
Qed.

Lemma filter_none (f : A -> bool) (l : list A) :
  List.filter f l = [] <-> Forall (fun y => f y = false) l.
Proof.
  induction l as [| y l IH]; cbn [List.filter]; [split; constructor |].
  destruct (f y) eqn:Hy; split.
  - discriminate.
  - intros H. inversion H; congruence.
  - intros H. constructor; [exact Hy | now apply IH].
  - intros H. inversion H; subst. now apply IH.
Qed.

Lemma flat_map_nothing {B : Type} (f : A -> list B) (l : list A) :
  (forall x, In x l -> f x = []) -> flat_map f l = [].
Proof.
  induction l as [| x l IH]; intros H; cbn [flat_map]; [reflexivity |].
  rewrite (H x (or_introl eq_refl)), IH; [reflexivity |]. intros y Hy. apply H. now right.
Qed.

Lemma sorted_firstn_skipn (R : A -> A -> Prop) (n : nat) (l : list A) :
  StronglySorted R l ->
  forall a b, In a (firstn n l) -> In b (skipn n l) -> R a b.
Proof.
  intros Hs. revert n. induction Hs as [| x l Hs IH Hx]; intros n a b Ha Hb.
  - destruct n; contradiction.
  - destruct n as [| n]; [contradiction |]. cbn [firstn skipn] in *.
    destruct Ha as [<- | Ha].
    + rewrite Forall_forall in Hx. apply Hx.
      rewrite <- (firstn_skipn n l). apply in_or_app. now right.
    + eapply IH; eassumption.
Qed.

Lemma len_nonneg (l : list A) : (0 <= Parsers.len l)%Z.
Proof. unfold Parsers.len. lia. Qed.

Lemma filter_len_le (f : A -> bool) (l : list A) :
  (Parsers.len (List.filter f l) <= Parsers.len l)%Z.
Proof. unfold Parsers.len. pose proof (filter_length_le f l). lia. Qed.

End Lists.

(** ** The first way a pattern matches *)

Section FirstMatch.

Import Re.

Lemma first_map {A B : Type} (f : A -> B) (x : A) (l : list A) :
  first_way x l -> first_way (f x) (map f l).
Proof. intros [tl ->]. now exists (map f tl). Qed.

Lemma first_app {A : Type} (x : A) (l l' : list A) : first_way x l -> first_way x (l ++ l').
Proof. intros [tl ->]. now exists (tl ++ l'). Qed.

Lemma first_cat (r1 r2 : regex) (s s1 s2 w1 w2 : string) (c c1 c2 : caps) :
  first_way (w1, s1, c1) (run r1 s c) ->
  first_way (w2, s2, c2) (run r2 s1 c1) ->
  first_way (String.append w1 w2, s2, c2) (run (Cat r1 r2) s c).
Proof.
  intros [tl1 H1] [tl2 H2]. cbn [run]. rewrite H1. cbn [flat_map]. rewrite H2.
  cbn [map]. eexists. reflexivity.
Qed.

Lemma first_lit (l rest : string) (c : caps) :
  first_way (l, rest, c) (run (Lit l) (String.append l rest) c).
Proof.
  cbn [run].
  assert (Hp : String.prefix l (String.append l rest) = true)
    by (apply prefix_append; now exists rest).
  assert (Hd : PyStr.drop (String.length l) (String.append l rest) = rest)
    by (clear Hp; induction l as [| a l IH]; simpl; [reflexivity | exact IH]).
  rewrite Hp, Hd. now exists [].
Qed.

Lemma first_star_greedy (p : ascii -> bool) (w rest : string) :
  PyStr.forallb p w = true -> stops p rest ->
  first_way (w, rest) (star_greedy p (String.append w rest)).
Proof.
  intros Hw Hrest. induction w as [| a w IH]; cbn [String.append star_greedy].
  - destruct rest as [| b rest]; cbn [star_greedy]; [now exists [] |].
    cbn [stops] in Hrest. rewrite Hrest. now exists [].
  - cbn [PyStr.forallb] in Hw. apply andb_true_iff in Hw as [Ha Hw]. rewrite Ha.
    apply first_app. exact (first_map (cons_fst a) _ _ (IH Hw)).
Qed.

Lemma first_star (p : ascii -> bool) (w rest : string) (c : caps) :
  PyStr.forallb p w = true -> stops p rest ->
  first_way (w, rest, c) (run (Star p) (String.append w rest) c).
Proof.
  intros Hw Hrest. cbn [run].
  exact (first_map (with_caps c) _ _ (first_star_greedy p w rest Hw Hrest)).
Qed.

Lemma first_set (p : ascii -> bool) (a : ascii) (rest : string) (c : caps) :
  p a = true -> first_way (String a EmptyString, rest, c) (run (Set_ p) (String a rest) c).
Proof. intros Ha. cbn [run]. rewrite Ha. now exists []. Qed.

Lemma first_match_length (r : regex) (s w rest : string) (c : caps) :
  first_way (w, rest, c) (run r s []) -> match_length r s = Some (String.length w).
Proof. intros [tl H]. unfold match_length. now rewrite H. Qed.

Lemma stops_append (p q : ascii -> bool) (w rest : string) :
  (forall a, q a = true -> p a = false) ->
  PyStr.forallb q w = true -> stops p rest -> stops p (String.append w rest).
Proof.
  intros Hpq Hw Hrest. destruct w as [| a w]; [exact Hrest |].
  cbn [PyStr.forallb] in Hw. apply andb_true_iff in Hw as [Ha _].
  cbn [String.append stops]. now apply Hpq.
Qed.

(** What a greedy repetition leaves of a text made of the class [q] is
    made of the class [q]. *)
Lemma star_greedy_rest (p q : ascii -> bool) (s : string) :
  PyStr.forallb q s = true ->
  forall w rest, In (w, rest) (star_greedy p s) -> PyStr.forallb q rest = true.
Proof.
  induction s as [| a s IH]; intros Hq w rest Hin; cbn [star_greedy] in Hin.
  - destruct Hin as [H | []]. now inversion H.
  - cbn [PyStr.forallb] in Hq. apply andb_true_iff in Hq as [Ha Hq'].
    assert (Hself : PyStr.forallb q (String a s) = true)
      by (cbn [PyStr.forallb]; now rewrite Ha, Hq').
    destruct (p a).
    + apply in_app_or in Hin. destruct Hin as [H | [H | []]].
      * apply in_map_iff in H. destruct H as ([w0 r0] & Heq & H0). inversion Heq; subst.
        eapply IH; eassumption.
      * inversion H; subst. exact Hself.
    + destruct Hin as [H | []]. inversion H; subst. exact Hself.
Qed.

End FirstMatch.

(** ** [strip_ansi] *)

Section StripAnsi.

Import Re Parsers.

Lemma sub_empty_length (r : regex) (s : string) :
  forall skip, (String.length (sub_empty r skip s) <= String.length s)%nat.
Proof.
  induction s as [| a s IH]; intros skip; cbn [sub_empty]; [simpl; lia |].
  destruct skip as [| k].
  - destruct (match_length r (String a s)) as [[| k] |]; simpl;
      try (specialize (IH 0%nat); lia).
    specialize (IH k); lia.
  - specialize (IH k). simpl. lia.
Qed.

Lemma sub_empty_skip (r : regex) (w q : string) :
  sub_empty r (String.length w) (String.append w q) = sub_empty r 0 q.
Proof.
  induction w as [| a w IH]; [reflexivity |].
  cbn [String.length String.append sub_empty]. exact IH.
Qed.

Lemma no_match_without_esc (a : ascii) (s : string) :
  Ascii.eqb a esc = false -> match_length ansi_escape (String a s) = None.
Proof.
  intros Ha. unfold match_length, ansi_escape. cbn [seq run String.prefix].
  destruct (ascii_dec esc a) as [E | E].
  - subst a. now rewrite Ascii.eqb_refl in Ha.
  - reflexivity.
Qed.

Lemma sub_empty_append_plain (p q : string) :
  esc_free p = true ->
  sub_empty ansi_escape 0 (String.append p q) = String.append p (sub_empty ansi_escape 0 q).
Proof.
  induction p as [| a p IH]; intros Hp; [reflexivity |].
  cbn [esc_free PyStr.forallb] in Hp. apply andb_true_iff in Hp as [Ha Hp].
  apply negb_true_iff in Ha.
  cbn [String.append sub_empty]. rewrite (no_match_without_esc a _ Ha).
  f_equal. exact (IH Hp).
Qed.

Lemma strip_ansi_plain (line : string) : esc_free line = true -> strip_ansi line = line.
Proof.
  intros Hp. unfold strip_ansi. rewrite <- (append_nil_r line) at 1.
  rewrite sub_empty_append_plain by exact Hp. cbn [sub_empty]. apply append_nil_r.
Qed.

Lemma range_apart (lo hi lo' hi' : N) (a : ascii) :
  (hi < lo' \/ hi' < lo)%N -> range lo hi a = true -> range lo' hi' a = false.
Proof.
  unfold range, PyStr.in_range, PyStr.code. generalize (N_of_ascii a) as n. intros n H.
  destruct (N.leb_spec lo n); destruct (N.leb_spec n hi); cbn [andb]; try discriminate.
  intros _. destruct (N.leb_spec lo' n); destruct (N.leb_spec n hi'); cbn [andb];
    try reflexivity. lia.
Qed.

(** The pattern matches an escape sequence whole at the first try:
    the three classes of its characters are disjoint. *)
Lemma escape_sequence_first (params inter : string) (final : ascii) (q : string) :
  PyStr.forallb (range 48 63) params = true ->
  PyStr.forallb (range 32 47) inter = true ->
  range 64 126 final = true ->
  first_way (escape_sequence params inter final, q, [])
            (run ansi_escape (String.append (escape_sequence params inter final) q) []).
Proof.
  intros Hp Hi Hf. unfold ansi_escape. cbn [seq].
  assert (Hshape :
            String.append (escape_sequence params inter final) q
            = String.append (String esc "[")
                (String.append params (String.append inter (String final q)))).
  { unfold escape_sequence. cbn [String.append]. do 2 f_equal.
    rewrite !append_assoc. reflexivity. }
  rewrite Hshape.
  change (escape_sequence params inter final)
    with (String.append (String esc "[")
            (String.append params (String.append inter (String final "")))).
  eapply first_cat; [apply first_lit |].
  eapply first_cat.
  { apply first_star; [exact Hp |].
    apply (stops_append _ (range 32 47)); [| exact Hi |].
    - intros a. apply range_apart. left. reflexivity.
    - cbn [stops]. apply (range_apart 64 126); [right; reflexivity | exact Hf]. }
  eapply first_cat.
  { apply first_star; [exact Hi |].
    cbn [stops]. apply (range_apart 64 126); [right; reflexivity | exact Hf]. }
  apply first_set. exact Hf.
Qed.

End StripAnsi.

(** X1: [strip_ansi] leaves a text without the escape character as it
    is, never returns a longer text than it is given, and deletes a
    well-formed escape sequence (ESC, an opening bracket, parameter
    characters from [0] to [?], intermediate characters from the space
    to [/], one final character from [@] to [~]) that follows such a
    text. *)
Theorem strip_ansi_removes_sequences (p : string) :
  esc_free p = true ->
  Parsers.strip_ansi p = p /\
  (forall s, (String.length (Parsers.strip_ansi s) <= String.length s)%nat) /\
  (forall (params inter : string) (final : ascii) (q : string),
      PyStr.forallb (Parsers.range 48 63) params = true ->
      PyStr.forallb (Parsers.range 32 47) inter = true ->
      Parsers.range 64 126 final = true ->
      Parsers.strip_ansi (String.append p (String.append (escape_sequence params inter final) q))
      = String.append p (Parsers.strip_ansi q)).
Proof.
  intros Hp. split; [| split].
  - now apply strip_ansi_plain.
  - intros s. apply sub_empty_length.
  - intros params inter final q Hparams Hinter Hfinal. unfold Parsers.strip_ansi.
    rewrite sub_empty_append_plain by exact Hp. f_equal.
    pose proof (first_match_length _ _ _ _ _
                  (escape_sequence_first params inter final q Hparams Hinter Hfinal)) as Hm.
    unfold escape_sequence in *. cbn [String.append] in *.
    cbn [Re.sub_empty]. rewrite Hm. cbn [String.length].
    change (String "[" (String.append (String.append params
              (String.append inter (String final ""))) q))
      with (String.append (String "[" (String.append params
              (String.append inter (String final "")))) q).
    exact (sub_empty_skip _ (String "[" (String.append params
              (String.append inter (String final "")))) q).
Qed.

Lemma strip_ansi_removes_sequences_witness :
  Parsers.strip_ansi
    (String.append "12 " (String.append (escape_sequence "1;32" "" "m") "ok")) = "12 ok".
Proof.
  assert (H : esc_free "12 " = true) by reflexivity.
  destruct (strip_ansi_removes_sequences "12 " H) as (_ & _ & Hseq).
  rewrite (Hseq "1;32" "" "m"%char "ok"); reflexivity.
Defined.

(** ** What the parsers return *)

Ltac group_cases :=
  simpl; repeat split; intros; hnf; intros;
  first [ eapply ReFacts.plus_class; eassumption
        | discriminate
        | match goal with H : _ \/ _ |- _ => destruct H; discriminate end ].

Section Fields.

Import Parsers Binary64 Binary64Facts ReFacts.

Lemma digit_plain (c : ascii) :
  PyStr.isdigit c = true ->
  PyStr.isspace c = false /\ PyNum.is_minus c = false /\ PyNum.is_plus c = false /\
  (0 <= PyNum.digit_value c)%Z.
Proof.
  destruct c as [[] [] [] [] [] [] [] []]; vm_compute; try discriminate;
    intros _; repeat split; discriminate.
Qed.

Lemma digits_value_nonneg (s : string) :
  forall acc, (0 <= acc)%Z -> PyStr.forallb PyStr.isdigit s = true ->
    (0 <= PyNum.digits_value acc s)%Z.
Proof.
  induction s as [| c s IH]; intros acc Hacc Hs; cbn [PyNum.digits_value]; [exact Hacc |].
  cbn [PyStr.forallb] in Hs. apply andb_prop in Hs. destruct Hs as [Hc Hs].
  apply IH; [| exact Hs]. destruct (digit_plain c Hc) as (_ & _ & _ & Hd). lia.
Qed.

(** [int] of digits, when it returns, returns no negative integer. *)
Lemma py_int_unsigned (s : string) (z : Z) :
  PyStr.forallb PyStr.isdigit s = true -> PyNum.py_int s = Ok z -> (0 <= z)%Z.
Proof.
  intros Hs. unfold PyNum.py_int.
  assert (Hst : PyStr.strip s = s).
  { apply strip_id. eapply forallb_impl; [| exact Hs].
    intros c Hc. destruct (digit_plain c Hc) as (-> & _). reflexivity. }
  rewrite Hst.
  assert (Hsg : PyNum.take_sign s = (false, s)).
  { destruct s as [| c s']; [reflexivity |]. simpl in Hs. apply andb_prop in Hs.
    destruct Hs as [Hc _]. destruct (digit_plain c Hc) as (_ & Hm & Hp & _).
    unfold PyNum.take_sign. now rewrite Hm, Hp. }
  rewrite Hsg. destruct (PyNum.int_digits_ok false s); [| discriminate].
  intros H; injection H as <-. rewrite (filter_id _ _ Hs).
  apply digits_value_nonneg; [lia | exact Hs].
Qed.

Lemma remove_comma_digits (w : string) :
  PyStr.forallb digit_or_comma w = true ->
  PyStr.forallb PyStr.isdigit (PyStr.remove_char "," w) = true.
Proof.
  induction w as [| c w IH]; simpl; [reflexivity |].
  intros H. apply andb_prop in H. destruct H as [Hc Hw].
  unfold PyStr.remove_char in *. simpl.
  destruct (Ascii.eqb c ",") eqn:Hcomma; simpl; [now apply IH |].
  rewrite (IH Hw), andb_true_r.
  unfold digit_or_comma, Re.either, Re.chr, Re.d in Hc.
  rewrite Ascii.eqb_sym, Hcomma, orb_false_r in Hc. exact Hc.
Qed.

(** The quotient of an integer that is not negative by a positive one
    is a float that is not negative. *)
Lemma int_truediv_nonneg (a b : Z) (f : spec_float) :
  (0 <= a)%Z -> (0 < b)%Z -> PyNum.int_truediv a b = Ok f ->
  PyNum.fle (S754_zero false) f = true.
Proof.
  intros Ha Hb. unfold PyNum.int_truediv.
  destruct b as [| pb | pb]; try lia. destruct a as [| pa | pa]; try lia.
  - intros H; injection H as <-. reflexivity.
  - cbn [PyNum.is_negative Z.abs Z.to_pos].
    destruct (fdiv_finite_spec false false pa pb 0 0) as (m2 & e1 & _ & Heq).
    pose proof (finish_sign (xorb false false) m2 e1) as Hs. rewrite <- Heq in Hs.
    destruct (PyNum.fdiv _ _); try discriminate; intros H; injection H as <-;
      now apply sign_false_nonneg.
Qed.

Lemma row_strict_groups : groups_ok row_groups row_strict.
Proof. group_cases. Qed.

Lemma row_loose_groups : groups_ok row_groups row_loose.
Proof. group_cases. Qed.

Lemma ram_re_groups : groups_ok ram_groups ram_re.
Proof. group_cases. Qed.

Lemma service_re_groups : groups_ok service_groups service_re.
Proof. group_cases. Qed.

Lemma get_group (P : nat -> string -> Prop) (m : Re.caps) (n : nat) :
  caps_ok P m -> P n EmptyString -> P n (get m n).
Proof.
  intros Hm He. unfold get. destruct (Re.group m n) as [w |] eqn:Hg; [| exact He].
  apply Hm. now apply group_in.
Qed.

Lemma process_of_groups_ok (m : Re.caps) (p : process) :
  caps_ok row_groups m -> process_of_groups m = Ok p -> process_ok p.
Proof.
  intros Hm. unfold process_of_groups.
  assert (H1 : row_groups 1 (get m 1)) by (apply get_group; [exact Hm | split; reflexivity]).
  assert (H3 : row_groups 3 (get m 3)) by (apply get_group; [exact Hm | split; reflexivity]).
  assert (H4 : row_groups 4 (get m 4)) by (apply get_group; [exact Hm | split; reflexivity]).
  destruct (PyNum.py_int (get m 1)) as [pid | |] eqn:Hpid; cbn [bind]; try discriminate.
  destruct (PyNum.py_float (get m 3)) as [cpu | |] eqn:Hcpu; cbn [bind]; try discriminate.
  destruct (PyNum.py_float (get m 4)) as [mem | |] eqn:Hmem; cbn [bind]; try discriminate.
  intros H; injection H as <-. unfold process_ok. cbn.
  split; [| split].
  - eapply py_int_unsigned; [apply (proj1 H1 eq_refl) | exact Hpid].
  - eapply py_float_unsigned; [apply (proj2 H3); now left | exact Hcpu].
  - eapply py_float_unsigned; [apply (proj2 H4); now right | exact Hmem].
Qed.

Lemma cpu_rows_ok (lines : list string) :
  forall acc ps, Forall process_ok acc -> cpu_rows lines acc = Ok ps -> Forall process_ok ps.
Proof.
  induction lines as [| line rest IH]; intros acc ps Hacc; cbn [cpu_rows].
  - intros H; injection H as <-. exact Hacc.
  - destruct (Re.re_match row_strict line) as [m |] eqn:Hm.
    + destruct (process_of_groups m) as [p | |] eqn:Hp; cbn [bind]; try discriminate.
      apply IH. apply Forall_app. split; [exact Hacc |]. constructor; [| constructor].
      eapply process_of_groups_ok; [| exact Hp].
      eapply re_match_caps_ok; [apply row_strict_groups | exact Hm].
    + destruct (Re.re_match row_loose line) as [m2 |] eqn:Hm2; [| now apply IH].
      destruct (process_of_groups m2) as [p | |] eqn:Hp; cbn [bind]; try discriminate.
      apply IH. apply Forall_app. split; [exact Hacc |]. constructor; [| constructor].
      eapply process_of_groups_ok; [| exact Hp].
      eapply re_match_caps_ok; [apply row_loose_groups | exact Hm2].
Qed.

Lemma ram_rows_ok (lines : list string) :
  forall acc apps, Forall app_ok acc -> ram_rows lines acc = Ok apps -> Forall app_ok apps.
Proof.
  induction lines as [| line rest IH]; intros acc apps Hacc; cbn [ram_rows].
  - intros H; injection H as <-. exact Hacc.
  - destruct (Re.re_match ram_re line) as [m |] eqn:Hm.
    + assert (Hc : caps_ok ram_groups m)
        by (eapply re_match_caps_ok; [apply ram_re_groups | exact Hm]).
      assert (H1 : ram_groups 1 (get m 1)) by (apply get_group; [exact Hc | split; reflexivity]).
      assert (H3 : ram_groups 3 (get m 3)) by (apply get_group; [exact Hc | split; reflexivity]).
      destruct (PyNum.py_int (PyStr.remove_char "," (get m 1))) as [kb | |] eqn:Hkb;
        cbn [bind]; try discriminate.
      destruct (PyNum.int_truediv kb 1024) as [mb | |] eqn:Hmb; cbn [bind]; try discriminate.
      destruct (PyNum.py_int (get m 3)) as [pid | |] eqn:Hpid; cbn [bind]; try discriminate.
      apply IH. apply Forall_app. split; [exact Hacc |]. constructor; [| constructor].
      unfold app_ok. cbn. split; [| split].
      * eapply py_int_unsigned; [apply (proj2 H3 eq_refl) | exact Hpid].
      * eapply int_truediv_nonneg; [| | exact Hmb]; [| lia].
        eapply py_int_unsigned; [| exact Hkb]. apply remove_comma_digits, (proj1 H1 eq_refl).
      * exact (proj2 (int_truediv_entry _ _ _ Hmb)).
    + destruct (PyStr.is_empty (PyStr.strip line)).
      * intros H; injection H as <-. exact Hacc.
      * now apply IH.
Qed.

Lemma service_rows_ok (lines : list string) :
  forall acc, Forall service_ref acc -> Forall service_ref (service_rows lines acc).
Proof.
  induction lines as [| line rest IH]; intros acc Hacc; cbn [service_rows]; [exact Hacc |].
  destruct (Re.re_match service_re line) as [m |] eqn:Hm; [| now apply IH].
  apply IH. apply Forall_app. split; [exact Hacc |]. constructor; [| constructor].
  assert (Hc : caps_ok service_groups m)
    by (eapply re_match_caps_ok; [apply service_re_groups | exact Hm]).
  exists (get m 1), (get m 2). split; [reflexivity |]. split.
  - apply (proj1 (get_group service_groups m 1 Hc ltac:(split; reflexivity)) eq_refl).
  - apply (proj2 (get_group service_groups m 2 Hc ltac:(split; reflexivity)) eq_refl).
Qed.

End Fields.

(** X2: whatever the text, each process the process-table parser (the
    one of [diagnose.py] or its copy in [dashboard.py]) returns has a
    [pid], a [cpu] and a [mem] that are not negative. *)
Theorem cpu_stats_fields_nonnegative
  (raw : string) (ps : list Parsers.process) (p : Parsers.process) :
  Diagnose.collect_cpu_stats_from_raw raw = Ok ps \/
  Dashboard.collect_cpu_stats_from_raw raw = Ok ps ->
  In p ps ->
  (0 <= Parsers.p_pid p)%Z /\
  PyNum.fle (S754_zero false) (Parsers.p_cpu p) = true /\
  PyNum.fle (S754_zero false) (Parsers.p_mem p) = true.
Proof.
  intros Hraw Hin.
  assert (H : Parsers.collect_cpu_stats_from_raw raw = Ok ps) by (destruct Hraw; assumption).
  unfold Parsers.collect_cpu_stats_from_raw in H.
  destruct (Parsers.after_header _) as [rows |].
  - pose proof (cpu_rows_ok rows [] ps (Forall_nil _) H) as Hall.
    rewrite Forall_forall in Hall. exact (Hall p Hin).
  - injection H as <-. destruct Hin.
Qed.

Lemma cpu_stats_fields_nonnegative_witness :
  (0 <= 4321)%Z /\
  PyNum.fle (S754_zero false) (PyNum.literal "3.5") = true /\
  PyNum.fle (S754_zero false) (PyNum.literal "1.2") = true.
Proof.
  apply (cpu_stats_fields_nonnegative top_sample
           [ {| Parsers.p_pid := 1203; Parsers.p_user := "system";
                Parsers.p_cpu := PyNum.literal "109"; Parsers.p_mem := PyNum.literal "6.8";
                Parsers.p_time := "615:01"; Parsers.p_name := "system_server" |};
             {| Parsers.p_pid := 4321; Parsers.p_user := "u0_a99";
                Parsers.p_cpu := PyNum.literal "3.5"; Parsers.p_mem := PyNum.literal "1.2";
                Parsers.p_time := "0:07"; Parsers.p_name := "com.example.app" |} ]
           {| Parsers.p_pid := 4321; Parsers.p_user := "u0_a99";
              Parsers.p_cpu := PyNum.literal "3.5"; Parsers.p_mem := PyNum.literal "1.2";
              Parsers.p_time := "0:07"; Parsers.p_name := "com.example.app" |}).
  - left. vm_compute. reflexivity.
  - right. left. reflexivity.
Defined.

(** X3: whatever the text, each entry the memory parser (the one of
    [diagnose.py] or its copy in [dashboard.py]) returns has a [pid]
    that is not negative and a [ram_mb] that is a finite number and not
    negative. *)
Theorem ram_stats_fields_nonnegative
  (raw : string) (apps : list Parsers.app) (a : Parsers.app) :
  Diagnose.collect_ram_stats_from_raw raw = Ok apps \/
  Dashboard.collect_ram_stats_from_raw raw = Ok apps ->
  In a apps ->
  (0 <= Parsers.a_pid a)%Z /\
  PyNum.fle (S754_zero false) (Parsers.a_ram_mb a) = true /\
  Binary64.is_finite (Parsers.a_ram_mb a) = true.
Proof.
  intros Hraw Hin.
  assert (H : Parsers.collect_ram_stats_from_raw raw = Ok apps) by (destruct Hraw; assumption).
  unfold Parsers.collect_ram_stats_from_raw in H.
  destruct (Parsers.after_marker _ _) as [rows |].
  - destruct (Parsers.ram_rows rows []) as [parsed | |] eqn:Hrows; cbn [bind] in H;
      try discriminate.
    injection H as <-.
    pose proof (ram_rows_ok rows [] parsed (Forall_nil _) Hrows) as Hall.
    apply (Permutation_Forall (sort_desc_perm parsed)) in Hall.
    rewrite Forall_forall in Hall. exact (Hall a Hin).
  - injection H as <-. destruct Hin.
Qed.

Lemma ram_stats_fields_nonnegative_witness :
  (0 <= 1203)%Z /\
  PyNum.fle (S754_zero false) (PyNum.literal "341.796875") = true /\
  Binary64.is_finite (PyNum.literal "341.796875") = true.
Proof.
  apply (ram_stats_fields_nonnegative meminfo_tail_a
           [ {| Parsers.a_name := "system"; Parsers.a_pid := 1203;
                Parsers.a_ram_mb := PyNum.literal "341.796875" |} ]
           {| Parsers.a_name := "system"; Parsers.a_pid := 1203;
              Parsers.a_ram_mb := PyNum.literal "341.796875" |}).
  - left. vm_compute. reflexivity.
  - left. reflexivity.
Defined.

(** X4: whatever the text, each service [collect_services_from_raw]
    returns is a package name made of word characters and points, a
    slash, and a service name without white space. *)
Theorem services_are_references (raw : string) (l : list string) (r : string) :
  Diagnose.collect_services_from_raw raw = Ok l -> In r l -> service_ref r.
Proof.
  intros H Hin. unfold Diagnose.collect_services_from_raw, Parsers.collect_services_from_raw in H.
  injection H as <-.
  pose proof (service_rows_ok (PyStr.splitlines raw) [] (Forall_nil _)) as Hall.
  rewrite Forall_forall in Hall. exact (Hall r Hin).
Qed.

Lemma services_are_references_witness : service_ref "com.example.app/.SyncService".
Proof.
  apply (services_are_references services_sample ["com.example.app/.SyncService"]).
  - vm_compute. reflexivity.
  - left. reflexivity.
Defined.

(** ** Sections and markers *)

Section Markers.

Import Re Parsers.

Lemma gfx_rows_no_marker (lines : list string) (frame_times : list float) :
  (forall line, In line lines -> PyStr.contains "Profile data in ms:" line = false) ->
  gfx_rows lines false frame_times = Ok frame_times.
Proof.
  induction lines as [| line rest IH]; intros H; cbn [gfx_rows]; [reflexivity |].
  rewrite (H line (or_introl eq_refl)). apply IH. intros l Hl. apply H. now right.
Qed.

Lemma after_marker_none (marker : string) (lines : list string) :
  (forall line, In line lines -> PyStr.contains marker line = false) ->
  after_marker marker lines = None.
Proof.
  induction lines as [| line rest IH]; intros H; cbn [after_marker]; [reflexivity |].
  rewrite (H line (or_introl eq_refl)). apply IH. intros l Hl. apply H. now right.
Qed.

Lemma after_header_none (lines : list string) :
  Forall (fun line => PyStr.contains "[%CPU]" line = false) lines ->
  after_header lines = None.
Proof.
  induction 1 as [| line lines Hl _ IH]; cbn [after_header]; [reflexivity |].
  unfold is_header. rewrite Hl. destruct (re_search header_re line); exact IH.
Qed.

Lemma cpu_without_header (raw : string) :
  esc_free raw = true -> PyStr.contains "[%CPU]" raw = false ->
  collect_cpu_stats_from_raw raw = Ok [].
Proof.
  intros He Hc. unfold collect_cpu_stats_from_raw.
  rewrite after_header_none; [reflexivity |].
  apply Forall_forall. intros line Hin. apply in_map_iff in Hin.
  destruct Hin as (l & <- & Hl). apply filter_In in Hl. destruct Hl as [Hl _].
  rewrite strip_ansi_plain.
  - eapply not_contains_lines; eassumption.
  - eapply forallb_occurs; [apply splitlines_occurs; exact Hl | exact He].
Qed.

Lemma space_not_size (c : ascii) :
  PyStr.isspace c = true -> digit_or_comma c = false.
Proof. destruct c as [[] [] [] [] [] [] [] []]; vm_compute; congruence. Qed.

(** A line of white space is not a memory entry. *)
Lemma blank_no_entry (line : string) : blank line -> re_match ram_re line = None.
Proof.
  intros Hb. apply blank_spaces in Hb. unfold re_match.
  replace (run ram_re line []) with (@nil (string * string * caps)); [reflexivity |].
  symmetry. unfold ram_re. cbn [seq]. cbn [run]. apply flat_map_nothing.
  intros [[w rest] c] Hin. apply in_map_iff in Hin. destruct Hin as ([w0 r0] & Heq & Hin).
  inversion Heq; subst. cbn [fst snd].
  pose proof (star_greedy_rest s PyStr.isspace line Hb _ _ Hin) as Hrest.
  destruct rest as [| a rest]; [reflexivity |].
  cbn [PyStr.forallb] in Hrest. apply andb_true_iff in Hrest as [Ha _].
  change (either d (chr ",") a) with (digit_or_comma a).
  rewrite (space_not_size a Ha). reflexivity.
Qed.

Lemma ram_rows_until_blank (rows : list string) (line : string) (after after' : list string) :
  blank line ->
  forall acc, ram_rows (rows ++ line :: after) acc = ram_rows (rows ++ line :: after') acc.
Proof.
  intros Hb. induction rows as [| row rows IH]; intros acc; cbn [List.app ram_rows].
  - rewrite (blank_no_entry line Hb). unfold blank in Hb. rewrite Hb. reflexivity.
  - destruct (re_match ram_re row) as [m |].
    + destruct (PyNum.py_int (PyStr.remove_char "," (get m 1))) as [kb | |]; cbn [bind];
        try reflexivity.
      destruct (PyNum.int_truediv kb 1024) as [mb | |]; cbn [bind]; try reflexivity.
      destruct (PyNum.py_int (get m 3)) as [pid | |]; cbn [bind]; try reflexivity.
      apply IH.
    + destruct (PyStr.is_empty (PyStr.strip row)); [reflexivity | apply IH].
Qed.

Lemma after_marker_until_blank
  (marker : string) (head : list string) (line : string) (after after' : list string) :
  has_marker marker head ->
  exists rows,
    after_marker marker (head ++ line :: after) = Some (rows ++ line :: after) /\
    after_marker marker (head ++ line :: after') = Some (rows ++ line :: after').
Proof.
  intros (l & Hin & Hl). induction head as [| h head IH]; [destruct Hin |].
  cbn [List.app after_marker]. destruct (PyStr.contains marker h) eqn:Hh.
  - exists head. split; reflexivity.
  - destruct Hin as [-> | Hin]; [congruence |]. exact (IH Hin).
Qed.

Lemma gfx_rows_until_blank (head : list string) (line : string) (after after' : list string) :
  blank line ->
  forall in_section frame_times,
    in_section = true \/ has_marker "Profile data in ms:" head ->
    gfx_rows (head ++ line :: after) in_section frame_times
    = gfx_rows (head ++ line :: after') in_section frame_times.
Proof.
  intros Hb. induction head as [| h head IH]; intros in_section frame_times Hs;
    cbn [List.app gfx_rows].
  - rewrite (spaces_no_marker _ "P" line eq_refl (blank_spaces line Hb)).
    destruct Hs as [-> | (l & [] & _)]. unfold blank in Hb. rewrite Hb. reflexivity.
  - destruct (PyStr.contains "Profile data in ms:" h) eqn:Hh.
    + apply IH. now left.
    + assert (Hs' : in_section = true \/ has_marker "Profile data in ms:" head).
      { destruct Hs as [Hs | (l & [-> | Hin] & Hl)]; [now left | congruence |].
        right. now exists l. }
      destruct in_section; [| apply IH; exact Hs'].
      destruct (negb (truthy (PyStr.strip h))); [reflexivity |].
      destruct (PyStr.split (PyStr.strip h)) as [| a [| b [| c [| ? ?]]]];
        try (apply IH; exact Hs').
      destruct (frame_time a b c) as [t | [] |]; try reflexivity; apply IH; exact Hs'.
Qed.

End Markers.

(** X5: a text that does not hold the marker of a section gives the
    empty result: without [Profile data in ms:] the frame parser returns
    the summary of no frame, without [Total RSS by process:] the memory
    parser returns the empty list, and without [[%CPU]] (in a text
    without the escape character) the process-table parser returns the
    empty list. *)
Theorem parsers_without_marker (raw : string) :
  (PyStr.contains "Profile data in ms:" raw = false ->
   Diagnose.collect_gfx_stats_from_raw raw = Ok Diagnose.no_gfx) /\
  (PyStr.contains "Total RSS by process:" raw = false ->
   Diagnose.collect_ram_stats_from_raw raw = Ok [] /\
   Dashboard.collect_ram_stats_from_raw raw = Ok []) /\
  (esc_free raw = true -> PyStr.contains "[%CPU]" raw = false ->
   Diagnose.collect_cpu_stats_from_raw raw = Ok [] /\
   Dashboard.collect_cpu_stats_from_raw raw = Ok []).
Proof.
  split; [| split].
  - intros H. unfold Diagnose.collect_gfx_stats_from_raw, Parsers.collect_gfx_stats_from_raw.
    rewrite gfx_rows_no_marker; [reflexivity |].
    intros line Hin. eapply not_contains_lines; eassumption.
  - intros H.
    assert (G : Parsers.collect_ram_stats_from_raw raw = Ok []).
    { unfold Parsers.collect_ram_stats_from_raw. rewrite after_marker_none; [reflexivity |].
      intros line Hin. eapply not_contains_lines; eassumption. }
    split; exact G.
  - intros He Hc. split; exact (cpu_without_header raw He Hc).
Qed.

(** X6: a section ends at the first blank line after its marker: two
    texts with the same lines up to a blank line that comes after a line
    with the marker give the same result, whatever follows the blank
    line, in the memory parser (marker [Total RSS by process:]) and in
    the frame parser (marker [Profile data in ms:]). *)
Theorem sections_end_at_blank_line
  (raw raw' : string) (head : list string) (line : string) (after after' : list string) :
  PyStr.splitlines raw = head ++ line :: after ->
  PyStr.splitlines raw' = head ++ line :: after' ->
  blank line ->
  (has_marker "Total RSS by process:" head ->
   Diagnose.collect_ram_stats_from_raw raw = Diagnose.collect_ram_stats_from_raw raw' /\
   Dashboard.collect_ram_stats_from_raw raw = Dashboard.collect_ram_stats_from_raw raw') /\
  (has_marker "Profile data in ms:" head ->
   Diagnose.collect_gfx_stats_from_raw raw = Diagnose.collect_gfx_stats_from_raw raw').
Proof.
  intros Hraw Hraw' Hb. split.
  - intros Hm.
    assert (G : Parsers.collect_ram_stats_from_raw raw = Parsers.collect_ram_stats_from_raw raw').
    { unfold Parsers.collect_ram_stats_from_raw. rewrite Hraw, Hraw'.
      destruct (after_marker_until_blank _ head line after after' Hm) as (rows & -> & ->).
      now rewrite (ram_rows_until_blank rows line after after' Hb). }
    split; exact G.
  - intros Hm.
    unfold Diagnose.collect_gfx_stats_from_raw, Parsers.collect_gfx_stats_from_raw.
    rewrite Hraw, Hraw'.
    rewrite (gfx_rows_until_blank head line after after' Hb false []); [reflexivity |].
    now right.
Qed.

Lemma sections_end_at_blank_line_witness :
  Diagnose.collect_ram_stats_from_raw meminfo_tail_a
  = Diagnose.collect_ram_stats_from_raw meminfo_tail_b /\
  Diagnose.collect_ram_stats_from_raw meminfo_tail_a
  = Ok [{| Parsers.a_name := "system"; Parsers.a_pid := 1203;
           Parsers.a_ram_mb := PyNum.literal "341.796875" |}].
Proof.
  split; [| vm_compute; reflexivity].
  refine (proj1 (proj1 (sections_end_at_blank_line meminfo_tail_a meminfo_tail_b
            ["Total RSS by process:"; "    350,000K: system (pid 1203)"] "   "
            ["     90,000K: com.android.systemui (pid 2100)"]
            ["Total PSS by process:"; "    999,000K: other (pid 7)"]
            eq_refl eq_refl eq_refl) _)).
  exists "Total RSS by process:". split; [now left | reflexivity].
Defined.

(** ** The frame summary *)

Lemma gfx_of_frames_summary (fs : list Parsers.float) :
  let g := Parsers.gfx_of_frames fs in
  Parsers.total_frames g = Parsers.len fs /\
  (Parsers.avg_frame_time_ms g = None <-> Parsers.total_frames g = 0%Z) /\
  (Parsers.jank_frames g = None <-> Parsers.total_frames g = 0%Z) /\
  (forall j, Parsers.jank_frames g = Some j -> (0 <= j <= Parsers.total_frames g)%Z).
Proof.
  destruct fs as [| t fs];
    cbn [Parsers.gfx_of_frames Parsers.avg_frame_time_ms Parsers.jank_frames
         Parsers.total_frames].
  - repeat split; intros; try reflexivity; discriminate.
  - assert (Hpos : Parsers.len (t :: fs) <> 0%Z) by (unfold Parsers.len; simpl; lia).
    repeat split; intros; try discriminate; try contradiction.
    + injection H as <-. apply len_nonneg.
    + injection H as <-.
      exact (filter_len_le (fun t => PyNum.flt Parsers.jank_threshold t) (t :: fs)).
Qed.

(** X7: in the summary the frame parser and [collect_gfx_stats] return,
    the average is absent exactly when no frame was counted, so is the
    number of slow frames, and a number of slow frames that is present
    lies between zero and the number of frames. *)
Theorem gfx_summary_consistent
  (raw device_id package : string) (run : outcome) (g : Parsers.gfx) :
  Diagnose.collect_gfx_stats_from_raw raw = Ok g \/
  Diagnose.collect_gfx_stats device_id package run = Ok g ->
  (Parsers.avg_frame_time_ms g = None <-> Parsers.total_frames g = 0%Z) /\
  (Parsers.jank_frames g = None <-> Parsers.total_frames g = 0%Z) /\
  (forall j, Parsers.jank_frames g = Some j -> (0 <= j <= Parsers.total_frames g)%Z).
Proof.
  intros H.
  assert (G : exists fs, g = Parsers.gfx_of_frames fs).
  { destruct H as [H | H].
    - unfold Diagnose.collect_gfx_stats_from_raw, Parsers.collect_gfx_stats_from_raw in H.
      destruct (Parsers.gfx_rows _ _ _) as [fs | |]; cbn [bind] in H; try discriminate.
      injection H as <-. now exists fs.
    - unfold Diagnose.collect_gfx_stats in H.
      destruct (Diagnose.run_adb_command _ run) as [out | |]; cbn [bind] in H;
        try discriminate.
      destruct (Parsers.gfx_rows _ _ _) as [fs | |]; cbn [bind] in H; try discriminate.
      injection H as <-. now exists fs. }
  destruct G as (fs & ->).
  destruct (gfx_of_frames_summary fs) as (_ & H1 & H2 & H3). auto.
Qed.

Lemma gfx_summary_consistent_witness : (0 <= 1 <= 2)%Z.
Proof.
  assert (H : Diagnose.collect_gfx_stats_from_raw frame_profile
              = Ok {| Parsers.avg_frame_time_ms := Some (PyNum.literal "14.5");
                      Parsers.jank_frames := Some 1%Z;
                      Parsers.total_frames := 2%Z |}) by (vm_compute; reflexivity).
  exact (proj2 (proj2 (gfx_summary_consistent frame_profile "" "" TimeoutExpired _
                         (or_introl H))) 1%Z eq_refl).
Defined.

(** ** The thermal readings *)

Section ThermalDict.

Import Parsers.

Lemma dict_get_set_same {V : Type} (k : string) (v : V) (dct : dict V) :
  dict_get k (dict_set k v dct) = Some v.
Proof.
  induction dct as [| [k0 v0] dct IH]; cbn [dict_set dict_get].
  - now rewrite String.eqb_refl.
  - destruct (String.eqb k0 k) eqn:He; cbn [dict_get].
    + now rewrite String.eqb_refl.
    + now rewrite He.
Qed.

Lemma dict_get_set_other {V : Type} (k k' : string) (v : V) (dct : dict V) :
  k' <> k -> dict_get k' (dict_set k v dct) = dict_get k' dct.
Proof.
  intros Hne. induction dct as [| [k0 v0] dct IH]; cbn [dict_set dict_get].
  - destruct (String.eqb_spec k k'); [congruence | reflexivity].
  - destruct (String.eqb_spec k0 k) as [-> | Hk]; cbn [dict_get].
    + destruct (String.eqb_spec k k'); [congruence |].
      destruct (String.eqb_spec k k'); [congruence | reflexivity].
    + destruct (String.eqb_spec k0 k'); [reflexivity | exact IH].
Qed.

Lemma dict_set_keys {V : Type} (k : string) (v : V) (dct : dict V) (k' : string) :
  In k' (map fst (dict_set k v dct)) -> k' = k \/ In k' (map fst dct).
Proof.
  induction dct as [| [k0 v0] dct IH]; cbn [dict_set map fst In].
  - intros [H | []]. now left.
  - destruct (String.eqb_spec k0 k) as [-> | Hk]; cbn [map fst In].
    + intros [H | H]; [now left | right; now right].
    + intros [H | H]; [right; now left |]. destruct (IH H); [now left | right; now right].
Qed.

(** Assigning to a key keeps the keys of a dict distinct. *)
Lemma dict_set_nodup {V : Type} (k : string) (v : V) (dct : dict V) :
  NoDup (map fst dct) -> NoDup (map fst (dict_set k v dct)).
Proof.
  induction dct as [| [k0 v0] dct IH]; cbn [dict_set map fst]; intros Hd.
  - constructor; [intros [] | constructor].
  - inversion Hd as [| ? ? Hnin Hrest]; subst.
    destruct (String.eqb_spec k0 k) as [-> | Hk]; cbn [map fst].
    + constructor; assumption.
    + constructor; [| now apply IH].
      intros Hin. destruct (dict_set_keys _ _ _ _ Hin); [congruence | contradiction].
Qed.

Lemma thermal_rows_app (l1 l2 : list string) :
  forall acc,
    thermal_rows (l1 ++ l2) acc = bind (thermal_rows l1 acc) (fun a => thermal_rows l2 a).
Proof.
  induction l1 as [| line rest IH]; intros acc; cbn [List.app thermal_rows bind];
    [reflexivity |].
  destruct (Re.re_search thermal_re line) as [m |]; [| apply IH].
  destruct (PyNum.py_float (get m 1)) as [v | |]; cbn [bind]; [apply IH | reflexivity ..].
Qed.

Lemma thermal_rows_nodup (lines : list string) :
  forall acc sensors,
    NoDup (map fst acc) -> thermal_rows lines acc = Ok sensors -> NoDup (map fst sensors).
Proof.
  induction lines as [| line rest IH]; intros acc sensors Hacc; cbn [thermal_rows].
  - intros H; injection H as <-. exact Hacc.
  - destruct (Re.re_search thermal_re line) as [m |]; [| now apply IH].
    destruct (PyNum.py_float (get m 1)) as [v | |]; cbn [bind]; try discriminate.
    apply IH. now apply dict_set_nodup.
Qed.

(** Lines that hold no reading of [name] leave its entry as it is. *)
Lemma thermal_rows_keeps (name : string) (lines : list string) :
  (forall l name' value', In l lines -> reading l = Some (name', value') -> name' <> name) ->
  forall acc sensors,
    thermal_rows lines acc = Ok sensors -> dict_get name sensors = dict_get name acc.
Proof.
  induction lines as [| line rest IH]; intros Hother acc sensors; cbn [thermal_rows].
  - intros H; injection H as <-. reflexivity.
  - assert (Hrest : forall l name' value', In l rest -> reading l = Some (name', value') ->
                                           name' <> name)
      by (intros l name' value' Hl; apply Hother; now right).
    pose proof (Hother line) as Hline. unfold reading in Hline.
    destruct (Re.re_search thermal_re line) as [m |]; [| now apply IH].
    destruct (PyNum.py_float (get m 1)) as [v | |]; cbn [bind]; try discriminate.
    intros H. rewrite (IH Hrest _ _ H). apply dict_get_set_other.
    intros Heq. apply (Hline (get m 2) (get m 1) (or_introl eq_refl) eq_refl).
    now symmetry.
Qed.

End ThermalDict.

(** X8: the thermal parser (the one of [diagnose.py] or its copy in
    [dashboard.py]) keeps one entry for each sensor name, and the entry
    of a name holds the value of the last line that reads this name:
    when no later line reads the name of a line, the result maps this
    name to the float of the value of the line. *)
Theorem thermal_last_reading_wins
  (raw : string) (before after : list string) (line name value : string)
  (sensors : Parsers.dict Parsers.float) :
  Diagnose.collect_thermal_info_from_raw raw = Ok sensors \/
  Dashboard.collect_thermal_info_from_raw raw = Ok sensors ->
  PyStr.splitlines raw = before ++ line :: after ->
  reading line = Some (name, value) ->
  (forall l name' value', In l after -> reading l = Some (name', value') -> name' <> name) ->
  NoDup (map fst sensors) /\
  exists v, PyNum.py_float value = Ok v /\ Parsers.dict_get name sensors = Some v.
Proof.
  intros Hraw Hlines Hline Hafter.
  assert (Hok : Parsers.collect_thermal_info_from_raw raw = Ok sensors)
    by (destruct Hraw; assumption).
  unfold Parsers.collect_thermal_info_from_raw in Hok.
  split; [eapply thermal_rows_nodup; [| exact Hok]; constructor |].
  rewrite Hlines, thermal_rows_app in Hok.
  destruct (Parsers.thermal_rows before []) as [acc | |]; cbn [bind] in Hok; try discriminate.
  cbn [Parsers.thermal_rows] in Hok. unfold reading in Hline.
  destruct (Re.re_search Parsers.thermal_re line) as [m |]; [| discriminate].
  injection Hline as <- <-.
  destruct (PyNum.py_float (Parsers.get m 1)) as [v | |]; cbn [bind] in Hok; try discriminate.
  exists v. split; [reflexivity |].
  rewrite (thermal_rows_keeps _ _ Hafter _ _ Hok). apply dict_get_set_same.
Qed.

Lemma thermal_last_reading_wins_witness :
  exists sensors,
    Diagnose.collect_thermal_info_from_raw thermal_repeated = Ok sensors /\
    map fst sensors = ["AP"; "BAT"] /\
    Parsers.dict_get "AP" sensors = Some (PyNum.literal "40.5").
Proof.
  eexists. split; [vm_compute; reflexivity |]. split; [reflexivity |].
  assert (Hraw : Diagnose.collect_thermal_info_from_raw thermal_repeated
                 = Ok [("AP", PyNum.literal "40.5"); ("BAT", PyNum.literal "29.0")])
    by (vm_compute; reflexivity).
  destruct (thermal_last_reading_wins thermal_repeated
              ["Temperature{mValue=38.1, mType=0, mName=AP, mStatus=0}"]
              ["Temperature{mValue=29.0, mType=2, mName=BAT, mStatus=0}"]
              "Temperature{mValue=40.5, mType=0, mName=AP, mStatus=0}" "AP" "40.5"
              _ (or_introl Hraw) eq_refl eq_refl) as (_ & v & Hv & Hget).
  - intros l name' value' [<- | []] H. vm_compute in H. injection H as <- _. discriminate.
  - vm_compute in Hv. injection Hv as <-. exact Hget.
Defined.

(** ** Heavy usage *)

Section Heavy.

Import Parsers.

(** In a sequence in descending order the entries at or above a bound
    come first. *)
Lemma filter_sorted_prefix (c : float) (l : list app) :
  StronglySorted ram_ge l ->
  exists rest,
    l = List.filter (fun a => PyNum.fle c (a_ram_mb a)) l ++ rest /\
    Forall (fun a => PyNum.fle c (a_ram_mb a) = false) rest.
Proof.
  induction 1 as [| x l Hs IH Hx]; cbn [List.filter].
  - exists []. split; [reflexivity | constructor].
  - destruct (PyNum.fle c (a_ram_mb x)) eqn:Hc.
    + destruct IH as (rest & Heq & Hrest). exists rest. split; [| exact Hrest].
      cbn [List.app]. now rewrite <- Heq.
    + assert (Hall : Forall (fun a => PyNum.fle c (a_ram_mb a) = false) l).
      { rewrite Forall_forall in *. intros y Hy.
        destruct (PyNum.fle c (a_ram_mb y)) eqn:Hcy; [| reflexivity].
        specialize (Hx y Hy). unfold ram_ge in Hx.
        rewrite (fle_trans _ _ _ Hcy Hx) in Hc. discriminate. }
      exists (x :: l). split; [| constructor; assumption].
      replace (List.filter (fun a => PyNum.fle c (a_ram_mb a)) l) with (@nil app);
        [reflexivity |].
      symmetry. now apply filter_none.
Qed.

End Heavy.

(** X9: in what [run_diagnostics] computes from the raw outputs, the
    heavy memory entries (at least 300 MB) are the leading part of the
    memory entries: the memory entries are the heavy ones, in the same
    order, followed by entries that are all below 300 MB; and the heavy
    processes are the processes whose [cpu] is at least 50.0. *)
Theorem heavy_ram_is_leading_part
  (target cpu_raw ram_raw thermal_raw gfx_raw services_raw : string) (dg : Diagnose.diagnosis) :
  Diagnose.parse_outputs target cpu_raw ram_raw thermal_raw gfx_raw services_raw = Ok dg ->
  (exists rest,
      Diagnose.d_ram dg = Diagnose.d_heavy_ram dg ++ rest /\
      Forall (fun a => heavy_ram a = true) (Diagnose.d_heavy_ram dg) /\
      Forall (fun a => heavy_ram a = false) rest) /\
  (forall p, In p (Diagnose.d_heavy_cpu dg) <->
             In p (Diagnose.d_cpu dg) /\ heavy_cpu p = true).
Proof.
  unfold Diagnose.parse_outputs. intros H.
  destruct (if Parsers.truthy cpu_raw then _ else _) as [cpu | |]; cbn [bind] in H;
    try discriminate.
  destruct (if Parsers.truthy ram_raw then _ else _) as [ram | |] eqn:Hram; cbn [bind] in H;
    try discriminate.
  destruct (if Parsers.truthy thermal_raw then _ else _) as [th | |]; cbn [bind] in H;
    try discriminate.
  destruct (if Parsers.truthy target && Parsers.truthy gfx_raw then _ else _) as [g | |];
    cbn [bind] in H; try discriminate.
  destruct (if Parsers.truthy services_raw then _ else _) as [sv | |]; cbn [bind] in H;
    try discriminate.
  injection H as <-.
  cbn [Diagnose.d_ram Diagnose.d_heavy_ram Diagnose.d_cpu Diagnose.d_heavy_cpu].
  split; [| intros p; apply filter_In].
  assert (Hs : StronglySorted ram_ge ram).
  { destruct (Parsers.truthy ram_raw).
    - exact (proj1 (collect_ram_sorted _ _ Hram)).
    - injection Hram as <-. constructor. }
  destruct (filter_sorted_prefix (PyNum.float_of_Z 300) ram Hs) as (rest & Heq & Hrest).
  exists rest. split; [exact Heq |]. split; [| exact Hrest].
  apply Forall_forall. intros a Ha. apply filter_In in Ha. exact (proj2 Ha).
Qed.

Lemma heavy_ram_is_leading_part_witness :
  exists dg rest,
    Diagnose.parse_outputs "" "" meminfo_sample "" "" "" = Ok dg /\
    Diagnose.d_ram dg = Diagnose.d_heavy_ram dg ++ rest /\
    List.length (Diagnose.d_heavy_ram dg) = 1%nat /\ List.length rest = 2%nat.
Proof.
  assert (H : exists dg, Diagnose.parse_outputs "" "" meminfo_sample "" "" "" = Ok dg
                         /\ List.length (Diagnose.d_heavy_ram dg) = 1%nat
                         /\ List.length (Diagnose.d_ram dg) = 3%nat).
  { eexists. split; [vm_compute; reflexivity |]. split; reflexivity. }
  destruct H as (dg & Hdg & Hh & Hl).
  destruct (heavy_ram_is_leading_part _ _ _ _ _ _ dg Hdg) as ((rest & Heq & _ & _) & _).
  exists dg, rest. repeat split; try assumption.
  rewrite Heq, length_app in Hl. lia.
Defined.

(** ** The dashboard *)

Lemma run_adb_nothing (cmd : list string) (run : outcome) :
  gives_nothing run = true -> Dashboard.run_adb cmd run = Ok "".
Proof.
  destruct run as [rc out err | | | e]; cbn; try reflexivity.
  destruct (negb (rc =? 0)%Z); [reflexivity |]. destruct out; [reflexivity | discriminate].
Qed.

(** X10: when each of the three commands of a collection fails
    (non-zero exit, timeout, [adb] missing, any other exception) or
    prints nothing, [collect_stats] still returns a snapshot: no
    process, no memory entry, no sensor, a free amount of 4096 and the
    verdict [good]. *)
Theorem collect_stats_without_data (w : Dashboard.world) :
  no_data w = true ->
  Dashboard.collect_stats w
  = Ok {| Dashboard.cpu := []; Dashboard.ram := []; Dashboard.thermal := [];
          Dashboard.timestamp := Dashboard.time_time w;
          Dashboard.last_updated := Dashboard.time_strftime w;
          Dashboard.mem_health := "good";
          Dashboard.free_ram := PyNum.Int 4096;
          Dashboard.total_ram := PyNum.Int 4096 |}.
Proof.
  unfold no_data. intros H.
  apply andb_true_iff in H as [H Hth]. apply andb_true_iff in H as [Htop Hmem].
  unfold Dashboard.collect_stats.
  rewrite (run_adb_nothing _ _ Htop), (run_adb_nothing _ _ Hmem), (run_adb_nothing _ _ Hth).
  reflexivity.
Qed.

Lemma collect_stats_without_data_witness :
  exists st,
    Dashboard.collect_stats
      {| Dashboard.top_run := FileNotFoundError;
         Dashboard.meminfo_run := Completed 1 "" "error: no devices/emulators found";
         Dashboard.thermal_run := TimeoutExpired;
         Dashboard.time_time := S754_zero false;
         Dashboard.time_strftime := "2024-01-01 00:00:00" |} = Ok st /\
    Dashboard.mem_health st = "good" /\ Dashboard.ram st = [].
Proof.
  eexists. split.
  - apply collect_stats_without_data. reflexivity.
  - split; reflexivity.
Defined.

(** X11: [collect_stats] reports at most five processes and at most
    five memory entries; the memory entries reported are the first five
    of the entries parsed, and each of them has a [ram_mb] at least that
    of every entry left out. *)
Theorem collect_stats_reports_largest (w : Dashboard.world) (st : Dashboard.stats) :
  Dashboard.collect_stats w = Ok st ->
  (List.length (Dashboard.cpu st) <= 5)%nat /\
  (List.length (Dashboard.ram st) <= 5)%nat /\
  exists apps,
    parsed_ram w = Ok apps /\
    Dashboard.ram st = firstn 5 apps /\
    forall a b, In a (Dashboard.ram st) -> In b (skipn 5 apps) -> ram_ge a b.
Proof.
  intros H. split; [| split].
  - unfold Dashboard.collect_stats in H.
    repeat match type of H with
           | bind ?e _ = _ => destruct e; cbn [bind] in H; try discriminate
           end.
    injection H as <-. exact (firstn_le_length 5 _).
  - destruct (collect_stats_inv w st H) as (apps & _ & -> & _). apply firstn_le_length.
  - destruct (collect_stats_inv w st H) as (apps & Hp & Hram & _).
    exists apps. split; [exact Hp |]. split; [exact Hram |]. rewrite Hram.
    apply sorted_firstn_skipn.
    unfold parsed_ram in Hp.
    destruct (run_adb_total ["adb"; "shell"; "dumpsys"; "meminfo"] (Dashboard.meminfo_run w))
      as [raw Hraw]. rewrite Hraw in Hp. cbn [bind] in Hp.
    destruct (Parsers.truthy raw).
    + exact (proj1 (collect_ram_sorted _ _ Hp)).
    + injection Hp as <-. constructor.
Qed.

Lemma collect_stats_reports_largest_witness :
  exists st,
    Dashboard.collect_stats six_processes = Ok st /\
    map Parsers.a_name (Dashboard.ram st) = ["a.two"; "a.four"; "a.six"; "a.three"; "a.five"] /\
    (List.length (Dashboard.ram st) <= 5)%nat.
Proof.
  eexists. split; [vm_compute; reflexivity |]. split; [reflexivity |].
  refine (proj1 (proj2 (collect_stats_reports_largest six_processes _ _))).
  vm_compute. reflexivity.
Defined.

(** X12: once [session_active] is cleared and while no start is served,
    in every interleaving of the monitor threads and of stop requests
    the flag stays cleared, no monitor thread begins a collection, and
    the history grows by at most one snapshot for each collection that
    was in flight: the snapshots appended since and the collections
    still in flight together are not more than the collections that
    were in flight. *)
Theorem stopped_session_appends_in_flight_only
  (st : Dashboard.session) (events : list Dashboard.event) :
  no_start st events = true ->
  Dashboard.session_active st = false ->
  Dashboard.session_active (Dashboard.run st events) = false /\
  (in_flight (Dashboard.run st events) <= in_flight st)%nat /\
  exists more,
    Dashboard.session_data (Dashboard.run st events) = Dashboard.session_data st ++ more /\
    (List.length more + in_flight (Dashboard.run st events) <= in_flight st)%nat.
Proof.
  intros H Ha. destruct (run_no_start events st H) as (_ & (more & Hd & Hin) & _).
  destruct (Hin Ha) as [Ha' Hb]. split; [exact Ha' |]. split; [lia |].
  exists more. split; [exact Hd | exact Hb].
Qed.

Lemma stopped_session_appends_in_flight_only_witness :
  in_flight stopped_during_collection = 1%nat /\
  Dashboard.session_data
    (Dashboard.run stopped_during_collection
       [monitor_step 0 (sample_stats "2024-01-01 00:00:05");
        monitor_step 0 (sample_stats "2024-01-01 00:00:05")])
  = [sample_stats "2024-01-01 00:00:05"] /\
  Dashboard.session_active
    (Dashboard.run stopped_during_collection
       [monitor_step 0 (sample_stats "2024-01-01 00:00:05");
        monitor_step 0 (sample_stats "2024-01-01 00:00:05")])
  = false.
Proof.
  split; [reflexivity |]. split; [reflexivity |].
  exact (proj1 (stopped_session_appends_in_flight_only stopped_during_collection
                  [monitor_step 0 (sample_stats "2024-01-01 00:00:05");
                   monitor_step 0 (sample_stats "2024-01-01 00:00:05")] eq_refl eq_refl)).
Defined.

(** X13: [clear_cache_all] always answers with the status [ok], and
    [api_kill_app] answers with the status [error] and the code 400
    exactly when the request names no process (no [pid], or 0) and with
    the status [ok] otherwise, whatever the command does; when the
    command fails or prints nothing, the answers are [Cache cleared for
    all apps.] and [App with PID n killed.]. *)
Theorem device_actions_always_report_ok (run : outcome) :
  (exists msg, Dashboard.clear_cache_all run
               = Ok {| Dashboard.status := "ok"; Dashboard.message := msg |}) /\
  (forall pid, exists r code,
      Dashboard.api_kill_app pid run = Ok (r, code) /\
      (Dashboard.status r = "error" <-> no_pid pid) /\
      (code = 400%Z <-> no_pid pid) /\
      (Dashboard.status r = "ok" <-> ~ no_pid pid)) /\
  (gives_nothing run = true ->
   Dashboard.clear_cache_all run
   = Ok {| Dashboard.status := "ok"; Dashboard.message := "Cache cleared for all apps." |} /\
   forall n, n <> 0%Z ->
     Dashboard.api_kill_app (Some n) run
     = Ok ({| Dashboard.status := "ok";
              Dashboard.message :=
                String.append "App with PID "
                  (String.append (Dashboard.str_of_int n) " killed.") |}, 200%Z)).
Proof.
  split; [| split].
  - unfold Dashboard.clear_cache_all.
    destruct (run_adb_total ["adb"; "shell"; "pm"; "trim-caches"; "1K"] run) as [out ->].
    cbn [bind]. destruct (String.eqb (PyStr.strip out) ""); eauto.
  - intros pid. unfold no_pid.
    destruct pid as [[| n | n] |]; cbn [Dashboard.api_kill_app].
    + do 2 eexists. split; [reflexivity |]. cbn.
      repeat split; intros; auto; try discriminate. exfalso; auto.
    + destruct (run_adb_total ["adb"; "shell"; "kill"; Dashboard.str_of_int (Z.pos n)] run)
        as [out ->]. cbn [bind].
      destruct (String.eqb (PyStr.strip out) ""); do 2 eexists; (split; [reflexivity |]);
        cbn; repeat split; intros; try discriminate; try reflexivity;
        try (destruct H; discriminate); intros [? | ?]; discriminate.
    + destruct (run_adb_total ["adb"; "shell"; "kill"; Dashboard.str_of_int (Z.neg n)] run)
        as [out ->]. cbn [bind].
      destruct (String.eqb (PyStr.strip out) ""); do 2 eexists; (split; [reflexivity |]);
        cbn; repeat split; intros; try discriminate; try reflexivity;
        try (destruct H; discriminate); intros [? | ?]; discriminate.
    + do 2 eexists. split; [reflexivity |]. cbn.
      repeat split; intros; auto; try discriminate. exfalso; auto.
  - intros Hr. split.
    + unfold Dashboard.clear_cache_all. rewrite (run_adb_nothing _ _ Hr). reflexivity.
    + intros n Hn. destruct n as [| n | n]; [congruence | |];
        cbn [Dashboard.api_kill_app]; rewrite (run_adb_nothing _ _ Hr); reflexivity.
Qed.

(** ** Device detection *)

Section Devices.

Import Diagnose.

(** The first field of a line has no tab, and the line is this field
    alone or this field, a tab and the rest. *)
Lemma split_on_first (line : string) :
  exists f rest,
    PyStr.split_on tab line = f :: rest /\
    tab_free f = true /\
    (line = f \/ exists r, line = String.append f (String tab r)).
Proof.
  induction line as [| c line (f & rest & Hs & Hf & Hl)]; cbn [PyStr.split_on].
  - exists "", []. repeat split. now left.
  - destruct (Ascii.eqb c tab) eqn:Hc.
    + apply Ascii.eqb_eq in Hc. subst c.
      exists "", (PyStr.split_on tab line). repeat split. right. now exists line.
    + rewrite Hs. exists (String c f), rest. split; [reflexivity |]. split.
      * cbn [tab_free PyStr.forallb]. rewrite Hc. exact Hf.
      * destruct Hl as [-> | (r & ->)]; [now left | right; now exists r].
Qed.

Lemma occurs_tab_free (sub f : string) :
  tab_free f = true -> occurs (String tab sub) f -> False.
Proof.
  intros Hf (p & q & ->). induction p as [| c p IH]; cbn [String.append] in Hf.
  - cbn [tab_free PyStr.forallb] in Hf. now rewrite Ascii.eqb_refl in Hf.
  - cbn [tab_free PyStr.forallb] in Hf. apply andb_true_iff in Hf as [_ Hf]. now apply IH.
Qed.

End Devices.

(** X14: of the lines of the output of [adb devices] after the first
    one, [detect_device] returns nothing exactly when none holds a tab
    followed by [device]; otherwise it returns the text before the first
    tab of the first such line, a text without a tab. *)
Theorem detect_device_first_listed (run : outcome) (output : string) :
  Diagnose.run_adb_command ["adb"; "devices"] run = Ok output ->
  let listed := tl (PyStr.splitlines (PyStr.strip output)) in
  (Diagnose.detect_device run = Ok None <->
   Forall (fun line => lists_device line = false) listed) /\
  (forall id, Diagnose.detect_device run = Ok (Some id) ->
     tab_free id = true /\
     exists before line after rest,
       listed = before ++ line :: after /\
       Forall (fun l => lists_device l = false) before /\
       lists_device line = true /\
       line = String.append id (String Diagnose.tab rest)).
Proof.
  intros Hout listed. unfold Diagnose.detect_device. rewrite Hout. cbn [bind].
  unfold Diagnose.device_ids. fold listed.
  change (fun line => PyStr.contains (String Diagnose.tab "device") line) with lists_device.
  destruct (List.filter lists_device listed) as [| line tl] eqn:Hf; cbn [map].
  - split.
    + split; [intros _; now apply filter_none | reflexivity].
    + intros id H. discriminate.
  - split.
    + split; [discriminate |]. intros H. apply filter_none in H. congruence.
    + intros id H. injection H as <-.
      destruct (filter_first _ _ _ _ Hf) as (before & after & Hl & Hline & Hbefore).
      unfold Diagnose.first_field.
      destruct (split_on_first line) as (f & rest & -> & Hfree & Hshape).
      split; [exact Hfree |].
      destruct Hshape as [-> | (r & ->)].
      * exfalso. apply (occurs_tab_free "device" f Hfree).
        apply contains_occurs. exact Hline.
      * exists before, (String.append f (String Diagnose.tab r)), after, r.
        repeat split; assumption.
Qed.

Lemma detect_device_first_listed_witness :
  Diagnose.detect_device (Completed 0 devices_output "") = Ok (Some "emulator-5554") /\
  tab_free "emulator-5554" = true.
Proof.
  split; [reflexivity |].
  refine (proj1 (proj2 (detect_device_first_listed (Completed 0 devices_output "")
                          _ eq_refl) "emulator-5554" eq_refl)).
Defined.

(** ** The collectors that run their own command *)

Section Collectors.

Import Parsers Binary64 Binary64Facts ReFacts Diagnose.

Lemma top_re_groups : groups_ok top_groups top_re.
Proof. group_cases. Qed.

Lemma meminfo_re_groups : groups_ok meminfo_groups meminfo_re.
Proof. group_cases. Qed.

Lemma sensor_re_groups : groups_ok sensor_groups sensor_re.
Proof. group_cases. Qed.

Lemma record_re_groups : groups_ok record_groups record_re.
Proof. group_cases. Qed.

Lemma top_rows_ok (lines : list string) :
  forall acc ps, Forall top_process_ok acc -> top_rows lines acc = Ok ps ->
                 Forall top_process_ok ps.
Proof.
  induction lines as [| line rest IH]; intros acc ps Hacc; cbn [top_rows].
  - intros H; injection H as <-. exact Hacc.
  - destruct (Re.re_match top_re line) as [m |] eqn:Hm; [| now apply IH].
    assert (Hc : caps_ok top_groups m)
      by (eapply re_match_caps_ok; [apply top_re_groups | exact Hm]).
    assert (H1 : top_groups 1 (get m 1)) by (apply get_group; [exact Hc | split; reflexivity]).
    assert (H2 : top_groups 2 (get m 2)) by (apply get_group; [exact Hc | split; reflexivity]).
    assert (H3 : top_groups 3 (get m 3)) by (apply get_group; [exact Hc | split; reflexivity]).
    destruct (PyNum.py_int (get m 1)) as [pid | |] eqn:Hpid; cbn [bind]; try discriminate.
    destruct (PyNum.py_float (get m 2)) as [cpu | |] eqn:Hcpu; cbn [bind]; try discriminate.
    destruct (PyNum.py_float (get m 3)) as [mem | |] eqn:Hmem; cbn [bind]; try discriminate.
    apply IH. apply Forall_app. split; [exact Hacc |]. constructor; [| constructor].
    unfold top_process_ok, nonnegative. cbn. split; [| split].
    + eapply py_int_unsigned; [apply (proj1 H1 eq_refl) | exact Hpid].
    + eapply py_float_unsigned; [apply (proj2 H2); now left | exact Hcpu].
    + eapply py_float_unsigned; [apply (proj2 H3); now right | exact Hmem].
Qed.

Lemma meminfo_rows_ok (lines : list string) :
  forall acc apps, Forall ram_app_ok acc -> meminfo_rows lines acc = Ok apps ->
                   Forall ram_app_ok apps.
Proof.
  induction lines as [| line rest IH]; intros acc apps Hacc; cbn [meminfo_rows].
  - intros H; injection H as <-. exact Hacc.
  - destruct (Re.re_match meminfo_re line) as [m |] eqn:Hm; [| now apply IH].
    assert (Hc : caps_ok meminfo_groups m)
      by (eapply re_match_caps_ok; [apply meminfo_re_groups | exact Hm]).
    assert (H2 : meminfo_groups 2 (get m 2)) by (apply get_group; [exact Hc | intros _; reflexivity]).
    destruct (PyNum.py_int (PyStr.remove_char "," (get m 2))) as [kb | |] eqn:Hkb;
      cbn [bind]; try discriminate.
    destruct (PyNum.int_truediv kb 1024) as [mb | |] eqn:Hmb; cbn [bind]; try discriminate.
    apply IH. apply Forall_app. split; [exact Hacc |]. constructor; [| constructor].
    split; cbn.
    + exact (int_truediv_entry _ _ _ Hmb).
    + eapply int_truediv_nonneg; [| | exact Hmb]; [| lia].
      eapply py_int_unsigned; [| exact Hkb]. apply remove_comma_digits, (H2 eq_refl).
Qed.

Lemma insert_ram_app_perm (x : ram_app) (l : list ram_app) :
  Permutation (x :: l) (insert_ram_app x l).
Proof.
  induction l as [| y l IH]; cbn [insert_ram_app]; [reflexivity |].
  destruct (PyNum.flt (r_ram_mb x) (r_ram_mb y)); [| reflexivity].
  rewrite perm_swap. now constructor.
Qed.

Lemma sort_ram_apps_perm (l : list ram_app) : Permutation l (sort_ram_apps l).
Proof.
  induction l as [| x l IH]; cbn [sort_ram_apps]; [constructor |].
  rewrite <- insert_ram_app_perm. now constructor.
Qed.

Lemma insert_ram_app_sorted (x : ram_app) (l : list ram_app) :
  ram_app_ok x -> Forall ram_app_ok l ->
  StronglySorted ram_app_ge l -> StronglySorted ram_app_ge (insert_ram_app x l).
Proof.
  intros Hx Hl Hs. induction Hs as [| y l Hs IH Hy]; cbn [insert_ram_app].
  - repeat constructor.
  - inversion Hl as [| ? ? Hny Hnl]; subst.
    destruct (PyNum.flt (r_ram_mb x) (r_ram_mb y)) eqn:Hlt.
    + constructor; [now apply IH |].
      apply (Permutation_Forall (insert_ram_app_perm x l)).
      constructor; [| exact Hy]. now apply flt_fle.
    + assert (Hxy : ram_app_ge x y).
      { apply flt_false_fle; [apply finite_number, Hx | apply finite_number, Hny | exact Hlt]. }
      constructor; [now constructor |].
      constructor; [exact Hxy |].
      eapply Forall_impl; [| exact Hy]. intros z Hz. unfold ram_app_ge in *.
      eapply fle_trans; eassumption.
Qed.

Lemma sort_ram_apps_sorted (l : list ram_app) :
  Forall ram_app_ok l -> StronglySorted ram_app_ge (sort_ram_apps l).
Proof.
  induction l as [| x l IH]; intros Hl; cbn [sort_ram_apps]; [constructor |].
  inversion Hl; subst.
  apply insert_ram_app_sorted; auto.
  apply (Permutation_Forall (sort_ram_apps_perm l)). assumption.
Qed.

Lemma sensor_rows_ok (lines : list string) :
  forall acc sensors, sensors_ok acc -> sensor_rows lines acc = Ok sensors ->
                      sensors_ok sensors.
Proof.
  induction lines as [| line rest IH]; intros acc sensors Hacc; cbn [sensor_rows].
  - intros H; injection H as <-. exact Hacc.
  - destruct (Re.re_match sensor_re line) as [m |] eqn:Hm; [| now apply IH].
    assert (Hc : caps_ok sensor_groups m)
      by (eapply re_match_caps_ok; [apply sensor_re_groups | exact Hm]).
    assert (H3 : sensor_groups 3 (get m 3)) by (apply get_group; [exact Hc | intros _; reflexivity]).
    destruct (PyNum.py_float (get m 3)) as [temp | |] eqn:Htemp; cbn [bind];
      try discriminate.
    apply IH. intros name s0 Hin.
    destruct (dict_set_in _ _ _ _ _ Hin) as [Heq | Hold].
    + inversion Heq; subst. cbn. eapply py_float_unsigned; [apply (H3 eq_refl) | exact Htemp].
    + eapply Hacc; eassumption.
Qed.

Lemma record_rows_ok (lines : list string) :
  forall acc, Forall service_name acc -> Forall service_name (record_rows lines acc).
Proof.
  induction lines as [| line rest IH]; intros acc Hacc; cbn [record_rows]; [exact Hacc |].
  destruct (Re.re_match record_re line) as [m |] eqn:Hm; [| now apply IH].
  apply IH. apply Forall_app. split; [exact Hacc |]. constructor; [| constructor].
  assert (Hc : caps_ok record_groups m)
    by (eapply re_match_caps_ok; [apply record_re_groups | exact Hm]).
  exists (get m 1), (get m 2). split; [reflexivity |]. split.
  - apply (get_group record_groups m 1 Hc ltac:(intros _; reflexivity)). now left.
  - apply (get_group record_groups m 2 Hc ltac:(intros _; reflexivity)). now right.
Qed.

End Collectors.

(** X15: whatever the command prints, the sequence [collect_ram_stats]
    returns is in descending order of [ram_mb], and no [ram_mb] is
    negative. *)
Theorem collect_ram_stats_sorted
  (device_id : string) (run : outcome) (apps : list Diagnose.ram_app) :
  Diagnose.collect_ram_stats device_id run = Ok apps ->
  StronglySorted ram_app_ge apps /\
  Forall (fun a => nonnegative (Diagnose.r_ram_mb a)) apps.
Proof.
  unfold Diagnose.collect_ram_stats.
  destruct (Diagnose.run_adb_command _ run) as [out | |]; cbn [bind]; try discriminate.
  destruct (Diagnose.meminfo_rows _ _) as [parsed | |] eqn:Hrows; cbn [bind]; try discriminate.
  intros H; injection H as <-.
  pose proof (meminfo_rows_ok _ [] parsed (Forall_nil _) Hrows) as Hall.
  split; [now apply sort_ram_apps_sorted |].
  apply (Permutation_Forall (sort_ram_apps_perm parsed)).
  eapply Forall_impl; [| exact Hall]. intros a Ha. exact (proj2 Ha).
Qed.

Lemma collect_ram_stats_sorted_witness :
  exists apps,
    Diagnose.collect_ram_stats "emulator-5554" (Completed 0 meminfo_output "") = Ok apps /\
    map Diagnose.r_name apps = ["com.big.game"; "com.example.app"; "system"] /\
    StronglySorted ram_app_ge apps.
Proof.
  eexists. split; [vm_compute; reflexivity |]. split; [reflexivity |].
  refine (proj1 (collect_ram_stats_sorted "emulator-5554" (Completed 0 meminfo_output "") _ _)).
  vm_compute. reflexivity.
Defined.

(** X16: whatever the command prints, each process [collect_cpu_stats]
    returns has a [pid], a [cpu] and a [mem] that are not negative, each
    sensor [collect_thermal_info] returns has a [temp] that is not
    negative, and each service [collect_services] returns is two texts
    without white space joined by a slash. *)
Theorem collectors_values_nonnegative (device_id : string) (run : outcome) :
  (forall ps p, Diagnose.collect_cpu_stats device_id run = Ok ps -> In p ps ->
                (0 <= Diagnose.t_pid p)%Z /\ nonnegative (Diagnose.t_cpu p) /\
                nonnegative (Diagnose.t_mem p)) /\
  (forall sensors name s,
      Diagnose.collect_thermal_info device_id run = Ok sensors -> In (name, s) sensors ->
      nonnegative (Diagnose.s_temp s)) /\
  (forall services r,
      Diagnose.collect_services device_id run = Ok services -> In r services ->
      service_name r).
Proof.
  split; [| split].
  - intros ps p. unfold Diagnose.collect_cpu_stats.
    destruct (Diagnose.run_adb_command _ run) as [out | |]; cbn [bind]; try discriminate.
    intros H Hin. pose proof (top_rows_ok _ [] ps (Forall_nil _) H) as Hall.
    rewrite Forall_forall in Hall. exact (Hall p Hin).
  - intros sensors name s. unfold Diagnose.collect_thermal_info.
    destruct (Diagnose.run_adb_command _ run) as [out | |]; cbn [bind]; try discriminate.
    intros H Hin. eapply (sensor_rows_ok _ [] sensors); [| exact H | exact Hin].
    intros ? ? [].
  - intros services r. unfold Diagnose.collect_services.
    destruct (Diagnose.run_adb_command _ run) as [out | |]; cbn [bind]; try discriminate.
    intros H Hin. injection H as <-.
    pose proof (record_rows_ok (PyStr.splitlines out) [] (Forall_nil _)) as Hall.
    rewrite Forall_forall in Hall. exact (Hall r Hin).
Qed.

(** X17: the five collectors that run their own command end as the
    command helper does: when the command times out each returns its
    empty result, when it exits non-zero each raises [RuntimeError], and
    when [adb] is missing each ends the program with the status 1. *)
Theorem collectors_follow_command (device_id package : string) (run : outcome) :
  (times_out run = true ->
   Diagnose.collect_cpu_stats device_id run = Ok [] /\
   Diagnose.collect_ram_stats device_id run = Ok [] /\
   Diagnose.collect_thermal_info device_id run = Ok [] /\
   Diagnose.collect_gfx_stats device_id package run = Ok Diagnose.no_gfx /\
   Diagnose.collect_services device_id run = Ok []) /\
  (exits_nonzero run = true ->
   (exists msg, Diagnose.collect_cpu_stats device_id run = Raise (RuntimeError msg)) /\
   (exists msg, Diagnose.collect_ram_stats device_id run = Raise (RuntimeError msg)) /\
   (exists msg, Diagnose.collect_thermal_info device_id run = Raise (RuntimeError msg)) /\
   (exists msg, Diagnose.collect_gfx_stats device_id package run = Raise (RuntimeError msg)) /\
   (exists msg, Diagnose.collect_services device_id run = Raise (RuntimeError msg))) /\
  (run = FileNotFoundError ->
   Diagnose.collect_cpu_stats device_id run = SysExit 1 /\
   Diagnose.collect_ram_stats device_id run = SysExit 1 /\
   Diagnose.collect_thermal_info device_id run = SysExit 1 /\
   Diagnose.collect_gfx_stats device_id package run = SysExit 1 /\
   Diagnose.collect_services device_id run = SysExit 1).
Proof.
  split; [| split].
  - destruct run; try discriminate. intros _. repeat split.
  - destruct run as [rc out err | | |]; try discriminate. cbn [exits_nonzero]. intros Hrc.
    unfold Diagnose.collect_cpu_stats, Diagnose.collect_ram_stats,
      Diagnose.collect_thermal_info, Diagnose.collect_gfx_stats, Diagnose.collect_services,
      Diagnose.run_adb_command.
    rewrite Hrc. cbn [bind]. repeat split; eexists; reflexivity.
  - intros ->. repeat split.
Qed.

(** ** [clear_cache_android.py] *)

(** X18: [clear_cache] ends the program with the status 1 exactly when
    [adb] is missing or the command times out, and returns normally
    exactly when the command ran to its end; a command that ran and
    failed prints the error and its error output, and the call still
    returns normally. *)
Theorem clear_cache_exit_status (run : outcome) :
  (snd (ClearCache.clear_cache run) = SysExit 1 <->
   run = FileNotFoundError \/ run = TimeoutExpired) /\
  (snd (ClearCache.clear_cache run) = Ok tt <->
   exists returncode stdout stderr, run = Completed returncode stdout stderr) /\
  (forall returncode stdout stderr,
      run = Completed returncode stdout stderr -> returncode <> 0%Z ->
      ClearCache.clear_cache run
      = (["Clearing cache for all apps on connected Android device...";
          "[ERROR] Failed to clear cache."; PyStr.strip stderr], Ok tt)).
Proof.
  destruct run as [rc out err | | | e]; cbn [ClearCache.clear_cache].
  - destruct (Z.eqb_spec rc 0) as [-> | Hrc]; cbn [snd]; repeat split; intros;
      try discriminate; eauto; try (destruct H; discriminate).
    + congruence.
    + injection H as <- <- <-. reflexivity.
  - repeat split; intros; try discriminate; auto.
    destruct H as (? & ? & ? & ?); discriminate.
  - repeat split; intros; try discriminate; auto.
    destruct H as (? & ? & ? & ?); discriminate.
  - repeat split; intros; try discriminate; try (destruct H; discriminate).
    destruct H as (? & ? & ? & ?); discriminate.
Qed.
